(** * The s3desk end-to-end runner (e2e/runner/runner.py)

    A shallow embedding of the runner's transport layer, retry coordinator,
    multipart encoder, readiness waiter, job poller, bucket-policy adapters
    and bucket creation, followed by the properties of the specification that
    concern them and by further properties of the code.

    Conventions of the embedding.
    - Python values that come out of [json.loads] are values of [JSON];
      Python's [None] is [JNull].
    - A Python float is given by the rational it denotes ([Q]).  Its
      arithmetic is that of the machine the runner runs on: rounded products
      and powers come from a [Machine], of which only the laws of double
      arithmetic are assumed.
    - [exn] ranges over instances of [Exception], which is what the runner's
      [except Exception] clauses catch.
    - Effects are explicit: what a function prints, sleeps, sends and calls is
      appended to a chronological list of [Event]s. *)

From Stdlib Require Import ZArith QArith Qabs Qpower List String Ascii Bool Lia.
From Stdlib Require Import Strings.Byte DecimalString.
Import ListNotations.
Local Open Scope string_scope.
Local Open Scope list_scope.
Set Warnings "-register-all".

(** ** Python values *)

Inductive JSON : Type :=
| JNull
| JBool (b : bool)
| JNum (n : Z)
| JStr (s : string)
| JArr (items : list JSON)
| JObj (fields : list (string * JSON)).

Definition string_of_Z (z : Z) : string := NilEmpty.string_of_int (Z.to_int z).

(** [d.get(k)]: the value stored under [k], [None] when there is none. *)
Fixpoint dict_get (d : list (string * JSON)) (k : string) : JSON :=
  match d with
  | [] => JNull
  | (k', v) :: d' => if String.eqb k' k then v else dict_get d' k
  end.

(** [k in d] *)
Fixpoint dict_has (d : list (string * JSON)) (k : string) : bool :=
  match d with
  | [] => false
  | (k', _) :: d' => String.eqb k' k || dict_has d' k
  end.

(** [d[k] = v]: an existing key keeps its place, a new one goes last. *)
Fixpoint dict_set {V : Type} (d : list (string * V)) (k : string) (v : V)
  : list (string * V) :=
  match d with
  | [] => [(k, v)]
  | (k', v') :: d' =>
      if String.eqb k' k then (k', v) :: d' else (k', v') :: dict_set d' k v
  end.

Fixpoint lookup {V : Type} (d : list (string * V)) (k : string) : option V :=
  match d with
  | [] => None
  | (k', v) :: d' => if String.eqb k' k then Some v else lookup d' k
  end.

(** [v == s] for a string literal [s]: only a string equals a string. *)
Definition py_eq_str (v : JSON) (s : string) : bool :=
  match v with
  | JStr t => String.eqb t s
  | _ => false
  end.

(** [v is True], [v is False] *)
Definition is_True (v : JSON) : bool :=
  match v with JBool true => true | _ => false end.

Definition is_False (v : JSON) : bool :=
  match v with JBool false => true | _ => false end.

(** Truth value of a Python object, as [if v:] tests it. *)
Definition py_truthy (v : JSON) : bool :=
  match v with
  | JNull => false
  | JBool b => b
  | JNum n => negb (n =? 0)%Z
  | JStr s => negb (String.eqb s "")
  | JArr l => match l with [] => false | _ => true end
  | JObj d => match d with [] => false | _ => true end
  end.

(** ** Exceptions *)

(** [class HTTPFailure(RuntimeError)] *)
Record HTTPFailure : Type := mkHTTPFailure {
  status : Z;
  method : string;
  path : string;
  headers : list (string * string);
  body_text : option string;
  error_code : JSON;
  normalized_code : JSON;
  normalized_retryable : JSON;
  retry_after : option string;
  request_id : option string
}.

Inductive exn : Type :=
| HTTPFailureExc (f : HTTPFailure)
| RuntimeError (msg : string)
| PyError (cls : string) (msg : string).
  (* any other Exception: ValueError, AttributeError, JSONDecodeError, ... *)

(** [str(e)].  [HTTPFailure.__init__] hands
    [f"HTTP {status} {method} {path}"] to [RuntimeError]. *)
Definition exn_str (e : exn) : string :=
  match e with
  | HTTPFailureExc f =>
      ("HTTP " ++ string_of_Z (status f) ++ " " ++ method f ++ " " ++ path f)%string
  | RuntimeError msg => msg
  | PyError _ msg => msg
  end.

Inductive outcome (A : Type) : Type :=
| Ret (a : A)
| Raise (e : exn).
Arguments Ret {A} a.
Arguments Raise {A} e.

(** ** Observable effects *)

Inductive Payload : Type :=
| NoData
| JsonData (j : JSON)          (* json.dumps(json_body).encode("utf-8") *)
| RawData (b : list byte).

Inductive Event : Type :=
| EvCall                                   (* retry invoked [fn()] *)
| EvLog (line : string)                    (* log(line) *)
| EvSleep (secs : Q)                       (* time.sleep(secs) returned *)
| EvRequest (meth url : string) (hdrs : list (string * string)) (data : Payload).

Definition is_call (e : Event) : bool :=
  match e with EvCall => true | _ => false end.

Definition calls (tr : list Event) : nat := List.length (filter is_call tr).

Fixpoint sleeps (tr : list Event) : list Q :=
  match tr with
  | [] => []
  | EvSleep d :: tr' => d :: sleeps tr'
  | _ :: tr' => sleeps tr'
  end.

Fixpoint logs (tr : list Event) : list string :=
  match tr with
  | [] => []
  | EvLog l :: tr' => l :: logs tr'
  | _ :: tr' => logs tr'
  end.

(** ** The machine

    What the runner takes from the machine it runs on and what cannot be read
    off the repository: the double arithmetic behind Python's [*] and [**],
    and the longest sleep the operating system takes.

    A Python float is given by the rational number it denotes.  [fmul a b] is
    the double [a * b]; a product beyond the range of the doubles, which is an
    infinity in Python, is a rational beyond that range here ([min] and
    [time.sleep] treat the two alike).  [fpow x n] is [x ** n] for an int
    [n >= 0], as the C library's [pow] computes it; [None] stands for the
    exception it raises ([OverflowError] when the result leaves the doubles).
    The laws are those of IEEE 754 multiplication (correctly rounded, hence
    monotone, exact when a factor is 1) and of a [pow] that is accurate to
    one unit in the last place, stated with room to spare. *)

(** Up to here a power is surely a double: [2^1024 * (1 - 2^-50)]. *)
Definition POW_SAFE : Q := inject_Z (2 ^ 1024 - 2 ^ 974).

(** Twice the unit roundoff of a double: [2^-51]. *)
Definition POW_TOLERANCE : Q := 1 # (2 ^ 51).

Class Machine : Type := {
  fmul : Q -> Q -> Q;
  fpow : Q -> Z -> option Q;
  (* the least length the sleep call of the operating system refuses; on Linux
     about 9223372036 s less the time since boot *)
  sleep_limit : Q;
  fmul_one : forall a, fmul a 1 = a;
  fmul_nonneg : forall a b, 0 <= a -> 0 <= b -> 0 <= fmul a b;
  fmul_mono : forall a b c, 0 <= a -> b <= c -> fmul a b <= fmul a c;
  fpow_zero : forall x, fpow x 0 = Some 1;
  fpow_overflow :
    forall x n, (0 <= n <= 2 ^ 53)%Z -> inject_Z (2 ^ 1024) <= x ^ n ->
                fpow x n = None;
  fpow_overflow_far :
    forall x n, (0 <= n)%Z -> inject_Z (2 ^ 1025) <= x ^ n -> fpow x n = None;
  fpow_close :
    forall x n, 1 <= x -> (0 <= n <= 2 ^ 53)%Z -> x ^ n <= POW_SAFE ->
                exists v, fpow x n = Some v
                          /\ (1 - POW_TOLERANCE) * x ^ n <= v
                          /\ v <= (1 + POW_TOLERANCE) * x ^ n;
  sleep_limit_above_cap : 5 # 1 < sleep_limit
}.

(** [time.sleep(secs)] (CPython 3.11: [time_sleep] in Modules/timemodule.c,
    [pytime_from_double] in Python/pytime.c).  The length is first turned into
    a count of nanoseconds, the double [secs * 1e9]: a count outside the
    64-bit integers is an [OverflowError].  A negative count is a
    [ValueError], and so is the one count that rounds to [2^63], which the
    conversion wraps to the least 64-bit integer.  The bounds below are the
    rationals at which the rounding of [secs * 1e9] to a double turns.  A
    length that passes is handed to the operating system, which refuses it
    with [OSError] from [sleep_limit] on.  [sleep_refusal secs] is the
    exception [time.sleep(secs)] raises, if any. *)
Definition sleep_refusal {m : Machine} (secs : Q) : option exn :=
  let ns := secs * inject_Z (10 ^ 9) in
  let too_large :=
    PyError "OverflowError" "timestamp too large to convert to C _PyTime_t" in
  let negative := PyError "ValueError" "sleep length must be non-negative" in
  if Qlt_le_dec ns (inject_Z (- (2 ^ 63 + 1024))) then Some too_large
  else if Qlt_le_dec (inject_Z (2 ^ 63 + 1024)) ns then Some too_large
  else if Qlt_le_dec secs 0 then Some negative
  else if Qlt_le_dec ns (inject_Z (2 ^ 63 - 512)) then
    if Qlt_le_dec secs sleep_limit then None
    else Some (PyError "OSError" "[Errno 22] Invalid argument")
  else Some negative.

Definition time_sleep {m : Machine} (secs : Q) (tr : list Event)
  : outcome unit * list Event :=
  match sleep_refusal secs with
  | Some e => (Raise e, tr)
  | None => (Ret tt, tr ++ [EvSleep secs])
  end.

(** ** Backoff *)

(** [min(a, b)]: Python returns [b] only when [b < a]. *)
Definition py_min (a b : Q) : Q := if Qlt_le_dec b a then b else a.

(** The defaults [factor = 1.3], the double nearest to 13/10, and
    [max_s = 5.0]. *)
Definition default_factor : Q := 5854679515581645 # 4503599627370496.
Definition default_max_s : Q := 5 # 1.

Definition sleep_backoff {m : Machine} (base_s : Q) (attempt : Z)
    (factor max_s : Q) : Q :=
  match fpow factor (Z.max 0 (attempt - 1)) with
  | Some p => py_min max_s (fmul base_s p)
  | None => base_s                      (* except Exception: return base_s *)
  end.

(** ** Retry coordinator *)

Section Retry.
Context {St A : Type}.
Context {m : Machine}.

(** A Python callable: its hidden state (closure, backend, network) is
    [St]; one call yields an outcome and the next state. *)
Variable fn : St -> outcome A * St.

Definition raise_last (what : string) (last_err : option exn) : outcome A :=
  match last_err with
  | None => Raise (RuntimeError (what ++ " failed"))
  | Some e => Raise e
  end.

Definition retry_log (what : string) (i attempts : Z) (e : exn) : string :=
  (what ++ " failed (attempt " ++ string_of_Z i ++ "/" ++ string_of_Z attempts
        ++ "): " ++ exn_str e)%string.

(** The [for i in range(1, attempts + 1)] loop; [n] iterations remain. *)
Fixpoint retry_loop (what : string) (attempts : Z) (base_delay_s : Q)
    (n : nat) (i : Z) (last_err : option exn) (s : St) (tr : list Event)
  : outcome A * (St * list Event) :=
  match n with
  | O => (raise_last what last_err, (s, tr))
  | S n' =>
      let (r, s') := fn s in
      let tr1 := tr ++ [EvCall] in
      match r with
      | Ret v => (Ret v, (s', tr1))
      | Raise e =>
          if (i >=? attempts)%Z
          then (raise_last what (Some e), (s', tr1))          (* break *)
          else
            let tr2 := tr1 ++ [EvLog (retry_log what i attempts e)] in
            match time_sleep
                    (sleep_backoff base_delay_s i default_factor default_max_s)
                    tr2 with
            | (Ret _, tr3) =>
                retry_loop what attempts base_delay_s n' (i + 1)%Z (Some e) s' tr3
            | (Raise e', tr3) => (Raise e', (s', tr3))
            end
      end
  end.

Definition retry (what : string) (attempts : Z) (base_delay_s : Q)
    (s : St) (tr : list Event) : outcome A * (St * list Event) :=
  retry_loop what attempts base_delay_s (Z.to_nat attempts) 1%Z None s tr.

(** The state in which the [(n+1)]-th call of [fn] starts, and what that
    call does. *)
Fixpoint nth_state (s : St) (n : nat) : St :=
  match n with
  | O => s
  | S n' => nth_state (snd (fn s)) n'
  end.

Definition nth_outcome (s : St) (n : nat) : outcome A :=
  fst (fn (nth_state s n)).

End Retry.

(** An operation that fails [k] times and then returns [v]. *)
Definition fails_then_succeeds {St A : Type} (fn : St -> outcome A * St)
    (s : St) (k : nat) (v : A) : Prop :=
  (forall j, (j < k)%nat -> exists e, nth_outcome fn s j = Raise e)
  /\ nth_outcome fn s k = Ret v.

(** A scripted callable for tests: it plays a list of outcomes, one per call,
    and fails with [exhausted] once the list is used up. *)
Definition scripted {A : Type} (exhausted : exn)
    (script : list (outcome A)) : outcome A * list (outcome A) :=
  match script with
  | [] => (Raise exhausted, [])
  | r :: rest => (r, rest)
  end.


(** The integers [i, i+1, ..., i+k-1]: the attempt numbers of [k] turns of
    the loop that start at attempt [i]. *)
Fixpoint zrange (i : Z) (k : nat) : list Z :=
  match k with
  | O => []
  | S k' => i :: zrange (i + 1) k'
  end.

(** The delay [d] that the formula of the specification,
    [min(5.0, base_s * 1.3 ** (i - 1))], gives at the [i]-th failure in the
    arithmetic of the machine, where the double [p = 1.3 ** (i - 1)] is the
    power of the real numbers up to the rounding of [pow]; from the 2707-th
    failure on, where [1.3 ** 2706] is no double any more, [d] is [base_s]. *)
Definition backoff_delay {m : Machine} (base_s : Q) (i : Z) (d : Q) : Prop :=
  if (i <=? 2706)%Z
  then exists p, fpow default_factor (i - 1) = Some p
                 /\ (1 - POW_TOLERANCE) * default_factor ^ (i - 1) <= p
                 /\ p <= (1 + POW_TOLERANCE) * default_factor ^ (i - 1)
                 /\ d = py_min (5 # 1) (fmul base_s p)
  else d = base_s.

(** ** Retry metadata

    The fields of an [HTTPFailure] that say whether and when a retry is
    welcome.  [erase_exn] blanks them, so two failures that differ in them
    only have the same erasure. *)
Definition erase_exn (e : exn) : exn :=
  match e with
  | HTTPFailureExc f =>
      HTTPFailureExc
        (mkHTTPFailure (status f) (method f) (path f) (headers f) (body_text f)
           (error_code f) (normalized_code f) JNull None (request_id f))
  | _ => e
  end.

Definition erase_outcome {A : Type} (r : outcome A) : outcome A :=
  match r with
  | Ret v => Ret v
  | Raise e => Raise (erase_exn e)
  end.

(** The bytes of an ASCII literal. *)
Definition bytes_of (s : string) : list byte := list_byte_of_string s.

(** ** The Python runtime and the process environment *)

(** What a builtin of the Python library does: it returns, or it raises an
    exception of a class of its own ([cls]), never one of the runner's. *)
Inductive builtin_result (A : Type) : Type :=
| Value (a : A)
| Fails (cls msg : string).
Arguments Value {A} a.
Arguments Fails {A} cls msg.

Definition of_builtin {A : Type} (r : builtin_result A) : outcome A :=
  match r with
  | Value a => Ret a
  | Fails cls msg => Raise (PyError cls msg)
  end.

(** Builtins the runner calls whose code is not part of the repository. *)
Record PyRuntime : Type := {
  json_loads : string -> builtin_result JSON;        (* json.loads(text) *)
  utf8_strict : list byte -> builtin_result string;  (* data.decode("utf-8") *)
  utf8_replace : list byte -> string;     (* data.decode("utf-8", errors="replace") *)
  py_repr : JSON -> string;               (* repr(v), f"{v!r}" *)
  str_len : string -> nat;                (* len(s), in code points *)
  str_prefix : nat -> string -> string;   (* s[:n], the first n code points *)
  str_strip : string -> string;           (* s.strip(), of Unicode whitespace *)
  str_rstrip : string -> string           (* s.rstrip() *)
}.

(** What a request meets on the wire, after urllib has followed redirects. *)
Inductive Wire : Type :=
| WireResponse (code : Z) (hdrs : list (string * string)) (body : list byte)
| WireNoResponse (reason : string)       (* DNS, connection refused, timeout *)
| WireRaises (cls msg : string).         (* the connection breaks in another way:
                                            http.client.RemoteDisconnected,
                                            TimeoutError while reading, ... *)

Record Env : Type := {
  BASE_URL : string;
  API_TOKEN : string;
  E2E_GCS_IAM : option string;           (* os.environ.get("E2E_GCS_IAM") *)
  clock : nat -> Q;                      (* what the n-th time.time() returns *)
  server : nat -> Wire;                  (* what the n-th request meets *)
  machine : Machine                      (* the machine the runner runs on *)
}.

Record World : Type := mkWorld {
  ticks : nat;                           (* calls of time.time() so far *)
  sent : nat;                            (* requests issued so far *)
  trace : list Event
}.

(** Effectful runner code: it may raise, and it changes the world. *)
Definition M (A : Type) : Type := World -> outcome A * World.

Definition ret {A : Type} (a : A) : M A := fun w => (Ret a, w).

Definition raise {A : Type} (e : exn) : M A := fun w => (Raise e, w).

Definition bind {A B : Type} (c : M A) (k : A -> M B) : M B :=
  fun w =>
    match c w with
    | (Ret a, w') => k a w'
    | (Raise e, w') => (Raise e, w')
    end.

(** [try: c  except Exception as e: h e] *)
Definition try_except {A : Type} (c : M A) (h : exn -> M A) : M A :=
  fun w =>
    match c w with
    | (Ret a, w') => (Ret a, w')
    | (Raise e, w') => h e w'
    end.

Declare Scope py_scope.
Delimit Scope py_scope with py.
Notation "x <- c ;; k" := (bind c (fun x => k))
  (at level 100, c at next level, right associativity) : py_scope.
Notation "' pat <- c ;; k" := (bind c (fun x => match x with pat => k end))
  (at level 100, pat pattern, c at next level, right associativity) : py_scope.
Notation "c ;;; k" := (bind c (fun _ => k))
  (at level 100, right associativity) : py_scope.
Local Open Scope py_scope.

Definition emit (e : Event) : M unit :=
  fun w => (Ret tt, mkWorld (ticks w) (sent w) (trace w ++ [e])).

Definition log (msg : string) : M unit := emit (EvLog msg).

Definition sleep {m : Machine} (secs : Q) : M unit :=
  fun w =>
    match time_sleep secs (trace w) with
    | (r, tr) => (r, mkWorld (ticks w) (sent w) tr)
    end.

(** [if c: body] for a statement [body] *)
Definition when (c : bool) (body : M unit) : M unit :=
  if c then body else ret tt.

(** Truth value of an optional string: [None] and [""] are false. *)
Definition str_truthy (o : option string) : bool :=
  match o with
  | Some s => negb (String.eqb s "")
  | None => false
  end.

(** [a or b] on optional strings *)
Definition py_or (a b : option string) : option string :=
  if str_truthy a then a else b.

(** [{k: v for k, v in items}]: a later item overrides an earlier one. *)
Definition dict_of_items {V : Type} (items : list (string * V))
  : list (string * V) :=
  fold_left (fun d kv => dict_set d (fst kv) (snd kv)) items [].

(** [str(o)] for an optional string *)
Definition opt_str (o : option string) : string :=
  match o with
  | Some s => s
  | None => "None"
  end.

(** ** Transport *)

Inductive urlopen_result : Type :=
| UrlOk (code : Z) (hdrs : list (string * string)) (body : list byte)
| UrlHTTPError (code : Z) (hdrs : list (string * string)) (body : list byte)
| UrlURLError (reason : string)
| UrlRaises (cls msg : string).

(** [urllib.request.urlopen] and the reading of the response: the
    HTTPErrorProcessor returns a response only when [200 <= code < 300];
    every other response is raised as [urllib.error.HTTPError]; no response
    at all is [urllib.error.URLError]; what http.client and the socket raise
    besides ([RemoteDisconnected], [TimeoutError], [IncompleteRead], ...) is
    neither, and passes through. *)
Definition urlopen (wire : Wire) : urlopen_result :=
  match wire with
  | WireResponse code hdrs body =>
      if ((200 <=? code) && (code <? 300))%Z
      then UrlOk code hdrs body
      else UrlHTTPError code hdrs body
  | WireNoResponse reason => UrlURLError reason
  | WireRaises cls msg => UrlRaises cls msg
  end.

Section Runner.
Variable rt : PyRuntime.
Variable env : Env.

(** [str(v)], [f"{v}"] *)
Definition py_str (v : JSON) : string :=
  match v with
  | JStr s => s
  | _ => py_repr rt v
  end.

(** [time.time()] *)
Definition time_time (w : World) : Q * World :=
  (clock env (ticks w), mkWorld (S (ticks w)) (sent w) (trace w)).

(** The error envelope
    [{"error": {"code": .., "normalizedError": {"code": .., "retryable": ..}}}]:
    the triple [(err_code, norm_code, norm_retryable)]. *)
Definition parse_error_envelope (decoded : string) : JSON * JSON * JSON :=
  match json_loads rt decoded with
  | Value (JObj parsed) =>
      match dict_get parsed "error" with
      | JObj er =>
          let err_code := dict_get er "code" in
          match dict_get er "normalizedError" with
          | JObj norm => (err_code, dict_get norm "code", dict_get norm "retryable")
          | _ => (err_code, JNull, JNull)
          end
      | _ => (JNull, JNull, JNull)
      end
  | _ => (JNull, JNull, JNull)          (* except Exception: pass *)
  end.

Definition request_headers (profile_id : option string)
    (json_body : option JSON) (body : option (list byte))
    (content_type accept : option string) : list (string * string) :=
  let h0 := [("X-Api-Token", API_TOKEN env)] in
  let h1 := if str_truthy profile_id
            then dict_set h0 "X-Profile-Id" (opt_str profile_id) else h0 in
  let h2 := if str_truthy accept
            then dict_set h1 "Accept" (opt_str accept) else h1 in
  match json_body, body with
  | Some _, _ => dict_set h2 "Content-Type" "application/json"
  | None, Some _ =>
      if str_truthy content_type
      then dict_set h2 "Content-Type" (opt_str content_type) else h2
  | None, None => h2
  end.

Definition request_data (json_body : option JSON) (body : option (list byte))
  : Payload :=
  match json_body, body with
  | Some j, _ => JsonData j
  | None, Some b => RawData b
  | None, None => NoData
  end.

Definition clip (decoded : string) : string :=
  if (str_len rt decoded <=? 4000)%nat then decoded
  else (str_prefix rt 4000 decoded ++ "...<clipped>")%string.

Definition _request (meth pth : string) (profile_id : option string)
    (json_body : option JSON) (body : option (list byte))
    (content_type accept : option string)
  : M (Z * list (string * string) * list byte) :=
  fun w =>
    let hdrs := request_headers profile_id json_body body content_type accept in
    let req := EvRequest meth (BASE_URL env ++ pth)%string hdrs
                         (request_data json_body body) in
    let w1 := mkWorld (ticks w) (S (sent w)) (trace w ++ [req]) in
    match urlopen (server env (sent w)) with
    | UrlOk code rh rb => (Ret (code, dict_of_items rh, rb), w1)
    | UrlHTTPError code rh err_body =>
        let resp_headers := dict_of_items rh in
        let retry_after' := lookup resp_headers "Retry-After" in
        let request_id' :=
          py_or (py_or (lookup resp_headers "X-Request-Id")
                       (lookup resp_headers "X-Request-ID"))
                (lookup resp_headers "X-Amzn-Requestid") in
        let decoded := utf8_replace rt err_body in
        let '(err_code, norm_code, norm_retryable) :=
          parse_error_envelope decoded in
        (log ("HTTP " ++ string_of_Z code ++ " " ++ meth ++ " " ++ pth) ;;;
         when (str_truthy request_id')
              (log ("  X-Request-Id: " ++ opt_str request_id')) ;;;
         when (str_truthy retry_after')
              (log ("  Retry-After: " ++ opt_str retry_after')) ;;;
         when (py_truthy err_code)
              (log ("  ErrorResponse.code: " ++ py_str err_code)) ;;;
         when (match norm_code with JNull => false | _ => true end)
              (log ("  ErrorResponse.normalizedError: " ++ py_str norm_code
                    ++ " retryable=" ++ py_str norm_retryable)) ;;;
         when (negb (String.eqb decoded ""))
              (log ("  Body: " ++ clip decoded)) ;;;
         raise (HTTPFailureExc
                  (mkHTTPFailure code meth pth resp_headers (Some decoded)
                     err_code norm_code norm_retryable retry_after' request_id')))
          w1
    | UrlURLError reason =>
        (Raise (RuntimeError ("Network error " ++ meth ++ " " ++ pth
                               ++ ": <urlopen error " ++ reason ++ ">")), w1)
    | UrlRaises cls msg =>
        (* neither [except] clause matches *)
        (Raise (PyError cls msg), w1)
    end.

Definition unexpected_http (code : Z) (meth pth : string) : exn :=
  RuntimeError ("Unexpected HTTP " ++ string_of_Z code ++ " " ++ meth ++ " " ++ pth).

Definition outside_2xx (code : Z) : bool := ((code <? 200) || (code >=? 300))%Z.

(** Lift a pure fallible step into [M]. *)
Definition lift {A : Type} (r : outcome A) : M A := fun w => (r, w).

Definition request_json (meth pth : string) (profile_id : option string)
    (json_body : option JSON) : M JSON :=
  '(code, _, body) <- _request meth pth profile_id json_body None None
                               (Some "application/json") ;;
  if outside_2xx code then raise (unexpected_http code meth pth)
  else match body with
       | [] => ret (JObj [])
       | _ => text <- lift (of_builtin (utf8_strict rt body)) ;;
              lift (of_builtin (json_loads rt text))
       end.

Definition request_bytes (meth pth : string) (profile_id : option string)
  : M (list byte) :=
  '(code, _, body) <- _request meth pth profile_id None None None None ;;
  if outside_2xx code then raise (unexpected_http code meth pth)
  else ret body.

Definition request_text (meth pth : string) (profile_id : option string)
  : M string :=
  '(code, _, body) <- _request meth pth profile_id None None None
                               (Some "text/plain") ;;
  if outside_2xx code then raise (unexpected_http code meth pth)
  else ret (utf8_replace rt body).

(** ** Small Python idioms *)

(** [if cond: raise e] *)
Definition check (cond : bool) (e : exn) : M unit :=
  if cond then raise e else ret tt.

(** Run [c] and hand its outcome to the code that follows a [try]. *)
Definition attempt {A : Type} (c : M A) : M (outcome A) :=
  fun w => match c w with (r, w') => (Ret r, w') end.

Definition isinstance_dict (v : JSON) : bool :=
  match v with JObj _ => true | _ => false end.

(** [v.get(k)] where [v] is known to be a dict *)
Definition obj_get (v : JSON) (k : string) : JSON :=
  match v with
  | JObj d => dict_get d k
  | _ => JNull
  end.

(** [str.lower] on ASCII *)
Definition lower_ascii (c : ascii) : ascii :=
  let n := nat_of_ascii c in
  if ((65 <=? n) && (n <=? 90))%nat then ascii_of_nat (n + 32) else c.

Fixpoint py_lower (s : string) : string :=
  match s with
  | EmptyString => EmptyString
  | String c s' => String (lower_ascii c) (py_lower s')
  end.

(** ** Job poller *)

Definition job_failed_msg (job_id : string) (st err : JSON) : string :=
  "Job " ++ job_id ++ " ended with status=" ++ py_str st ++ ": " ++ py_str err.

Definition job_timeout_msg (job_id : string) : string :=
  "Job " ++ job_id ++ " did not finish within 180s".

Definition job_path (job_id : string) : string := "/jobs/" ++ job_id.

Definition job_logs_path (job_id : string) : string :=
  "/jobs/" ++ job_id ++ "/logs?tailBytes=65536".

(** The [try: ... except Exception as e: log(warn)] block of [poll_job]. *)
Definition fetch_job_logs (job_id profile_id : string) : M unit :=
  try_except
    (tail <- request_text "GET" (job_logs_path job_id) (Some profile_id) ;;
     when (negb (String.eqb (str_strip rt tail) ""))
          (log "---- job logs (tail) ----" ;;;
           log (str_rstrip rt tail) ;;;
           log "---- end job logs ----"))
    (fun e => log ("(warn) failed to fetch job logs: " ++ exn_str e)).

(** [type(v).__name__] *)
Definition py_type_name (v : JSON) : string :=
  match v with
  | JNull => "NoneType"
  | JBool _ => "bool"
  | JNum _ => "int"
  | JStr _ => "str"
  | JArr _ => "list"
  | JObj _ => "dict"
  end.

(** What [v.get] raises when [v] is not a dict. *)
Definition no_get_attribute (v : JSON) : exn :=
  PyError "AttributeError"
          ("'" ++ py_type_name v ++ "' object has no attribute 'get'").

(** The [while time.time() < deadline] loop.  [None]: the loop is still
    running after [fuel] iterations. *)
Fixpoint poll_loop (fuel : nat) (job_id profile_id : string) (deadline : Q)
    (w : World) : option (outcome unit * World) :=
  match fuel with
  | O => None
  | S fuel' =>
      let (now, w1) := time_time w in
      if Qlt_le_dec now deadline then
        match request_json "GET" (job_path job_id) (Some profile_id) None w1 with
        | (Raise e, w2) => Some (Raise e, w2)
        | (Ret (JObj job), w2) =>
            let st := dict_get job "status" in
            if py_eq_str st "succeeded" then Some (Ret tt, w2)
            else if py_eq_str st "failed" || py_eq_str st "canceled" then
              Some ((fetch_job_logs job_id profile_id ;;;
                     raise (RuntimeError
                              (job_failed_msg job_id st (dict_get job "error"))))
                      w2)
            else
              match sleep (m := machine env) 1 w2 with
              | (Ret _, w3) => poll_loop fuel' job_id profile_id deadline w3
              | (Raise e, w3) => Some (Raise e, w3)
              end
        | (Ret job, w2) =>
            (* job.get on something that is not a dict *)
            Some (Raise (no_get_attribute job), w2)
        end
      else Some (Raise (RuntimeError (job_timeout_msg job_id)), w1)
  end.

Definition poll_job (fuel : nat) (job_id profile_id : string) (w : World)
  : option (outcome unit * World) :=
  let (t0, w0) := time_time w in
  poll_loop fuel job_id profile_id (t0 + 180) w0.

(** ** Readiness waiter *)

Definition not_ready_msg (timeout_s : Z) (last_err : option exn) : string :=
  "Server did not become ready within " ++ string_of_Z timeout_s ++ "s: "
  ++ match last_err with
     | None => "None"
     | Some e => exn_str e
     end.

(** The body of the [try] in [wait_for_server]. *)
Definition probe_meta : M unit :=
  meta <- request_json "GET" "/meta" None None ;;
  match meta with
  | JObj d => log ("Server ready: version=" ++ py_str (dict_get d "version"))
  | _ => raise (no_get_attribute meta)
  end.

(** The [while time.time() < deadline] loop of [wait_for_server].  [None]:
    the loop is still running after [fuel] iterations. *)
Fixpoint wait_loop (fuel : nat) (timeout_s : Z) (deadline : Q)
    (last_err : option exn) (w : World) : option (outcome unit * World) :=
  match fuel with
  | O => None
  | S fuel' =>
      let (now, w1) := time_time w in
      if Qlt_le_dec now deadline then
        match probe_meta w1 with
        | (Ret _, w2) => Some (Ret tt, w2)
        | (Raise e, w2) =>
            match sleep (m := machine env) 1 w2 with
            | (Ret _, w3) => wait_loop fuel' timeout_s deadline (Some e) w3
            | (Raise e', w3) => Some (Raise e', w3)
            end
        end
      else Some (Raise (RuntimeError (not_ready_msg timeout_s last_err)), w1)
  end.

Definition wait_for_server (fuel : nat) (timeout_s : Z) (w : World)
  : option (outcome unit * World) :=
  let (t0, w0) := time_time w in
  wait_loop fuel timeout_s (t0 + inject_Z timeout_s) None w0.

(** ** Policy adapters *)

Definition policy_path (bucket : string) : string :=
  "/buckets/" ++ bucket ++ "/policy".

Definition validate_path (bucket : string) : string :=
  "/buckets/" ++ bucket ++ "/policy/validate".

Definition policy_body (doc : JSON) : option JSON := Some (JObj [("policy", doc)]).

(** [if isinstance(v, dict) and v.get("ok") is False: raise ...] *)
Definition check_validation (v : JSON) : M unit :=
  check (isinstance_dict v && is_False (obj_get v "ok"))
        (RuntimeError ("Static validation failed: " ++ py_repr rt v)).

Definition s3_policy_doc (bucket : string) : JSON :=
  JObj [("Version", JStr "2012-10-17");
        ("Statement",
         JArr [JObj [("Sid", JStr "PublicReadGetObject");
                     ("Effect", JStr "Allow");
                     ("Principal", JStr "*");
                     ("Action", JArr [JStr "s3:GetObject"]);
                     ("Resource", JArr [JStr ("arn:aws:s3:::" ++ bucket ++ "/*")])]])].

Definition exercise_bucket_policy (profile_id bucket : string) : M unit :=
  log "Bucket policy: GET (initial)" ;;;
  initial <- request_json "GET" (policy_path bucket) (Some profile_id) None ;;
  check (negb (isinstance_dict initial))
        (RuntimeError ("Unexpected bucket policy response: " ++ py_repr rt initial)) ;;;
  check (negb (py_eq_str (obj_get initial "bucket") bucket))
        (RuntimeError ("Unexpected bucket in policy response: " ++ py_repr rt initial)) ;;;
  check (negb (match initial with JObj d => dict_has d "exists" | _ => false end))
        (RuntimeError ("Missing 'exists' in policy response: " ++ py_repr rt initial)) ;;;
  let policy_doc := s3_policy_doc bucket in
  log "Bucket policy: VALIDATE (static)" ;;;
  v <- request_json "POST" (validate_path bucket) (Some profile_id)
                    (policy_body policy_doc) ;;
  check_validation v ;;;
  log "Bucket policy: PUT" ;;;
  _ <- request_json "PUT" (policy_path bucket) (Some profile_id)
                    (policy_body policy_doc) ;;
  log "Bucket policy: GET (after put)" ;;;
  after_put <- request_json "GET" (policy_path bucket) (Some profile_id) None ;;
  check (negb (isinstance_dict after_put) || negb (is_True (obj_get after_put "exists")))
        (RuntimeError ("Policy should exist after PUT: " ++ py_repr rt after_put)) ;;;
  log "Bucket policy: DELETE" ;;;
  _ <- request_json "DELETE" (policy_path bucket) (Some profile_id) None ;;
  log "Bucket policy: GET (after delete)" ;;;
  after_del <- request_json "GET" (policy_path bucket) (Some profile_id) None ;;
  check (negb (isinstance_dict after_del) || negb (is_False (obj_get after_del "exists")))
        (RuntimeError ("Policy should not exist after DELETE: " ++ py_repr rt after_del)) ;;;
  log "Bucket policy OK".

Definition azure_policy_doc : JSON :=
  JObj [("publicAccess", JStr "container");
        ("storedAccessPolicies",
         JArr [JObj [("id", JStr "e2e-read"); ("permission", JStr "r")]])].

(** [isinstance(stored, list) and any(isinstance(x, dict) and
    x.get("id") == "e2e-read" for x in stored)] *)
Definition has_e2e_read (stored : JSON) : bool :=
  match stored with
  | JArr l => existsb (fun x => isinstance_dict x && py_eq_str (obj_get x "id") "e2e-read") l
  | _ => false
  end.

(** [stored2 in ([], None)] *)
Definition in_empty_or_none (v : JSON) : bool :=
  match v with
  | JArr [] => true
  | JNull => true
  | _ => false
  end.

(** [isinstance(stored2, list) and len(stored2) != 0] *)
Definition nonempty_list (v : JSON) : bool :=
  match v with
  | JArr (_ :: _) => true
  | _ => false
  end.

Definition exercise_azure_container_policy (profile_id bucket : string) : M unit :=
  log "Azure container policy: GET (initial)" ;;;
  initial <- request_json "GET" (policy_path bucket) (Some profile_id) None ;;
  check (negb (isinstance_dict initial))
        (RuntimeError ("Unexpected bucket policy response: " ++ py_repr rt initial)) ;;;
  let policy_doc := azure_policy_doc in
  log "Azure container policy: VALIDATE (static)" ;;;
  v <- request_json "POST" (validate_path bucket) (Some profile_id)
                    (policy_body policy_doc) ;;
  check_validation v ;;;
  log "Azure container policy: PUT" ;;;
  _ <- request_json "PUT" (policy_path bucket) (Some profile_id)
                    (policy_body policy_doc) ;;
  log "Azure container policy: GET (after put)" ;;;
  after_put <- request_json "GET" (policy_path bucket) (Some profile_id) None ;;
  check (negb (isinstance_dict after_put) || negb (is_True (obj_get after_put "exists")))
        (RuntimeError ("Policy should exist after PUT: " ++ py_repr rt after_put)) ;;;
  let pol := obj_get after_put "policy" in
  check (negb (isinstance_dict pol))
        (RuntimeError ("Expected policy object: " ++ py_repr rt after_put)) ;;;
  check (negb (py_eq_str (obj_get pol "publicAccess") "container"))
        (RuntimeError ("Expected publicAccess=container: " ++ py_repr rt after_put)) ;;;
  let stored := obj_get pol "storedAccessPolicies" in
  check (negb (has_e2e_read stored))
        (RuntimeError ("Expected stored access policy e2e-read: " ++ py_repr rt after_put)) ;;;
  log "Azure container policy: RESET (DELETE)" ;;;
  _ <- request_json "DELETE" (policy_path bucket) (Some profile_id) None ;;
  log "Azure container policy: GET (after reset)" ;;;
  after_reset <- request_json "GET" (policy_path bucket) (Some profile_id) None ;;
  let pol2 := if isinstance_dict after_reset then obj_get after_reset "policy" else JNull in
  check (negb (isinstance_dict pol2))
        (RuntimeError ("Expected policy object after reset: " ++ py_repr rt after_reset)) ;;;
  check (negb (py_eq_str (obj_get pol2 "publicAccess") "private"))
        (RuntimeError ("Expected publicAccess=private after reset: " ++ py_repr rt after_reset)) ;;;
  let stored2 := obj_get pol2 "storedAccessPolicies" in
  when (negb (in_empty_or_none stored2))
       (check (nonempty_list stored2)
              (RuntimeError ("Expected storedAccessPolicies=[] after reset: "
                             ++ py_repr rt after_reset))) ;;;
  log "Azure container policy OK".

(** [os.environ.get("E2E_GCS_IAM", "").lower() in ("1", "true", "yes", "y")] *)
Definition strict_toggle (v : option string) : bool :=
  let s := py_lower (match v with Some s => s | None => "" end) in
  String.eqb s "1" || String.eqb s "true" || String.eqb s "yes" || String.eqb s "y".

Definition gcs_role : string := "roles/storage.objectViewer".

Definition gcs_default_policy : JSON :=
  JObj [("version", JNum 1); ("bindings", JArr [])].

(** One turn of [for b in bindings:]: the binding afterwards, and whether
    it set [found]. *)
Definition add_all_users (b : JSON) : JSON * bool :=
  match b with
  | JObj bd =>
      if py_eq_str (dict_get bd "role") gcs_role then
        let members := match dict_get bd "members" with
                       | JArr m => m
                       | _ => []
                       end in
        let members' := if existsb (fun x => py_eq_str x "allUsers") members
                        then members else members ++ [JStr "allUsers"] in
        (JObj (dict_set bd "members" (JArr members')), true)
      else (b, false)
  | _ => (b, false)
  end.

(** The policy the adapter applies: a copy of [original] whose
    objectViewer bindings include [allUsers].  ([json.loads(json.dumps(v))]
    gives back an equal value of [JSON].) *)
Definition gcs_modified_policy (original : JSON) : JSON :=
  let modified := match original with
                  | JObj d => d
                  | _ => [("version", JNum 1); ("bindings", JArr [])]
                  end in
  let bindings := match dict_get modified "bindings" with
                  | JArr l => l
                  | _ => []
                  end in
  let visited := map add_all_users bindings in
  let found := existsb snd visited in
  let bindings' :=
    if found then map fst visited
    else map fst visited
         ++ [JObj [("role", JStr gcs_role); ("members", JArr [JStr "allUsers"])]] in
  let modified' := dict_set modified "bindings" (JArr bindings') in
  JObj (if dict_has modified' "version" then modified'
        else dict_set modified' "version" (JNum 1)).

(** The nested [skip(where, e)] of the GCS adapter. *)
Definition gcs_skip (required : bool) (where_ : string) (e : exn) : M unit :=
  if required then raise e
  else match e with
       | HTTPFailureExc f =>
           log ("Skipping GCS IAM policy scenario (" ++ where_ ++ "): status="
                ++ string_of_Z (status f) ++ " code=" ++ py_str (error_code f)
                ++ " normalized=" ++ py_str (normalized_code f)
                ++ " retryAfter=" ++ opt_str (retry_after f))
       | _ =>
           log ("Skipping GCS IAM policy scenario (" ++ where_ ++ "): " ++ exn_str e)
       end.

Definition delete_unsupported : string := "bucket_policy_delete_unsupported".

(** The closing [try: DELETE; raise ...  except HTTPFailure as e: ...]. *)
Definition gcs_expect_delete_rejected (profile_id bucket : string) : M unit :=
  r <- attempt (request_json "DELETE" (policy_path bucket) (Some profile_id) None) ;;
  match r with
  | Ret _ => raise (RuntimeError "Expected GCS IAM delete to fail")
  | Raise (HTTPFailureExc f) =>
      check (negb (py_eq_str (error_code f) delete_unsupported))
            (RuntimeError ("Expected bucket_policy_delete_unsupported, got "
                           ++ py_str (error_code f)
                           ++ " (status=" ++ string_of_Z (status f) ++ ")"))
  | Raise e => raise e
  end.

Definition exercise_gcs_iam_policy (profile_id bucket : string) : M unit :=
  let required := strict_toggle (E2E_GCS_IAM env) in
  let skip := gcs_skip required in
  log "GCS IAM policy: GET (initial)" ;;;
  r0 <- attempt (request_json "GET" (policy_path bucket) (Some profile_id) None) ;;
  match r0 with
  | Raise e => skip "get" e
  | Ret initial =>
  check (negb (isinstance_dict initial))
        (RuntimeError ("Unexpected bucket policy response: " ++ py_repr rt initial)) ;;;
  let original := if isinstance_dict (obj_get initial "policy")
                  then obj_get initial "policy" else gcs_default_policy in
  let modified := gcs_modified_policy original in
  log "GCS IAM policy: VALIDATE (static)" ;;;
  r1 <- attempt (v <- request_json "POST" (validate_path bucket) (Some profile_id)
                                   (policy_body modified) ;;
                 check_validation v) ;;
  match r1 with
  | Raise e => skip "validate" e
  | Ret _ =>
  log "GCS IAM policy: PUT" ;;;
  r2 <- attempt (request_json "PUT" (policy_path bucket) (Some profile_id)
                              (policy_body modified)) ;;
  match r2 with
  | Raise e => skip "put" e
  | Ret _ =>
  log "GCS IAM policy: GET (after put)" ;;;
  r3 <- attempt (request_json "GET" (policy_path bucket) (Some profile_id) None) ;;
  match r3 with
  | Raise e => skip "get-after-put" e
  | Ret after =>
  let pol := if isinstance_dict after then obj_get after "policy" else JNull in
  check (negb (isinstance_dict pol))
        (RuntimeError ("Expected policy object after PUT: " ++ py_repr rt after)) ;;;
  log "GCS IAM policy: RESTORE" ;;;
  try_except
    (_ <- request_json "PUT" (policy_path bucket) (Some profile_id)
                       (policy_body original) ;;
     ret tt)
    (fun e => if required then raise e
              else log ("GCS IAM policy restore failed (ignored): " ++ exn_str e)) ;;;
  log "GCS IAM policy: DELETE (expected to fail)" ;;;
  gcs_expect_delete_rejected profile_id bucket ;;;
  log "GCS IAM policy OK"
  end end end end.

(** ** Bucket creation *)

(** [ensure_bucket], the closure of [run_scenario] over [profile_id] and
    [bucket]. *)
Definition ensure_bucket (profile_id bucket : string) : M unit :=
  _ <- request_json "POST" "/buckets" (Some profile_id)
                    (Some (JObj [("name", JStr bucket)])) ;;
  buckets <- request_json "GET" "/buckets" (Some profile_id) None ;;
  match buckets with
  | JArr l =>
      let bucket_names := map (fun b => obj_get b "name") (filter isinstance_dict l) in
      check (negb (existsb (fun v => py_eq_str v bucket) bucket_names))
            (RuntimeError ("Bucket not found after create. expected=" ++ bucket
                           ++ " got=" ++ py_repr rt (JArr bucket_names)))
  | _ => raise (RuntimeError ("Unexpected /buckets response: " ++ py_repr rt buckets))
  end.

(** ** Observing a run *)

(** The requests of a trace, in order: method and URL. *)
Fixpoint requests (tr : list Event) : list (string * string) :=
  match tr with
  | [] => []
  | EvRequest meth url _ _ :: tr' => (meth, url) :: requests tr'
  | _ :: tr' => requests tr'
  end.

(** What [request_json] and [request_text] give back when theirs is the
    [n]-th request of the process (counting from 0): the outcome of the very
    functions above, run where [n] requests have been sent. *)
Definition json_answer (n : nat) (meth pth : string) (profile_id : option string)
    (json_body : option JSON) : outcome JSON :=
  fst (request_json meth pth profile_id json_body (mkWorld 0 n [])).

Definition text_answer (n : nat) (meth pth : string) (profile_id : option string)
  : outcome string :=
  fst (request_text meth pth profile_id (mkWorld 0 n [])).

End Runner.

(** [w2] is [w1] after some lines were logged and nothing else happened. *)
Definition logged_only (w1 w2 : World) : Prop :=
  ticks w2 = ticks w1 /\ sent w2 = sent w1
  /\ requests (trace w2) = requests (trace w1)
  /\ sleeps (trace w2) = sleeps (trace w1).

(** [w2] is [w1] after the request [req] was sent, and perhaps lines logged. *)
Definition after_request (w1 w2 : World) (req : string * string) : Prop :=
  ticks w2 = ticks w1 /\ sent w2 = S (sent w1)
  /\ requests (trace w2) = requests (trace w1) ++ [req]
  /\ sleeps (trace w2) = sleeps (trace w1).

(** A statement that only logs. *)
Definition quiet (c : M unit) : Prop :=
  forall w, exists w', c w = (Ret tt, w') /\ logged_only w w'.

(** A job status that ends the polling. *)
Definition terminal_status (st : JSON) : bool :=
  py_eq_str st "succeeded" || py_eq_str st "failed" || py_eq_str st "canceled".

(** A poll that came back with a job that is still on its way. *)
Definition pending_poll (r : outcome JSON) : Prop :=
  exists job, r = Ret (JObj job) /\ terminal_status (dict_get job "status") = false.

(** ** Test doubles

    A runtime for ASCII text whose [json.loads] is a table, a server that
    plays a list of answers, a clock that advances one second per reading,
    and a machine whose arithmetic is exact. *)

(** A machine for tests: arithmetic without rounding error, in which a power
    is a double up to [DBL_MAX], and the sleep limit of a Linux system at
    boot. *)
Definition DBL_MAX : Q := inject_Z ((2 ^ 53 - 1) * 2 ^ 971).

Definition exact_pow (x : Q) (n : Z) : option Q :=
  let p := (x ^ n)%Q in
  if Qle_bool (Qabs p) DBL_MAX then Some p else None.

Definition exact_machine : Machine.
Proof.
  assert (Hmax : DBL_MAX < inject_Z (2 ^ 1024)).
  { unfold DBL_MAX, Qlt, inject_Z. cbn [Qnum Qden].
    apply Z.ltb_lt. vm_compute. reflexivity. }
  assert (Hsafe : POW_SAFE <= DBL_MAX).
  { unfold POW_SAFE, DBL_MAX, Qle, inject_Z. cbn [Qnum Qden].
    apply Z.leb_le. vm_compute. reflexivity. }
  assert (Hover : forall x n, inject_Z (2 ^ 1024) <= x ^ n -> exact_pow x n = None).
  { intros x n H. unfold exact_pow.
    destruct (Qle_bool (Qabs (x ^ n)) DBL_MAX) eqn:E; [|reflexivity].
    exfalso. apply Qle_bool_iff in E.
    apply (Qlt_not_le _ _ Hmax).
    apply Qle_trans with (x ^ n); [exact H|].
    apply Qle_trans with (Qabs (x ^ n)); [apply Qle_Qabs | exact E]. }
  refine {| fmul := Qmult; fpow := exact_pow; sleep_limit := inject_Z 9223372036 |}.
  - (* a product with 1.0 is exact *)
    intros [n d]. unfold Qmult. cbn [Qnum Qden].
    rewrite Z.mul_1_r, Pos.mul_1_r. reflexivity.
  - exact Qmult_le_0_compat.
  - intros a b c Ha Hbc. rewrite (Qmult_comm a b), (Qmult_comm a c).
    apply Qmult_le_compat_r; assumption.
  - reflexivity.
  - intros x n _. apply Hover.
  - intros x n _ H. apply Hover.
    apply Qle_trans with (inject_Z (2 ^ 1025)); [|exact H].
    unfold Qle, inject_Z. cbn [Qnum Qden]. apply Z.leb_le. vm_compute. reflexivity.
  - intros x n Hx _ Hp.
    assert (H0 : 0 <= x ^ n).
    { apply Qpower_0_le. apply Qle_trans with 1; [discriminate | exact Hx]. }
    exists (x ^ n). split; [|split].
    + unfold exact_pow.
      assert (E : Qle_bool (Qabs (x ^ n)) DBL_MAX = true).
      { apply Qle_bool_iff. rewrite Qabs_pos by exact H0.
        exact (Qle_trans _ _ _ Hp Hsafe). }
      rewrite E. reflexivity.
    + apply Qle_trans with (1 * x ^ n); [|rewrite Qmult_1_l; apply Qle_refl].
      apply Qmult_le_compat_r; [discriminate | exact H0].
    + apply Qle_trans with (1 * x ^ n); [rewrite Qmult_1_l; apply Qle_refl|].
      apply Qmult_le_compat_r; [discriminate | exact H0].
  - reflexivity.
Defined.

(** [str.isspace], [str.strip] and [str.rstrip] on ASCII text. *)
Definition is_space (c : ascii) : bool :=
  let n := nat_of_ascii c in
  ((9 <=? n) && (n <=? 13) || (28 <=? n) && (n <=? 32))%nat.

Fixpoint ascii_lstrip (s : string) : string :=
  match s with
  | EmptyString => EmptyString
  | String c s' => if is_space c then ascii_lstrip s' else s
  end.

Definition string_rev (s : string) : string :=
  string_of_list_ascii (rev (list_ascii_of_string s)).

Definition ascii_rstrip (s : string) : string :=
  string_rev (ascii_lstrip (string_rev s)).

Definition ascii_strip (s : string) : string := ascii_lstrip (ascii_rstrip s).

Definition table_loads (table : list (string * JSON)) (text : string)
  : builtin_result JSON :=
  match lookup table text with
  | Some j => Value j
  | None => Fails "JSONDecodeError" "Expecting value"
  end.

Definition demo_rt (table : list (string * JSON)) : PyRuntime :=
  {| json_loads := table_loads table;
     utf8_strict := fun b => Value (string_of_list_byte b);
     utf8_replace := string_of_list_byte;
     py_repr := fun _ => "<json>";
     str_len := String.length;
     str_prefix := fun n s => substring 0 n s;
     str_strip := ascii_strip;
     str_rstrip := ascii_rstrip |}.

Definition demo_env (strict : option string) (answers : list Wire) : Env :=
  {| BASE_URL := "http://localhost:8080";
     API_TOKEN := "change-me";
     E2E_GCS_IAM := strict;
     clock := fun n => inject_Z (Z.of_nat n);
     server := fun n => nth n answers (WireNoResponse "Connection refused");
     machine := exact_machine |}.

Definition ok_json (name : string) : Wire := WireResponse 200 [] (bytes_of name).

Definition start : World := mkWorld 0 0 [].

(** A backend for the S3 adapter that behaves. *)
Definition s3_rt : PyRuntime :=
  demo_rt [("absent", JObj [("bucket", JStr "b"); ("exists", JBool false)]);
           ("ok", JObj [("ok", JBool true)]);
           ("present", JObj [("bucket", JStr "b"); ("exists", JBool true)])].

Definition s3_env : Env :=
  demo_env None [ok_json "absent"; ok_json "ok"; ok_json "ok"; ok_json "present";
                 ok_json "ok"; ok_json "absent"].

(** A backend for the Azure adapter whose GET after the reset answers with the
    policy object [reset_policy]. *)
Definition azure_rt (reset_policy : JSON) : PyRuntime :=
  demo_rt [("initial", JObj [("bucket", JStr "b"); ("exists", JBool false)]);
           ("ok", JObj [("ok", JBool true)]);
           ("applied", JObj [("bucket", JStr "b"); ("exists", JBool true);
                             ("policy", azure_policy_doc)]);
           ("reset", JObj [("bucket", JStr "b"); ("exists", JBool false);
                           ("policy", reset_policy)])].

Definition azure_env : Env :=
  demo_env None [ok_json "initial"; ok_json "ok"; ok_json "ok"; ok_json "applied";
                 ok_json "ok"; ok_json "reset"].

Definition azure_private_empty : JSON :=
  JObj [("publicAccess", JStr "private"); ("storedAccessPolicies", JArr [])].

Definition azure_private_only : JSON :=
  JObj [("publicAccess", JStr "private")].

Definition azure_private_odd : JSON :=
  JObj [("publicAccess", JStr "private");
        ("storedAccessPolicies", JObj [("id", JStr "e2e-read")])].

(** A backend for the GCS adapter: it accepts everything but the DELETE,
    which it answers with status 400 and the body [delete_body]. *)
Definition gcs_rt : PyRuntime :=
  demo_rt [("initial", JObj [("bucket", JStr "b"); ("exists", JBool true);
                             ("policy", gcs_default_policy)]);
           ("ok", JObj [("ok", JBool true)]);
           ("unsupported",
            JObj [("error", JObj [("code", JStr "bucket_policy_delete_unsupported")])]);
           ("forbidden", JObj [("error", JObj [("code", JStr "forbidden")])])].

Definition gcs_env (strict : option string) (delete_body : string) : Env :=
  demo_env strict [ok_json "initial"; ok_json "ok"; ok_json "ok"; ok_json "initial";
                   ok_json "ok"; WireResponse 400 [] (bytes_of delete_body)].

(** An operation that is down for good. *)
Definition always_down (s : unit) : outcome Z * unit :=
  (Raise (RuntimeError "down"), s).

(** How the closing DELETE of the GCS adapter is judged. *)
Definition delete_verdict (rt : PyRuntime) (del : outcome JSON) : outcome unit :=
  match del with
  | Ret _ => Raise (RuntimeError "Expected GCS IAM delete to fail")
  | Raise (HTTPFailureExc f) =>
      if py_eq_str (error_code f) delete_unsupported then Ret tt
      else Raise (RuntimeError ("Expected bucket_policy_delete_unsupported, got "
                                ++ py_str rt (error_code f)
                                ++ " (status=" ++ string_of_Z (status f) ++ ")"))
  | Raise e => Raise e
  end.

Definition sample_failure (retryable : JSON) (after : option string) : exn :=
  HTTPFailureExc
    (mkHTTPFailure 503 "GET" "/buckets" [] (Some "busy") (JStr "unavailable")
       (JStr "temporary") retryable after None).

(** An operation that fails 2707 times before it succeeds. *)
Definition flaky_2707 (n : Z) : outcome Z * Z :=
  (if (n <? 2707)%Z then Raise (RuntimeError "not yet") else Ret 0%Z, (n + 1)%Z).

(** ** Multipart encoding *)

(** In this part text is represented by its UTF-8 bytes. *)

Definition CRLF : list byte := [x0d; x0a].
Definition DQUOTE : byte := x22.

(** [multipart_form(files)], given the value [boundary] of
    [uuid.uuid4().hex]: the body and the content type. *)
Definition multipart_form (boundary : list byte)
    (files : list (list byte * list byte)) : list byte * list byte :=
  let parts :=
    flat_map
      (fun '(filename, content) =>
         (bytes_of "--" ++ boundary ++ CRLF)
         ++ (bytes_of "Content-Disposition: form-data; name=" ++ [DQUOTE]
             ++ bytes_of "files" ++ [DQUOTE] ++ bytes_of "; filename=" ++ [DQUOTE]
             ++ filename ++ [DQUOTE] ++ CRLF
             ++ bytes_of "Content-Type: application/octet-stream" ++ CRLF ++ CRLF)
         ++ content
         ++ CRLF)
      files in
  (parts ++ bytes_of "--" ++ boundary ++ bytes_of "--" ++ CRLF,
   bytes_of "multipart/form-data; boundary=" ++ boundary).

Definition is_hex_digit (b : byte) : bool :=
  let n := Byte.to_nat b in
  ((48 <=? n) && (n <=? 57) || (97 <=? n) && (n <=? 102))%nat.

(** The shape of [uuid.uuid4().hex]: 32 lower-case hex digits, version
    nibble 4, variant nibble 8, 9, a or b. *)
Definition is_uuid4_hex (b : list byte) : bool :=
  (List.length b =? 32)%nat && forallb is_hex_digit b
  && match nth_error b 12 with Some x34 => true | _ => false end
  && match nth_error b 16 with
     | Some x38 | Some x39 | Some x61 | Some x62 => true
     | _ => false
     end.

(** ** File names as Python [str] values

    [multipart_form] above takes the file names as the bytes of their UTF-8
    encoding.  The function of the runner takes them as [str] values and
    encodes the header of each file on the way; a name that holds a lone
    surrogate (what [os.listdir] gives for a file name that is not UTF-8)
    cannot be encoded.  [multipart_form_str] is [multipart_form] with that
    step. *)

(** A Python [str]: its code points, each below [0x110000]. *)
Definition pystr : Type := list N.

Definition byte_of_N (n : N) : byte :=
  match Byte.of_N n with
  | Some b => b
  | None => x00
  end.

Definition is_surrogate (c : N) : bool := ((0xD800 <=? c) && (c <=? 0xDFFF))%N.

(** The UTF-8 encoding of a code point that is no surrogate. *)
Definition utf8_char (c : N) : list byte :=
  if (c <? 0x80)%N then [byte_of_N c]
  else if (c <? 0x800)%N then
    [byte_of_N (0xC0 + c / 64); byte_of_N (0x80 + c mod 64)]
  else if (c <? 0x10000)%N then
    [byte_of_N (0xE0 + c / 4096); byte_of_N (0x80 + (c / 64) mod 64);
     byte_of_N (0x80 + c mod 64)]
  else
    [byte_of_N (0xF0 + c / 262144); byte_of_N (0x80 + (c / 4096) mod 64);
     byte_of_N (0x80 + (c / 64) mod 64); byte_of_N (0x80 + c mod 64)].

Definition hex_digit (n : N) : ascii :=
  ascii_of_N (if (n <? 10)%N then 48 + n else 87 + n).

(** [f"{c:04x}"] *)
Definition hex4 (c : N) : string :=
  String (hex_digit (c / 4096))
    (String (hex_digit ((c / 256) mod 16))
       (String (hex_digit ((c / 16) mod 16))
          (String (hex_digit (c mod 16)) EmptyString))).

(** The number of surrogates [s] starts with. *)
Fixpoint surrogate_run (s : pystr) : nat :=
  match s with
  | c :: s' => if is_surrogate c then S (surrogate_run s') else O
  | [] => O
  end.

(** The [UnicodeEncodeError] for the surrogate [c] at position [pos],
    followed by [s']: it reports the whole run of surrogates. *)
Definition encode_error (pos : nat) (c : N) (s' : pystr) : exn :=
  PyError "UnicodeEncodeError"
    (match surrogate_run s' with
     | O => "'utf-8' codec can't encode character '\u" ++ hex4 c
            ++ "' in position " ++ string_of_Z (Z.of_nat pos)
     | S n => "'utf-8' codec can't encode characters in position "
              ++ string_of_Z (Z.of_nat pos) ++ "-"
              ++ string_of_Z (Z.of_nat (pos + S n))
     end ++ ": surrogates not allowed").

(** [text.encode("utf-8")] for the stretch [s] of [text] that starts at
    position [pos] *)
Fixpoint utf8_encode (pos : nat) (s : pystr) : outcome (list byte) :=
  match s with
  | [] => Ret []
  | c :: s' =>
      if is_surrogate c then Raise (encode_error pos c s')
      else match utf8_encode (S pos) s' with
           | Ret b => Ret (utf8_char c ++ b)
           | Raise e => Raise e
           end
  end.

(** Where the file name starts in the header that is encoded: after the 56
    characters from [Content-Disposition] to the quote that opens the file
    name. *)
Definition filename_position : nat := 56.

(** The loop of [multipart_form] as far as it can fail: the headers are
    encoded file by file. *)
Fixpoint encode_names (files : list (pystr * list byte))
  : outcome (list (list byte * list byte)) :=
  match files with
  | [] => Ret []
  | (filename, content) :: rest =>
      match utf8_encode filename_position filename with
      | Raise e => Raise e
      | Ret name =>
          match encode_names rest with
          | Ret fs => Ret ((name, content) :: fs)
          | Raise e => Raise e
          end
      end
  end.

(** [multipart_form(files)] for file names that are [str] values. *)
Definition multipart_form_str (boundary : list byte)
    (files : list (pystr * list byte)) : outcome (list byte * list byte) :=
  match encode_names files with
  | Ret fs => Ret (multipart_form boundary fs)
  | Raise e => Raise e
  end.

(** A [str] without double quote, CR or LF. *)
Definition plain_str (s : pystr) : bool :=
  forallb (fun c => negb ((c =? 34) || (c =? 13) || (c =? 10))%N) s.

(** A [str] without surrogates. *)
Definition encodable (s : pystr) : bool :=
  forallb (fun c => negb (is_surrogate c)) s.

(** The code points of an ASCII text. *)
Definition str_of (s : string) : pystr := map N_of_ascii (list_ascii_of_string s).

(** ** A reference multipart/form-data decoder

    The decoder the specification measures [multipart_form] against.  It
    follows the grammar of RFC 2046, section 5.1.1: an optional preamble, then
    parts introduced by the dash-boundary line and separated by the delimiter
    [CRLF "--" boundary], closed by the delimiter followed by ["--"].  A part
    is its header block, an empty line and its content; the form field name is
    the [name] parameter of the header block (RFC 7578). *)

Fixpoint prefixb (p s : list byte) : bool :=
  match p, s with
  | [], _ => true
  | a :: p', b :: s' => Byte.eqb a b && prefixb p' s'
  | _ :: _, [] => false
  end.

(** Split [s] at the first occurrence of [pat]: what precedes the occurrence
    and what follows it. *)
Fixpoint find (pat s : list byte) : option (list byte * list byte) :=
  if prefixb pat s then Some ([], skipn (List.length pat) s)
  else match s with
       | [] => None
       | c :: s' =>
           match find pat s' with
           | Some (pre, post) => Some (c :: pre, post)
           | None => None
           end
       end.

Definition occurs (pat s : list byte) : bool :=
  match find pat s with
  | Some _ => true
  | None => false
  end.

Record Part : Type := mkPart {
  part_headers : list byte;
  part_content : list byte
}.

Definition split_part (text : list byte) : Part :=
  if prefixb CRLF text then mkPart [] (skipn 2 text)
  else match find (CRLF ++ CRLF) text with
       | Some (h, c) => mkPart h c
       | None => mkPart text []
       end.

(** The value of the [name] parameter in a part's header block. *)
Definition part_name (p : Part) : option (list byte) :=
  match find (bytes_of "; name=" ++ [DQUOTE]) (part_headers p) with
  | Some (_, rest) =>
      match find [DQUOTE] rest with
      | Some (name, _) => Some name
      | None => None
      end
  | None => None
  end.

(** [rest] starts right after a dash-boundary. *)
Fixpoint parse_parts (fuel : nat) (dash_boundary rest : list byte)
  : option (list Part) :=
  match fuel with
  | O => None
  | S fuel' =>
      if prefixb (bytes_of "--") rest then Some []
      else if prefixb CRLF rest then
        match find (CRLF ++ dash_boundary) (skipn 2 rest) with
        | Some (text, rest') =>
            match parse_parts fuel' dash_boundary rest' with
            | Some ps => Some (split_part text :: ps)
            | None => None
            end
        | None => None
        end
      else None
  end.

Definition multipart_parse (boundary body : list byte) : option (list Part) :=
  let dash_boundary := bytes_of "--" ++ boundary in
  if prefixb dash_boundary body
  then parse_parts (List.length body) dash_boundary
                   (skipn (List.length dash_boundary) body)
  else match find (CRLF ++ dash_boundary) body with
       | Some (_, rest) => parse_parts (List.length body) dash_boundary rest
       | None => None
       end.

Definition boundary_of_content_type (ct : list byte) : option (list byte) :=
  let p := bytes_of "multipart/form-data; boundary=" in
  if prefixb p ct then Some (skipn (List.length p) ct) else None.

(** Decode [body] with the boundary announced by the content type [ct]. *)
Definition multipart_decode (body_ct : list byte * list byte)
  : option (list Part) :=
  match boundary_of_content_type (snd body_ct) with
  | Some b => multipart_parse b (fst body_ct)
  | None => None
  end.

Definition no_byte (x : byte) (s : list byte) : bool :=
  forallb (fun b => negb (Byte.eqb b x)) s.

(** A file name without double quote, CR or LF. *)
Definition plain_filename (f : list byte) : bool :=
  no_byte DQUOTE f && no_byte x0d f && no_byte x0a f.

(** Put [pre] back in front of what a search found further on. *)
Definition shift (pre : list byte) (r : option (list byte * list byte))
  : option (list byte * list byte) :=
  match r with
  | Some (a, b) => Some (pre ++ a, b)
  | None => None
  end.

(** The header block [multipart_form] writes for a file. *)
Definition disposition_prefix : list byte :=
  bytes_of "Content-Disposition: form-data; name=" ++ [DQUOTE]
  ++ bytes_of "files" ++ [DQUOTE] ++ bytes_of "; filename=" ++ [DQUOTE].

Definition content_type_line : list byte :=
  bytes_of "Content-Type: application/octet-stream".

Definition part_header (filename : list byte) : list byte :=
  disposition_prefix ++ filename ++ [DQUOTE] ++ CRLF ++ content_type_line.

(** The failure, if any, that [wait_for_server] sees when [GET /meta] comes
    back with [r]: the failure of the request, or the [AttributeError] of
    [meta.get] on an answer that is no object. *)
Definition probe_error (r : outcome JSON) : option exn :=
  match r with
  | Raise e => Some e
  | Ret (JObj _) => None
  | Ret v => Some (no_get_attribute v)
  end.

(** The trace of [w2] is the trace of [w1] followed by events that are no
    requests. *)
Definition log_suffix (w1 w2 : World) : Prop :=
  exists rest, trace w2 = trace w1 ++ rest /\ requests rest = [].

(** What [multipart_form] writes after the first dash-boundary: the parts,
    each closed by a delimiter, and the two dashes that close the body. *)
Fixpoint after_dash_boundary (boundary : list byte)
    (files : list (list byte * list byte)) : list byte :=
  match files with
  | [] => bytes_of "--" ++ CRLF
  | (filename, content) :: rest =>
      CRLF ++ part_header filename ++ (CRLF ++ CRLF) ++ content
      ++ (CRLF ++ bytes_of "--" ++ boundary) ++ after_dash_boundary boundary rest
  end.

(** The part a decoder is to find for one file. *)
Definition file_part (file : list byte * list byte) : Part :=
  mkPart (part_header (fst file)) (snd file).

(** A file [multipart_form] can carry under [boundary]: a plain file name,
    and a content in which no line starts with the dash-boundary. *)
Definition sendable (boundary : list byte) (file : list byte * list byte) : Prop :=
  plain_filename (fst file) = true
  /\ occurs (CRLF ++ bytes_of "--" ++ boundary) (CRLF ++ snd file) = false.

(** A binding for the role the GCS adapter grants, and a binding that has
    [allUsers] among its members. *)
Definition viewer_binding (bd : list (string * JSON)) : Prop :=
  dict_get bd "role" = JStr gcs_role.

Definition has_all_users (bd : list (string * JSON)) : Prop :=
  exists ms, dict_get bd "members" = JArr ms /\ In (JStr "allUsers") ms.

(** The bindings of the modified policy, from those of the original. *)
Definition viewer_bindings (bindings : list JSON) : list JSON :=
  let visited := map add_all_users bindings in
  if existsb snd visited then map fst visited
  else map fst visited
       ++ [JObj [("role", JStr gcs_role); ("members", JArr [JStr "allUsers"])]].

(** * Properties *)

Example multipart_hello :
  let b := bytes_of "0123456789ab4def8123456789abcdef" in
  is_uuid4_hex b = true /\
  option_map (map (fun p => (part_name p, part_content p)))
             (multipart_decode (multipart_form b [(bytes_of "hello.txt", bytes_of "hello")]))
  = Some [(Some (bytes_of "files"), bytes_of "hello")].
Proof. vm_compute. split; reflexivity. Qed.

(** ** Traces *)

Lemma sleeps_app (a b : list Event) : sleeps (a ++ b) = sleeps a ++ sleeps b.
Proof.
  induction a as [|e a IH]; [reflexivity|].
  destruct e; simpl; rewrite IH; reflexivity.
Qed.

Lemma logs_app (a b : list Event) : logs (a ++ b) = logs a ++ logs b.
Proof.
  induction a as [|e a IH]; [reflexivity|].
  destruct e; simpl; rewrite IH; reflexivity.
Qed.

Lemma calls_app (a b : list Event) : calls (a ++ b) = (calls a + calls b)%nat.
Proof. unfold calls. rewrite filter_app, length_app. reflexivity. Qed.

(** ** Backoff delays *)

Lemma py_min_nonneg (a b : Q) : 0 <= a -> 0 <= b -> 0 <= py_min a b.
Proof. intros Ha Hb. unfold py_min. destruct (Qlt_le_dec b a); assumption. Qed.

Lemma py_min_le_l (a b : Q) : py_min a b <= a.
Proof.
  unfold py_min. destruct (Qlt_le_dec b a) as [H|H];
    [apply Qlt_le_weak; exact H | apply Qle_refl].
Qed.

Lemma py_min_mono (a b c : Q) : b <= c -> py_min a b <= py_min a c.
Proof.
  intros Hbc. unfold py_min.
  destruct (Qlt_le_dec b a) as [Hb|Hb], (Qlt_le_dec c a) as [Hc|Hc].
  - exact Hbc.
  - apply Qlt_le_weak. exact Hb.
  - exfalso. apply (Qlt_not_le _ _ Hc). exact (Qle_trans _ _ _ Hb Hbc).
  - apply Qle_refl.
Qed.

(** *** Where [1.3 ** n] leaves the doubles

    [1.3 ^ 2705 < 2^1024 * (1 - 2^-50)] and [2^1024 < 1.3 ^ 2706].  Both
    bounds are cut into small powers so that no number beyond a few thousand
    bits is ever computed. *)

Local Open Scope Z_scope.

Lemma pow_split_le (a b k1 k2 D u t r : Z) :
  0 <= a -> 0 <= b -> 0 <= k1 -> 0 <= k2 -> 0 <= u -> 0 <= t -> 0 <= r ->
  a ^ u <= k1 * b ^ u -> a ^ r <= k2 * b ^ r -> k1 ^ t * k2 <= D ->
  a ^ (u * t + r) <= D * b ^ (u * t + r).
Proof.
  intros Ha Hb Hk1 Hk2 Hu Ht Hr H1 H2 H3.
  rewrite !Z.pow_add_r, !Z.pow_mul_r by lia.
  assert (HA : 0 <= a ^ u) by (apply Z.pow_nonneg; assumption).
  assert (HB : 0 <= b ^ u) by (apply Z.pow_nonneg; assumption).
  assert (HC : 0 <= a ^ r) by (apply Z.pow_nonneg; assumption).
  assert (HE : 0 <= b ^ r) by (apply Z.pow_nonneg; assumption).
  revert H1 H2 HA HB HC HE.
  generalize (a ^ u) (b ^ u) (a ^ r) (b ^ r). intros A B C E H1 H2 HA HB HC HE.
  assert (HAt : A ^ t <= k1 ^ t * B ^ t).
  { rewrite <- Z.pow_mul_l. apply Z.pow_le_mono_l. split; assumption. }
  assert (HBt : 0 <= B ^ t) by (apply Z.pow_nonneg; assumption).
  assert (Hkt : 0 <= k1 ^ t) by (apply Z.pow_nonneg; assumption).
  transitivity ((k1 ^ t * B ^ t) * (k2 * E)).
  - apply Z.mul_le_mono_nonneg; try assumption. apply Z.pow_nonneg; assumption.
  - replace (k1 ^ t * B ^ t * (k2 * E)) with ((k1 ^ t * k2) * (B ^ t * E)) by ring.
    apply Z.mul_le_mono_nonneg_r; [|assumption].
    apply Z.mul_nonneg_nonneg; assumption.
Qed.

Lemma pow_split_ge (a b k1 k2 D u t r : Z) :
  0 <= b -> 0 <= k1 -> 0 <= k2 -> 0 <= u -> 0 <= t -> 0 <= r ->
  k1 * b ^ u <= a ^ u -> k2 * b ^ r <= a ^ r -> D <= k1 ^ t * k2 ->
  D * b ^ (u * t + r) <= a ^ (u * t + r).
Proof.
  intros Hb Hk1 Hk2 Hu Ht Hr H1 H2 H3.
  rewrite !Z.pow_add_r, !Z.pow_mul_r by lia.
  assert (HB : 0 <= b ^ u) by (apply Z.pow_nonneg; assumption).
  assert (HE : 0 <= b ^ r) by (apply Z.pow_nonneg; assumption).
  revert H1 H2 HB HE.
  generalize (a ^ u) (b ^ u) (a ^ r) (b ^ r). intros A B C E H1 H2 HB HE.
  assert (HBt : 0 <= B ^ t) by (apply Z.pow_nonneg; assumption).
  assert (HAt : k1 ^ t * B ^ t <= A ^ t).
  { rewrite <- Z.pow_mul_l. apply Z.pow_le_mono_l. split; [|assumption].
    apply Z.mul_nonneg_nonneg; assumption. }
  assert (Hkt : 0 <= k1 ^ t) by (apply Z.pow_nonneg; assumption).
  transitivity ((k1 ^ t * k2) * (B ^ t * E)).
  - apply Z.mul_le_mono_nonneg_r; [|assumption].
    apply Z.mul_nonneg_nonneg; assumption.
  - replace (k1 ^ t * k2 * (B ^ t * E)) with ((k1 ^ t * B ^ t) * (k2 * E)) by ring.
    apply Z.mul_le_mono_nonneg; try assumption.
    + apply Z.mul_nonneg_nonneg; assumption.
    + apply Z.mul_nonneg_nonneg; assumption.
Qed.

Ltac by_computation := apply Z.leb_le; vm_compute; reflexivity.

Lemma above_factor_2705 :
  13000001 ^ 2705 <= (2 ^ 1024 - 2 ^ 974) * 10000000 ^ 2705.
Proof.
  replace 2705 with (177 * 15 + 50) by reflexivity.
  apply pow_split_le with (k1 := 2 ^ 67) (k2 := 500000); by_computation.
Qed.

Lemma thirteen_2706 : 2 ^ 1024 * 10 ^ 2706 <= 13 ^ 2706.
Proof.
  replace 2706 with (214 * 12 + 138) by reflexivity.
  apply pow_split_ge with (k1 := 2 ^ 81) (k2 := 2 ^ 52); by_computation.
Qed.

Lemma thirteen_2709 : 2 ^ 1025 * 10 ^ 2709 <= 13 ^ 2709.
Proof.
  replace 2709 with (214 * 12 + 141) by reflexivity.
  apply pow_split_ge with (k1 := 2 ^ 81) (k2 := 2 ^ 53); by_computation.
Qed.

Local Close Scope Z_scope.

Lemma Qpower_frac (a : Z) (b p : positive) :
  ((a # b) ^ Zpos p)%Q = (a ^ Zpos p # b ^ p).
Proof. exact (Qpower_decomp_positive p a b). Qed.

Lemma Qpower_base_le (x y : Q) (n : Z) :
  0 <= x -> x <= y -> (0 <= n)%Z -> x ^ n <= y ^ n.
Proof.
  intros Hx Hxy Hn. destruct n as [|p|p]; [apply Qle_refl | | lia].
  destruct x as [a b], y as [c d]. rewrite !Qpower_frac.
  unfold Qle in *. cbn [Qnum Qden] in *.
  rewrite !Pos2Z.inj_pow, <- !Z.pow_mul_l.
  apply Z.pow_le_mono_l. split; [|exact Hxy].
  apply Z.mul_nonneg_nonneg; lia.
Qed.

Lemma default_factor_ge_1 : 1 <= default_factor.
Proof. apply Qle_bool_iff. vm_compute. reflexivity. Qed.

Lemma factor_pow_safe (n : Z) :
  (0 <= n <= 2705)%Z -> default_factor ^ n <= POW_SAFE.
Proof.
  intros Hn.
  apply Qle_trans with ((13000001 # 10000000) ^ n).
  { apply Qpower_base_le; [discriminate | | lia].
    apply Qle_bool_iff. vm_compute. reflexivity. }
  apply Qle_trans with ((13000001 # 10000000) ^ 2705).
  { apply Qpower_le_compat_l; [lia|]. apply Qle_bool_iff. vm_compute. reflexivity. }
  rewrite Qpower_frac. unfold Qle, POW_SAFE, inject_Z. cbn [Qnum Qden].
  rewrite Pos2Z.inj_pow, Z.mul_1_r. exact above_factor_2705.
Qed.

Lemma below_factor : 13 # 10 <= default_factor.
Proof. apply Qle_bool_iff. vm_compute. reflexivity. Qed.

Lemma factor_pow_over (n : Z) :
  (2706 <= n)%Z -> inject_Z (2 ^ 1024) <= default_factor ^ n.
Proof.
  intros Hn.
  apply Qle_trans with ((13 # 10) ^ 2706).
  { rewrite Qpower_frac. unfold Qle, inject_Z. cbn [Qnum Qden].
    rewrite Pos2Z.inj_pow, Z.mul_1_r. exact thirteen_2706. }
  apply Qle_trans with ((13 # 10) ^ n).
  { apply Qpower_le_compat_l; [lia | discriminate]. }
  apply Qpower_base_le; [discriminate | exact below_factor | lia].
Qed.

Lemma factor_pow_far (n : Z) :
  (2709 <= n)%Z -> inject_Z (2 ^ 1025) <= default_factor ^ n.
Proof.
  intros Hn.
  apply Qle_trans with ((13 # 10) ^ 2709).
  { rewrite Qpower_frac. unfold Qle, inject_Z. cbn [Qnum Qden].
    rewrite Pos2Z.inj_pow, Z.mul_1_r. exact thirteen_2709. }
  apply Qle_trans with ((13 # 10) ^ n).
  { apply Qpower_le_compat_l; [lia | discriminate]. }
  apply Qpower_base_le; [discriminate | exact below_factor | lia].
Qed.

Lemma factor_pow_nonneg (n : Z) : 0 <= default_factor ^ n.
Proof. apply Qpower_0_le. discriminate. Qed.

(** [1.3 ** n] is a double for [n <= 2705], within the tolerance of [pow],
    and raises from [n = 2706] on. *)
Lemma fpow_default_small {m : Machine} (n : Z) :
  (0 <= n <= 2705)%Z ->
  exists p, fpow default_factor n = Some p
            /\ (1 - POW_TOLERANCE) * default_factor ^ n <= p
            /\ p <= (1 + POW_TOLERANCE) * default_factor ^ n.
Proof.
  intros Hn. apply fpow_close.
  - exact default_factor_ge_1.
  - assert (H : (2705 <= 2 ^ 53)%Z) by (apply Z.leb_le; vm_compute; reflexivity).
    revert H. generalize (2 ^ 53)%Z. intros K H. lia.
  - apply factor_pow_safe. exact Hn.
Qed.

Lemma fpow_default_nonneg {m : Machine} (n : Z) (p : Q) :
  (0 <= n <= 2705)%Z -> fpow default_factor n = Some p -> 0 <= p.
Proof.
  intros Hn Hp. destruct (fpow_default_small n Hn) as (q & Hq & Hlow & _).
  rewrite Hp in Hq. inversion Hq; subst q.
  apply Qle_trans with ((1 - POW_TOLERANCE) * default_factor ^ n); [|exact Hlow].
  apply Qmult_le_0_compat; [discriminate | apply factor_pow_nonneg].
Qed.

Lemma fpow_default_large {m : Machine} (n : Z) :
  (2706 <= n)%Z -> fpow default_factor n = None.
Proof.
  intros Hn.
  assert (H : (2709 <= 2 ^ 53)%Z) by (apply Z.leb_le; vm_compute; reflexivity).
  revert H. generalize (fpow_overflow default_factor n).
  generalize (2 ^ 53)%Z. intros K Hsmall HK.
  destruct (Z_le_gt_dec n K) as [Hle|Hgt].
  - apply Hsmall; [lia | apply factor_pow_over; exact Hn].
  - apply fpow_overflow_far; [lia | apply factor_pow_far; lia].
Qed.

Lemma sleep_backoff_le_cap {m : Machine} (base_s : Q) (attempt : Z) :
  (attempt <= 2706)%Z ->
  sleep_backoff base_s attempt default_factor default_max_s <= 5 # 1.
Proof.
  intros Ha. unfold sleep_backoff.
  destruct (fpow_default_small (Z.max 0 (attempt - 1)) ltac:(lia)) as (p & Hp & _).
  rewrite Hp. apply py_min_le_l.
Qed.

Lemma sleep_backoff_large {m : Machine} (base_s : Q) (attempt : Z) :
  (2707 <= attempt)%Z ->
  sleep_backoff base_s attempt default_factor default_max_s = base_s.
Proof.
  intros Ha. unfold sleep_backoff. rewrite fpow_default_large by lia. reflexivity.
Qed.

Lemma sleep_backoff_nonneg {m : Machine} (base_s : Q) (attempt : Z) :
  0 <= base_s -> 0 <= sleep_backoff base_s attempt default_factor default_max_s.
Proof.
  intros Hb. destruct (Z_le_gt_dec attempt 2706) as [Hle|Hgt].
  - unfold sleep_backoff.
    destruct (fpow default_factor (Z.max 0 (attempt - 1))) as [p|] eqn:Hp;
      [|exact Hb].
    apply py_min_nonneg; [discriminate|].
    apply fmul_nonneg; [exact Hb|].
    apply (fpow_default_nonneg (Z.max 0 (attempt - 1))); [lia | exact Hp].
  - rewrite sleep_backoff_large by lia. exact Hb.
Qed.

Lemma sleep_backoff_default {m : Machine} (base_s : Q) (i : Z) :
  (1 <= i)%Z ->
  backoff_delay base_s i (sleep_backoff base_s i default_factor default_max_s).
Proof.
  intros Hi. unfold backoff_delay.
  destruct (Z.leb_spec i 2706) as [Hle|Hgt].
  - unfold sleep_backoff. rewrite Z.max_r by lia.
    destruct (fpow_default_small (i - 1) ltac:(lia)) as (p & Hp & Hlow & Hup).
    rewrite Hp. exists p. split; [reflexivity|]. split; [exact Hlow|].
    split; [exact Hup | reflexivity].
  - apply sleep_backoff_large. lia.
Qed.

(** ** Sleeping *)

(** [time.sleep] takes every length from 0 to the cap of 5 seconds. *)
Lemma sleep_accepts {m : Machine} (d : Q) :
  0 <= d -> d <= 5 # 1 -> sleep_refusal d = None.
Proof.
  intros H0 H5. unfold sleep_refusal. cbv zeta.
  assert (Hns0 : 0 <= d * inject_Z (10 ^ 9)).
  { apply Qmult_le_0_compat; [exact H0 | discriminate]. }
  assert (Hns5 : d * inject_Z (10 ^ 9) <= (5 # 1) * inject_Z (10 ^ 9)).
  { apply Qmult_le_compat_r; [exact H5 | discriminate]. }
  destruct (Qlt_le_dec _ _) as [H|_].
  { exfalso. apply (Qlt_not_le _ _ H).
    apply Qle_trans with 0; [discriminate | exact Hns0]. }
  destruct (Qlt_le_dec _ _) as [H|_].
  { exfalso. apply (Qlt_not_le _ _ H).
    apply Qle_trans with ((5 # 1) * inject_Z (10 ^ 9)); [exact Hns5 | discriminate]. }
  destruct (Qlt_le_dec d 0) as [H|_].
  { exfalso. exact (Qlt_not_le _ _ H H0). }
  destruct (Qlt_le_dec _ _) as [_|H].
  2:{ exfalso. apply (Qle_not_lt _ _ H).
      apply Qle_lt_trans with ((5 # 1) * inject_Z (10 ^ 9)); [exact Hns5 | reflexivity]. }
  destruct (Qlt_le_dec d sleep_limit) as [_|H]; [reflexivity|].
  exfalso. apply (Qle_not_lt _ _ H).
  apply Qle_lt_trans with (5 # 1); [exact H5 | apply sleep_limit_above_cap].
Qed.

Lemma time_sleep_accepted {m : Machine} (d : Q) (tr : list Event) :
  sleep_refusal d = None -> time_sleep d tr = (Ret tt, tr ++ [EvSleep d]).
Proof. intros H. unfold time_sleep. rewrite H. reflexivity. Qed.

Lemma time_sleep_refused {m : Machine} (d : Q) (tr : list Event) (e : exn) :
  sleep_refusal d = Some e -> time_sleep d tr = (Raise e, tr).
Proof. intros H. unfold time_sleep. rewrite H. reflexivity. Qed.

(** A length that [time.sleep] takes is not negative. *)
Lemma sleep_accepted_nonneg {m : Machine} (d : Q) :
  sleep_refusal d = None -> 0 <= d.
Proof.
  unfold sleep_refusal. cbv zeta.
  destruct (Qlt_le_dec _ _); [discriminate|].
  destruct (Qlt_le_dec _ _); [discriminate|].
  destruct (Qlt_le_dec d 0) as [|H]; [discriminate|].
  intros _. exact H.
Qed.

(** The delay after the [i]-th failure is a length [time.sleep] takes: it is
    between 0 and the cap up to the 2706-th failure, and the base delay
    afterwards. *)
Lemma delay_accepted {m : Machine} (base_s : Q) (i : Z) :
  0 <= base_s ->
  ((2707 <= i)%Z -> sleep_refusal base_s = None) ->
  sleep_refusal (sleep_backoff base_s i default_factor default_max_s) = None.
Proof.
  intros Hb Hlate. destruct (Z_le_gt_dec i 2706) as [Hle|Hgt].
  - apply sleep_accepts; [apply sleep_backoff_nonneg; exact Hb|].
    apply sleep_backoff_le_cap. exact Hle.
  - rewrite sleep_backoff_large by lia. apply Hlate. lia.
Qed.

(** ** The retry loop *)

Section RetryFacts.
Context {St A : Type}.
Context {m : Machine}.
Variable fn : St -> outcome A * St.
Variables (what : string) (attempts : Z) (base_delay_s : Q).

Let delay (i : Z) : Q :=
  sleep_backoff base_delay_s i default_factor default_max_s.

Lemma nth_outcome_S (s : St) (j : nat) :
  nth_outcome fn s (S j) = nth_outcome fn (snd (fn s)) j.
Proof. reflexivity. Qed.

(** [k] failing calls followed by a successful one, with attempts to
    spare and delays that [time.sleep] takes: the loop returns the value,
    having slept once per failure. *)
Lemma retry_loop_succeeds (k : nat) :
  forall (n : nat) (i : Z) (last_err : option exn) (s : St)
         (tr : list Event) (v : A),
    fails_then_succeeds fn s k v ->
    (k < n)%nat ->
    (i + Z.of_nat k <= attempts)%Z ->
    (forall j, (j < k)%nat -> sleep_refusal (delay (i + Z.of_nat j)) = None) ->
    exists tr',
      retry_loop fn what attempts base_delay_s n i last_err s tr
      = (Ret v, (nth_state fn s (S k), tr'))
      /\ sleeps tr' = sleeps tr ++ map delay (zrange i k)
      /\ calls tr' = (calls tr + S k)%nat.
Proof.
  induction k as [|k IH]; intros n i last_err s tr v [Hfail Hok] Hn Hi Hacc.
  - destruct n as [|n]; [lia|]. simpl.
    unfold nth_outcome in Hok. simpl in Hok.
    destruct (fn s) as [r s'] eqn:Hfn. simpl in Hok. subst r.
    eexists. split; [reflexivity|]. split.
    + rewrite sleeps_app. reflexivity.
    + rewrite calls_app. reflexivity.
  - destruct n as [|n]; [lia|]. simpl.
    destruct (Hfail 0%nat ltac:(lia)) as [e He].
    unfold nth_outcome in He. simpl in He.
    destruct (fn s) as [r s'] eqn:Hfn. simpl in He. subst r.
    destruct (Z.geb_spec i attempts) as [Hge|_]; [lia|].
    pose proof (Hacc 0%nat ltac:(lia)) as H0.
    replace (i + Z.of_nat 0)%Z with i in H0 by lia.
    unfold delay in H0. rewrite (time_sleep_accepted _ _ H0).
    destruct (IH n (i + 1)%Z (Some e) s'
                 ((tr ++ [EvCall]) ++ [EvLog (retry_log what i attempts e)]
                  ++ [EvSleep (delay i)]) v) as [tr' [Hrun [Hsl Hca]]].
    + split.
      * intros j Hj. specialize (Hfail (S j) ltac:(lia)).
        rewrite nth_outcome_S, Hfn in Hfail. exact Hfail.
      * rewrite nth_outcome_S, Hfn in Hok. exact Hok.
    + lia.
    + lia.
    + intros j Hj. specialize (Hacc (S j) ltac:(lia)).
      replace (i + 1 + Z.of_nat j)%Z with (i + Z.of_nat (S j))%Z by lia. exact Hacc.
    + exists tr'. rewrite app_assoc in Hrun. split; [exact Hrun|]. split.
      * rewrite Hsl, !sleeps_app. simpl. rewrite <- !app_assoc. reflexivity.
      * rewrite Hca, !calls_app. simpl. unfold calls. simpl. lia.
Qed.

(** Every call fails, and [time.sleep] takes every delay: the loop stops at
    the last attempt with the outcome of the last call. *)
Lemma retry_loop_all_fail (n : nat) :
  forall (i : Z) (last_err : option exn) (s : St) (tr : list Event),
    (1 <= n)%nat ->
    (Z.of_nat n = attempts - i + 1)%Z ->
    (forall j, (j < n)%nat -> exists e, nth_outcome fn s j = Raise e) ->
    (forall j, (j < n - 1)%nat -> sleep_refusal (delay (i + Z.of_nat j)) = None) ->
    exists tr',
      retry_loop fn what attempts base_delay_s n i last_err s tr
      = (nth_outcome fn s (n - 1), (nth_state fn s n, tr'))
      /\ calls tr' = (calls tr + n)%nat.
Proof.
  induction n as [|n IH]; intros i last_err s tr Hn Hi Hfail Hacc; [lia|].
  simpl.
  destruct (Hfail 0%nat ltac:(lia)) as [e He].
  unfold nth_outcome in He. simpl in He.
  destruct (fn s) as [r s'] eqn:Hfn. simpl in He. subst r.
  destruct (Z.geb_spec i attempts) as [Hge|Hlt].
  - assert (n = 0)%nat by lia. subst n. simpl.
    unfold nth_outcome. simpl. rewrite Hfn. simpl.
    eexists. split; [reflexivity|]. rewrite calls_app. reflexivity.
  - pose proof (Hacc 0%nat ltac:(lia)) as H0.
    replace (i + Z.of_nat 0)%Z with i in H0 by lia.
    unfold delay in H0. rewrite (time_sleep_accepted _ _ H0).
    destruct (IH (i + 1)%Z (Some e) s'
                 ((tr ++ [EvCall]) ++ [EvLog (retry_log what i attempts e)]
                  ++ [EvSleep (delay i)])) as [tr' [Hrun Hca]].
    + lia.
    + lia.
    + intros j Hj. specialize (Hfail (S j) ltac:(lia)).
      rewrite nth_outcome_S, Hfn in Hfail. exact Hfail.
    + intros j Hj. specialize (Hacc (S j) ltac:(lia)).
      replace (i + 1 + Z.of_nat j)%Z with (i + Z.of_nat (S j))%Z by lia. exact Hacc.
    + exists tr'. rewrite app_assoc in Hrun. unfold delay in Hrun. split.
      * rewrite Hrun. replace (n - 0)%nat with (S (n - 1)) by lia.
        rewrite nth_outcome_S, Hfn. reflexivity.
      * rewrite Hca, !calls_app. unfold calls. simpl. lia.
Qed.

(** [k + 1] failing calls, [k] delays that [time.sleep] takes and one it
    refuses: the loop ends there, with the exception of [time.sleep]. *)
Lemma retry_loop_refused (k : nat) :
  forall (n : nat) (i : Z) (last_err : option exn) (s : St)
         (tr : list Event) (refusal : exn),
    (forall j, (j <= k)%nat -> exists e, nth_outcome fn s j = Raise e) ->
    (k < n)%nat ->
    (i + Z.of_nat k < attempts)%Z ->
    (forall j, (j < k)%nat -> sleep_refusal (delay (i + Z.of_nat j)) = None) ->
    sleep_refusal (delay (i + Z.of_nat k)) = Some refusal ->
    exists tr',
      retry_loop fn what attempts base_delay_s n i last_err s tr
      = (Raise refusal, (nth_state fn s (S k), tr'))
      /\ calls tr' = (calls tr + S k)%nat.
Proof.
  induction k as [|k IH]; intros n i last_err s tr refusal Hfail Hn Hi Hacc Href.
  - destruct n as [|n]; [lia|]. simpl.
    destruct (Hfail 0%nat ltac:(lia)) as [e He].
    unfold nth_outcome in He. simpl in He.
    destruct (fn s) as [r s'] eqn:Hfn. simpl in He. subst r.
    destruct (Z.geb_spec i attempts) as [Hge|_]; [lia|].
    replace (i + Z.of_nat 0)%Z with i in Href by lia.
    unfold delay in Href. rewrite (time_sleep_refused _ _ _ Href).
    eexists. split; [reflexivity|].
    rewrite !calls_app. unfold calls. simpl. lia.
  - destruct n as [|n]; [lia|]. simpl.
    destruct (Hfail 0%nat ltac:(lia)) as [e He].
    unfold nth_outcome in He. simpl in He.
    destruct (fn s) as [r s'] eqn:Hfn. simpl in He. subst r.
    destruct (Z.geb_spec i attempts) as [Hge|_]; [lia|].
    pose proof (Hacc 0%nat ltac:(lia)) as H0.
    replace (i + Z.of_nat 0)%Z with i in H0 by lia.
    unfold delay in H0. rewrite (time_sleep_accepted _ _ H0).
    destruct (IH n (i + 1)%Z (Some e) s'
                 ((tr ++ [EvCall]) ++ [EvLog (retry_log what i attempts e)]
                  ++ [EvSleep (delay i)]) refusal) as [tr' [Hrun Hca]].
    + intros j Hj. specialize (Hfail (S j) ltac:(lia)).
      rewrite nth_outcome_S, Hfn in Hfail. exact Hfail.
    + lia.
    + lia.
    + intros j Hj. specialize (Hacc (S j) ltac:(lia)).
      replace (i + 1 + Z.of_nat j)%Z with (i + Z.of_nat (S j))%Z by lia. exact Hacc.
    + replace (i + 1 + Z.of_nat k)%Z with (i + Z.of_nat (S k))%Z by lia. exact Href.
    + exists tr'. rewrite app_assoc in Hrun. unfold delay in Hrun.
      split; [exact Hrun|].
      rewrite Hca, !calls_app. unfold calls. simpl. lia.
Qed.

End RetryFacts.

Lemma zrange_lower (k : nat) :
  forall (i x : Z), In x (zrange i k) -> (i <= x)%Z.
Proof.
  induction k as [|k IH]; intros i x Hx; [destruct Hx|].
  destruct Hx as [Hx|Hx]; [lia|]. apply IH in Hx. lia.
Qed.

Lemma zrange_last (k : nat) (i : Z) :
  In (i + Z.of_nat k)%Z (zrange i (S k)).
Proof.
  revert i. induction k as [|k IH]; intros i.
  - left. simpl. lia.
  - right. replace (i + Z.of_nat (S k))%Z with ((i + 1) + Z.of_nat k)%Z by lia.
    apply IH.
Qed.

Lemma Forall2_map_r {X Y : Type} (R : X -> Y -> Prop) (f : X -> Y) (l : list X) :
  (forall x, In x l -> R x (f x)) -> Forall2 R l (map f l).
Proof.
  induction l as [|x l IH]; intros H; [constructor|].
  cbn [map]. constructor; [apply H; left; reflexivity|].
  apply IH. intros y Hy. apply H. right. exact Hy.
Qed.

(** ** Retry never looks at the retry metadata *)

Lemma exn_str_erase (e : exn) : exn_str (erase_exn e) = exn_str e.
Proof. destruct e; reflexivity. Qed.

Lemma retry_loop_blind {St1 St2 A : Type} {m : Machine}
    (fn1 : St1 -> outcome A * St1) (fn2 : St2 -> outcome A * St2)
    (what : string) (attempts : Z) (base_delay_s : Q) (n : nat) :
  forall (i : Z) (last1 last2 : option exn) (s1 : St1) (s2 : St2)
         (tr : list Event),
    option_map erase_exn last1 = option_map erase_exn last2 ->
    (forall j, (j < n)%nat ->
       erase_outcome (nth_outcome fn1 s1 j) = erase_outcome (nth_outcome fn2 s2 j)) ->
    erase_outcome (fst (retry_loop fn1 what attempts base_delay_s n i last1 s1 tr))
    = erase_outcome (fst (retry_loop fn2 what attempts base_delay_s n i last2 s2 tr))
    /\ snd (snd (retry_loop fn1 what attempts base_delay_s n i last1 s1 tr))
       = snd (snd (retry_loop fn2 what attempts base_delay_s n i last2 s2 tr)).
Proof.
  induction n as [|n IH]; intros i last1 last2 s1 s2 tr Hlast Hsame.
  - simpl. split; [|reflexivity].
    destruct last1, last2; simpl in *; congruence.
  - simpl.
    pose proof (Hsame 0%nat ltac:(lia)) as H0.
    unfold nth_outcome in H0. simpl in H0.
    destruct (fn1 s1) as [r1 s1'] eqn:Hf1.
    destruct (fn2 s2) as [r2 s2'] eqn:Hf2.
    simpl in H0.
    destruct r1 as [v1|e1], r2 as [v2|e2]; simpl in H0; try discriminate.
    + simpl. split; [exact H0 | reflexivity].
    + assert (He : erase_exn e1 = erase_exn e2) by congruence.
      assert (Hlog : retry_log what i attempts e1 = retry_log what i attempts e2).
      { unfold retry_log. rewrite <- (exn_str_erase e1), <- (exn_str_erase e2), He.
        reflexivity. }
      destruct (i >=? attempts)%Z.
      * simpl. split; [congruence | reflexivity].
      * rewrite Hlog.
        destruct (time_sleep _ _) as [[[]|e'] tr3].
        -- apply IH.
           ++ simpl. congruence.
           ++ intros j Hj. specialize (Hsame (S j) ltac:(lia)).
              rewrite !nth_outcome_S, Hf1, Hf2 in Hsame. exact Hsame.
        -- simpl. split; reflexivity.
Qed.

(** ** The four retry properties *)

(** C10.  With [attempts < 1] the operation is never invoked (no call is
    recorded and its state is untouched) and [retry] raises the synthetic
    [RuntimeError] whose message is the label followed by " failed". *)
Theorem retry_without_attempts {St A : Type} {m : Machine}
    (fn : St -> outcome A * St)
    (what : string) (attempts : Z) (base_delay_s : Q) (s : St)
    (tr : list Event) :
  (attempts < 1)%Z ->
  retry fn what attempts base_delay_s s tr
  = (Raise (RuntimeError (what ++ " failed")), (s, tr)).
Proof.
  intros H. unfold retry.
  replace (Z.to_nat attempts) with 0%nat by lia. reflexivity.
Qed.

Lemma retry_without_attempts_witness :
  (0 < 1)%Z /\
  retry (m := exact_machine) (scripted (A := Z) (RuntimeError "script over"))
        "op" 0 1 [Ret 7%Z] []
  = (Raise (RuntimeError "op failed"), ([Ret 7%Z], [])).
Proof.
  split; [lia|].
  apply (retry_without_attempts (m := exact_machine)
           (scripted (A := Z) (RuntimeError "script over")) "op" 0 1 [Ret 7%Z] []).
  lia.
Defined.

(** C2, as the code has it.  An operation whose every call raises, retried
    with a base delay that is not negative and, when more than 2707 attempts
    are allowed, is a length [time.sleep] takes: it is called exactly
    [attempts] times, and [retry] then raises the very exception of the last
    call, neither wrapped nor changed, so an [HTTPFailure] keeps all its
    fields. *)
Theorem retry_reraises_last_failure {St A : Type} {m : Machine}
    (fn : St -> outcome A * St)
    (what : string) (attempts : Z) (base_delay_s : Q) (s : St)
    (tr : list Event) :
  (1 <= attempts)%Z ->
  0 <= base_delay_s ->
  ((2708 <= attempts)%Z -> sleep_refusal base_delay_s = None) ->
  (forall j, (j < Z.to_nat attempts)%nat -> exists e, nth_outcome fn s j = Raise e) ->
  exists (e : exn) (tr' : list Event),
    nth_outcome fn s (Z.to_nat attempts - 1) = Raise e
    /\ retry fn what attempts base_delay_s s tr
       = (Raise e, (nth_state fn s (Z.to_nat attempts), tr'))
    /\ calls tr' = (calls tr + Z.to_nat attempts)%nat.
Proof.
  intros Ha Hb Hlate Hfail.
  destruct (Hfail (Z.to_nat attempts - 1)%nat ltac:(lia)) as [e He].
  destruct (retry_loop_all_fail fn what attempts base_delay_s (Z.to_nat attempts)
              1%Z None s tr) as [tr' [Hrun Hca]]; try assumption; try lia.
  { intros j Hj. apply delay_accepted; [exact Hb|].
    intros Hi. apply Hlate. lia. }
  exists e, tr'. unfold retry. rewrite Hrun, He. auto.
Qed.

Lemma retry_reraises_last_failure_witness :
  exists tr',
    retry (m := exact_machine) (scripted (A := Z) (RuntimeError "script over")) "op" 2 1
          [Raise (RuntimeError "first"); Raise (sample_failure (JBool true) None)] []
    = (Raise (sample_failure (JBool true) None), ([], tr'))
    /\ calls tr' = 2%nat.
Proof.
  destruct (retry_reraises_last_failure (m := exact_machine)
              (scripted (A := Z) (RuntimeError "script over")) "op" 2 1
              [Raise (RuntimeError "first"); Raise (sample_failure (JBool true) None)] [])
    as [e [tr' [He [Hrun Hca]]]].
  - lia.
  - discriminate.
  - intros H. lia.
  - intros j Hj. destruct j as [|[|j]]; [eexists; reflexivity ..|].
    simpl in Hj. lia.
  - exists tr'. vm_compute in He. inversion He; subst e. split; assumption.
Defined.

Lemma always_down_outcome (j : nat) :
  nth_outcome always_down tt j = Raise (RuntimeError "down").
Proof.
  unfold nth_outcome.
  assert (H : nth_state always_down tt j = tt).
  { induction j as [|j IH]; [reflexivity | exact IH]. }
  rewrite H. reflexivity.
Qed.

Lemma sleep_refusal_1e10 :
  sleep_refusal (m := exact_machine) (inject_Z (10 ^ 10))
  = Some (PyError "OverflowError" "timestamp too large to convert to C _PyTime_t").
Proof. vm_compute. reflexivity. Qed.

Lemma ten_billion_nonneg : 0 <= inject_Z (10 ^ 10).
Proof. discriminate. Qed.

(** A run of 2708 attempts with a base delay of [1e10] seconds and an
    operation that fails at least 2707 times: the delays of the first 2706
    failures are at most 5 s; that of the 2707-th is the base delay, and
    [time.sleep] refuses it. *)
Lemma retry_1e10 {St A : Type} (fn : St -> outcome A * St) (s : St) :
  (forall j, (j <= Z.to_nat 2706)%nat -> exists e, nth_outcome fn s j = Raise e) ->
  exists tr',
    retry (m := exact_machine) fn "op" 2708 (inject_Z (10 ^ 10)) s []
    = (Raise (PyError "OverflowError" "timestamp too large to convert to C _PyTime_t"),
       (nth_state fn s (S (Z.to_nat 2706)), tr'))
    /\ calls tr' = S (Z.to_nat 2706).
Proof.
  intros Hfail.
  destruct (retry_loop_refused (m := exact_machine) fn "op" 2708 (inject_Z (10 ^ 10))
              (Z.to_nat 2706) (Z.to_nat 2708) 1%Z None s []
              (PyError "OverflowError" "timestamp too large to convert to C _PyTime_t")
              Hfail) as [tr' [Hrun Hca]].
  - lia.
  - lia.
  - intros j Hj. apply delay_accepted; [exact ten_billion_nonneg|].
    intros Hi. lia.
  - rewrite sleep_backoff_large by lia. exact sleep_refusal_1e10.
  - exists tr'. split; [exact Hrun | exact Hca].
Qed.

(** C2 as the specification words it fails on base delays that
    [time.sleep] refuses.  With a base delay of -1 s and two attempts, the
    first failure is followed by [time.sleep(-1.0)]: its [ValueError] ends
    the retry after one call, and the failure of the operation is lost.  With
    a base delay of [1e10] s and 2708 attempts, the delay after the 2707-th
    failure is the base delay, and [time.sleep] raises [OverflowError]: the
    operation is called 2707 times, not 2708. *)
Lemma retry_reraise_counterexample :
  (let run := retry (m := exact_machine) (scripted (A := Z) (RuntimeError "script over"))
                    "op" 2 (-1 # 1)
                    [Raise (RuntimeError "first"); Raise (RuntimeError "second")] [] in
   fst run = Raise (PyError "ValueError" "sleep length must be non-negative")
   /\ calls (snd (snd run)) = 1%nat)
  /\ (let run := retry (m := exact_machine) always_down "op" 2708
                       (inject_Z (10 ^ 10)) tt [] in
      (forall j, nth_outcome always_down tt j = Raise (RuntimeError "down"))
      /\ fst run
         = Raise (PyError "OverflowError" "timestamp too large to convert to C _PyTime_t")
      /\ calls (snd (snd run)) = Z.to_nat 2707).
Proof.
  split.
  - vm_compute. split; reflexivity.
  - cbv zeta. split; [exact always_down_outcome|].
    destruct (retry_1e10 always_down tt) as [tr' [Hrun Hca]].
    { intros j _. eexists. apply always_down_outcome. }
    rewrite Hrun. cbn [fst snd]. split; [reflexivity|].
    rewrite Hca. lia.
Qed.

(** C1, as the code has it.  An operation that fails [k] times and then
    succeeds, with [k < attempts], a base delay that is not negative and,
    when [k] is 2707 or more, is a length [time.sleep] takes: [retry] returns
    the success value after [k + 1] calls, and the delay slept after the
    [i]-th failure is [min(5.0, baseDelay * 1.3 ** (i - 1))], evaluated in
    double arithmetic, for [i <= 2706], and [baseDelay] itself from
    [i = 2707] on, where [1.3 ** (i - 1)] overflows and [sleep_backoff] falls
    back to [base_s]. *)
Theorem retry_returns_after_failures {St A : Type} {m : Machine}
    (fn : St -> outcome A * St)
    (what : string) (attempts : Z) (base_delay_s : Q) (s : St)
    (tr : list Event) (k : nat) (v : A) :
  fails_then_succeeds fn s k v ->
  (Z.of_nat k < attempts)%Z ->
  0 <= base_delay_s ->
  ((2707 <= Z.of_nat k)%Z -> sleep_refusal base_delay_s = None) ->
  exists tr',
    retry fn what attempts base_delay_s s tr = (Ret v, (nth_state fn s (S k), tr'))
    /\ (exists delays,
          sleeps tr' = sleeps tr ++ delays
          /\ Forall2 (backoff_delay base_delay_s) (zrange 1 k) delays)
    /\ calls tr' = (calls tr + S k)%nat.
Proof.
  intros Hop Hk Hb Hlate.
  destruct (retry_loop_succeeds fn what attempts base_delay_s k
              (Z.to_nat attempts) 1%Z None s tr v Hop) as [tr' [Hrun [Hsl Hca]]];
    try lia.
  { intros j Hj. apply delay_accepted; [exact Hb|].
    intros Hi. apply Hlate. lia. }
  exists tr'. split; [exact Hrun|]. split; [|exact Hca].
  eexists. split; [exact Hsl|].
  apply Forall2_map_r. intros i Hi.
  apply zrange_lower in Hi. apply sleep_backoff_default. exact Hi.
Qed.

Lemma retry_returns_after_failures_witness :
  (exists tr',
     retry (m := exact_machine) (scripted (RuntimeError "script over")) "op" 5 1
           [Raise (RuntimeError "a"); Raise (RuntimeError "b"); Ret 7%Z] []
     = (Ret 7%Z, ([], tr'))
     /\ (exists delays,
           sleeps tr' = [] ++ delays
           /\ Forall2 (backoff_delay (m := exact_machine) 1) (zrange 1 2) delays)
     /\ calls tr' = 3%nat)
  /\ sleeps (snd (snd (retry (m := exact_machine) (scripted (RuntimeError "script over"))
                             "op" 5 1
                             [Raise (RuntimeError "a"); Raise (RuntimeError "b");
                              Ret 7%Z] [])))
     = [1; default_factor].
Proof.
  split; [|vm_compute; reflexivity].
  apply (retry_returns_after_failures (m := exact_machine)
           (scripted (RuntimeError "script over")) "op" 5 1
           [Raise (RuntimeError "a"); Raise (RuntimeError "b"); Ret 7%Z] [] 2 7%Z).
  - split.
    + intros j Hj. destruct j as [|[|j]]; [eexists; reflexivity ..|]. lia.
    + reflexivity.
  - lia.
  - discriminate.
  - intros H. lia.
Defined.

Lemma flaky_2707_state (j : nat) (n : Z) :
  nth_state flaky_2707 n j = (n + Z.of_nat j)%Z.
Proof.
  revert n. induction j as [|j IH]; intros n.
  - simpl. lia.
  - simpl nth_state. rewrite IH. simpl. lia.
Qed.

Lemma flaky_2707_fails (j : nat) :
  (j < Z.to_nat 2707)%nat -> exists e, nth_outcome flaky_2707 0%Z j = Raise e.
Proof.
  intros Hj. unfold nth_outcome. rewrite flaky_2707_state.
  unfold flaky_2707. cbn [fst].
  destruct (Z.ltb_spec (0 + Z.of_nat j) 2707); [eexists; reflexivity | lia].
Qed.

Lemma flaky_2707_fails_then_succeeds :
  fails_then_succeeds flaky_2707 0%Z (Z.to_nat 2707) 0%Z.
Proof.
  split; [exact flaky_2707_fails|].
  unfold nth_outcome. rewrite flaky_2707_state.
  unfold flaky_2707. cbn [fst].
  destruct (Z.ltb_spec (0 + Z.of_nat (Z.to_nat 2707)) 2707); [lia | reflexivity].
Qed.

Lemma formula_at_2707 : py_min (5 # 1) (1 * default_factor ^ 2706) = 5 # 1.
Proof.
  unfold py_min.
  destruct (Qlt_le_dec (1 * default_factor ^ 2706) (5 # 1)) as [Hlt|_]; [|reflexivity].
  exfalso. apply (Qlt_not_le _ _ Hlt).
  rewrite Qmult_1_l.
  apply Qle_trans with (inject_Z (2 ^ 1024)); [discriminate|].
  apply factor_pow_over. lia.
Qed.

Lemma backoff_at_2707 :
  sleep_backoff (m := exact_machine) 1 2707 default_factor default_max_s = 1.
Proof. apply sleep_backoff_large. lia. Qed.

Lemma in_zrange_2707 : In 2707%Z (zrange 1 (Z.to_nat 2707)).
Proof.
  replace (Z.to_nat 2707) with (S (Z.to_nat 2706)) by lia.
  replace 2707%Z with (1 + Z.of_nat (Z.to_nat 2706))%Z at 1 by lia.
  apply zrange_last.
Qed.

Lemma flaky_2707_run :
  exists tr',
    retry (m := exact_machine) flaky_2707 "op" 2708 1 0%Z []
    = (Ret 0%Z, (nth_state flaky_2707 0%Z (S (Z.to_nat 2707)), tr'))
    /\ sleeps tr'
       = map (fun i => sleep_backoff (m := exact_machine) 1 i default_factor default_max_s)
             (zrange 1 (Z.to_nat 2707)).
Proof.
  destruct (retry_loop_succeeds (m := exact_machine) flaky_2707 "op" 2708 1
              (Z.to_nat 2707) (Z.to_nat 2708) 1%Z None 0%Z [] 0%Z
              flaky_2707_fails_then_succeeds) as [tr' [Hrun [Hsl _]]].
  - lia.
  - lia.
  - intros j Hj. apply delay_accepted; [discriminate|].
    intros _. apply sleep_accepts; discriminate.
  - exists tr'. split; [exact Hrun | exact Hsl].
Qed.

(** C1 as the specification words it fails in three ways.  At the 2707-th
    failure [1.3 ** 2706] overflows, [sleep_backoff] returns [base_s = 1.0],
    and the formula of the specification asks for
    [min(5.0, 1.0 * 1.3^2706) = 5.0].  With a base delay of -1 s the first
    failure is followed by [time.sleep(-1.0)], whose [ValueError] ends the
    retry although the next call would succeed.  With a base delay of
    [1e10] s the delay after the 2707-th failure is the base delay, and
    [time.sleep] raises [OverflowError] although the next call would
    succeed. *)
Lemma retry_delay_formula_counterexample :
  (fails_then_succeeds flaky_2707 0%Z (Z.to_nat 2707) 0%Z
   /\ (Z.of_nat (Z.to_nat 2707) < 2708)%Z
   /\ sleeps (snd (snd (retry (m := exact_machine) flaky_2707 "op" 2708 1 0%Z [])))
      <> map (fun i => py_min (5 # 1) (1 * default_factor ^ (i - 1)))
             (zrange 1 (Z.to_nat 2707)))
  /\ (fails_then_succeeds (scripted (RuntimeError "script over"))
        [Raise (RuntimeError "a"); Ret 7%Z] 1 7%Z
      /\ fst (retry (m := exact_machine) (scripted (RuntimeError "script over")) "op" 5
                    (-1 # 1) [Raise (RuntimeError "a"); Ret 7%Z] [])
         = Raise (PyError "ValueError" "sleep length must be non-negative"))
  /\ fst (retry (m := exact_machine) flaky_2707 "op" 2708 (inject_Z (10 ^ 10)) 0%Z [])
     = Raise (PyError "OverflowError" "timestamp too large to convert to C _PyTime_t").
Proof.
  split; [|split].
  - split; [exact flaky_2707_fails_then_succeeds|]. split; [lia|].
    destruct flaky_2707_run as [tr' [Hrun Hsl]].
    rewrite Hrun. cbn [snd]. rewrite Hsl. intros Heq.
    pose proof (proj1 (@map_ext_in_iff _ _ _ _ _) Heq 2707%Z in_zrange_2707) as H.
    cbv beta in H. rewrite backoff_at_2707 in H.
    change (2707 - 1)%Z with 2706%Z in H.
    rewrite formula_at_2707 in H. discriminate H.
  - split; [|vm_compute; reflexivity].
    split.
    + intros j Hj. destruct j as [|j]; [eexists; reflexivity | lia].
    + reflexivity.
  - destruct (retry_1e10 flaky_2707 0%Z) as [tr' [Hrun _]].
    { intros j Hj. apply flaky_2707_fails. lia. }
    rewrite Hrun. reflexivity.
Qed.

(** C9.  Two runs of [retry] with the same label, attempts and base delay,
    over operations whose successive outcomes agree up to the retry metadata
    ([normalized_retryable], [retry_after]) of the failures they raise: the
    runs leave the same trace (the same calls, log lines and sleeps, in the
    same order) and end alike, up to the same metadata. *)
Theorem retry_ignores_retry_metadata {St1 St2 A : Type} {m : Machine}
    (fn1 : St1 -> outcome A * St1) (fn2 : St2 -> outcome A * St2)
    (what : string) (attempts : Z) (base_delay_s : Q)
    (s1 : St1) (s2 : St2) (tr : list Event) :
  (forall j, (j < Z.to_nat attempts)%nat ->
     erase_outcome (nth_outcome fn1 s1 j) = erase_outcome (nth_outcome fn2 s2 j)) ->
  let r1 := retry fn1 what attempts base_delay_s s1 tr in
  let r2 := retry fn2 what attempts base_delay_s s2 tr in
  snd (snd r1) = snd (snd r2)
  /\ calls (snd (snd r1)) = calls (snd (snd r2))
  /\ sleeps (snd (snd r1)) = sleeps (snd (snd r2))
  /\ erase_outcome (fst r1) = erase_outcome (fst r2).
Proof.
  intros Hsame r1 r2.
  destruct (retry_loop_blind fn1 fn2 what attempts base_delay_s (Z.to_nat attempts)
              1%Z None None s1 s2 tr eq_refl Hsame) as [Hres Htr].
  fold (retry fn1 what attempts base_delay_s s1 tr) in Hres, Htr.
  fold (retry fn2 what attempts base_delay_s s2 tr) in Hres, Htr.
  fold r1 in Hres, Htr. fold r2 in Hres, Htr.
  rewrite Htr. auto.
Qed.

Lemma retry_ignores_retry_metadata_witness :
  let r1 := retry (m := exact_machine) (scripted (A := Z) (RuntimeError "script over"))
                  "op" 2 1
                  [Raise (sample_failure (JBool true) (Some "1"));
                   Raise (sample_failure (JBool true) (Some "1"))] [] in
  let r2 := retry (m := exact_machine) (scripted (A := Z) (RuntimeError "script over"))
                  "op" 2 1
                  [Raise (sample_failure (JBool false) None);
                   Raise (sample_failure JNull (Some "30"))] [] in
  snd (snd r1) = snd (snd r2)
  /\ calls (snd (snd r1)) = calls (snd (snd r2))
  /\ sleeps (snd (snd r1)) = sleeps (snd (snd r2))
  /\ erase_outcome (fst r1) = erase_outcome (fst r2).
Proof.
  apply (retry_ignores_retry_metadata (m := exact_machine)
           (scripted (A := Z) (RuntimeError "script over"))
           (scripted (A := Z) (RuntimeError "script over"))).
  intros j Hj. destruct j as [|[|j]]; [reflexivity ..|].
  simpl in Hj. lia.
Defined.

(** ** Transport *)

Lemma requests_app (a b : list Event) : requests (a ++ b) = requests a ++ requests b.
Proof.
  induction a as [|e a IH]; [reflexivity|].
  destruct e; simpl; rewrite IH; reflexivity.
Qed.

Lemma logged_only_refl (w : World) : logged_only w w.
Proof. unfold logged_only. auto. Qed.

Lemma logged_only_trans (w1 w2 w3 : World) :
  logged_only w1 w2 -> logged_only w2 w3 -> logged_only w1 w3.
Proof.
  unfold logged_only. intros (A1 & A2 & A3 & A4) (B1 & B2 & B3 & B4).
  repeat split; congruence.
Qed.

Lemma after_request_logged (w1 w2 w3 : World) (req : string * string) :
  after_request w1 w2 req -> logged_only w2 w3 -> after_request w1 w3 req.
Proof.
  unfold after_request, logged_only.
  intros (A1 & A2 & A3 & A4) (B1 & B2 & B3 & B4). repeat split; congruence.
Qed.

Lemma logged_after_request (w1 w2 w3 : World) (req : string * string) :
  logged_only w1 w2 -> after_request w2 w3 req -> after_request w1 w3 req.
Proof.
  unfold after_request, logged_only.
  intros (A1 & A2 & A3 & A4) (B1 & B2 & B3 & B4). repeat split; congruence.
Qed.

Lemma quiet_log (msg : string) : quiet (log msg).
Proof.
  intros w. eexists. split; [reflexivity|].
  unfold logged_only. cbn. rewrite requests_app, sleeps_app. cbn.
  rewrite !app_nil_r. auto.
Qed.

Lemma quiet_when_log (c : bool) (msg : string) : quiet (when c (log msg)).
Proof.
  destruct c; [apply quiet_log|].
  intros w. exists w. split; [reflexivity | apply logged_only_refl].
Qed.

Lemma quiet_bind {B : Type} (c : M unit) (k : M B) (w : World) :
  quiet c -> exists w1, logged_only w w1 /\ bind c (fun _ => k) w = k w1.
Proof.
  intros Hq. destruct (Hq w) as [w1 [Hc Hl]].
  exists w1. split; [exact Hl|]. unfold bind. rewrite Hc. reflexivity.
Qed.

Lemma urlopen_error_code (wire : Wire) (code : Z) (hs : list (string * string))
    (b : list byte) :
  urlopen wire = UrlHTTPError code hs b -> (code < 200 \/ 300 <= code)%Z.
Proof.
  destruct wire as [c h bd|r|cls msg]; simpl; [|discriminate ..].
  destruct (Z.leb_spec 200 c), (Z.ltb_spec c 300); simpl; intros Heq;
    inversion Heq; subst; lia.
Qed.

Section TransportFacts.
Variable rt : PyRuntime.
Variable env : Env.

(** One run of [_request]: its outcome depends on the number of the request
    only, and the world moves on by exactly that request. *)
Lemma _request_run (meth pth : string) (profile_id : option string)
    (json_body : option JSON) (body : option (list byte))
    (content_type accept : option string) (w : World) :
  exists w',
    _request rt env meth pth profile_id json_body body content_type accept w
    = (fst (_request rt env meth pth profile_id json_body body content_type accept
                     (mkWorld 0 (sent w) [])), w')
    /\ after_request w w' (meth, (BASE_URL env ++ pth)%string).
Proof.
  unfold _request. cbn [sent ticks trace].
  set (w1 := mkWorld (ticks w) (S (sent w)) _).
  set (wc := mkWorld 0 (S (sent w)) _).
  assert (Hw1 : after_request w w1 (meth, (BASE_URL env ++ pth)%string)).
  { unfold after_request, w1. cbn. rewrite requests_app, sleeps_app. cbn.
    rewrite app_nil_r. auto. }
  destruct (urlopen (server env (sent w))) as [code rh rb|code rh eb|reason|cls msg].
  - exists w1. split; [reflexivity | exact Hw1].
  - destruct (parse_error_envelope rt (utf8_replace rt eb)) as [[ec nc] nr].
    repeat match goal with
    | |- context [bind ?c (fun _ => ?k) ?w0] =>
        let wn := fresh "w" in
        let Hl := fresh "Hl" in
        let He := fresh "He" in
        destruct (quiet_bind c k w0 ltac:(first [apply quiet_log | apply quiet_when_log]))
          as [wn [Hl He]];
        rewrite He; clear He
    end.
    unfold raise. eexists. split; [reflexivity|].
    repeat match goal with
    | H : logged_only w1 _ |- _ => apply (after_request_logged _ _ _ _ Hw1) in H
    | H1 : after_request w ?a _, H2 : logged_only ?a ?b |- _ =>
        apply (after_request_logged _ _ _ _ H1) in H2
    end.
    assumption.
  - exists w1. split; [reflexivity | exact Hw1].
  - exists w1. split; [reflexivity | exact Hw1].
Qed.

(** An [HTTPFailure] out of [_request] carries the code of an
    [urllib.error.HTTPError]. *)
Lemma _request_failure (meth pth : string) (profile_id : option string)
    (json_body : option JSON) (body : option (list byte))
    (content_type accept : option string) (w w' : World) (f : HTTPFailure) :
  _request rt env meth pth profile_id json_body body content_type accept w
  = (Raise (HTTPFailureExc f), w') ->
  exists hs b, urlopen (server env (sent w)) = UrlHTTPError (status f) hs b.
Proof.
  unfold _request.
  destruct (urlopen (server env (sent w))) as [code rh rb|code rh eb|reason|cls msg].
  - discriminate.
  - destruct (parse_error_envelope rt (utf8_replace rt eb)) as [[ec nc] nr].
    repeat match goal with
    | |- context [bind ?c (fun _ => ?k) ?w0] =>
        let wn := fresh "w" in
        let Hl := fresh "Hl" in
        let He := fresh "He" in
        destruct (quiet_bind c k w0 ltac:(first [apply quiet_log | apply quiet_when_log]))
          as [wn [Hl He]];
        rewrite He; clear He
    end.
    unfold raise. intros H. inversion H. subst. cbn. eauto.
  - discriminate.
  - discriminate.
Qed.

Lemma request_json_run (meth pth : string) (profile_id : option string)
    (json_body : option JSON) (w : World) :
  exists w',
    request_json rt env meth pth profile_id json_body w
    = (json_answer rt env (sent w) meth pth profile_id json_body, w')
    /\ after_request w w' (meth, (BASE_URL env ++ pth)%string).
Proof.
  unfold json_answer, request_json, bind.
  destruct (_request_run meth pth profile_id json_body None None
              (Some "application/json") w) as [w1 [H1 H2]].
  rewrite H1.
  destruct (_request rt env meth pth profile_id json_body None None
              (Some "application/json") (mkWorld 0 (sent w) [])) as [r wc].
  cbn [fst].
  destruct r as [[[code h] body]|e]; [|eauto].
  destruct (outside_2xx code); [unfold raise; eauto|].
  destruct body as [|b0 body]; [unfold ret; eauto|].
  unfold lift.
  destruct (of_builtin (utf8_strict rt (b0 :: body))); eauto.
Qed.

Lemma request_text_run (meth pth : string) (profile_id : option string)
    (w : World) :
  exists w',
    request_text rt env meth pth profile_id w
    = (text_answer rt env (sent w) meth pth profile_id, w')
    /\ after_request w w' (meth, (BASE_URL env ++ pth)%string).
Proof.
  unfold text_answer, request_text, bind.
  destruct (_request_run meth pth profile_id None None None
              (Some "text/plain") w) as [w1 [H1 H2]].
  rewrite H1.
  destruct (_request rt env meth pth profile_id None None None
              (Some "text/plain") (mkWorld 0 (sent w) [])) as [r wc].
  cbn [fst].
  destruct r as [[[code h] body]|e]; [|eauto].
  destruct (outside_2xx code); [unfold raise; eauto | unfold ret; eauto].
Qed.

End TransportFacts.

(** C8.  Whenever [_request], [request_json], [request_bytes] or
    [request_text] raises an [HTTPFailure], its [status] lies outside
    [200, 300): the only place that builds one is the handler of
    [urllib.error.HTTPError], which urllib raises for no 2xx response. *)
Theorem http_failure_status_outside_2xx (rt : PyRuntime) (env : Env)
    (meth pth : string) (profile_id : option string) (json_body : option JSON)
    (body : option (list byte)) (content_type accept : option string)
    (w w' : World) (f : HTTPFailure) :
  _request rt env meth pth profile_id json_body body content_type accept w
    = (Raise (HTTPFailureExc f), w')
  \/ request_json rt env meth pth profile_id json_body w
    = (Raise (HTTPFailureExc f), w')
  \/ request_bytes rt env meth pth profile_id w = (Raise (HTTPFailureExc f), w')
  \/ request_text rt env meth pth profile_id w = (Raise (HTTPFailureExc f), w') ->
  (status f < 200 \/ 300 <= status f)%Z.
Proof.
  assert (Hreq : forall jb bd ct acc w0 w1,
             _request rt env meth pth profile_id jb bd ct acc w0
             = (Raise (HTTPFailureExc f), w1) ->
             (status f < 200 \/ 300 <= status f)%Z).
  { intros jb bd ct acc w0 w1 H.
    destruct (_request_failure rt env _ _ _ _ _ _ _ _ _ _ H) as [hs [b Hu]].
    exact (urlopen_error_code _ _ _ _ Hu). }
  intros [H|[H|[H|H]]].
  - exact (Hreq _ _ _ _ _ _ H).
  - unfold request_json, bind in H.
    destruct (_request rt env meth pth profile_id json_body None None
                (Some "application/json") w) as [[[[code h] bd]|e] w1] eqn:Hr.
    + destruct (outside_2xx code); [discriminate H|].
      destruct bd as [|b0 bd]; [discriminate H|].
      unfold lift in H.
      destruct (utf8_strict rt (b0 :: bd)); cbn in H; [|discriminate H].
      destruct (json_loads rt a); cbn in H; discriminate H.
    + inversion H; subst. exact (Hreq _ _ _ _ _ _ Hr).
  - unfold request_bytes, bind in H.
    destruct (_request rt env meth pth profile_id None None None None w)
      as [[[[code h] bd]|e] w1] eqn:Hr.
    + destruct (outside_2xx code); discriminate H.
    + inversion H; subst. exact (Hreq _ _ _ _ _ _ Hr).
  - unfold request_text, bind in H.
    destruct (_request rt env meth pth profile_id None None None
                (Some "text/plain") w) as [[[[code h] bd]|e] w1] eqn:Hr.
    + destruct (outside_2xx code); discriminate H.
    + inversion H; subst. exact (Hreq _ _ _ _ _ _ Hr).
Qed.

Lemma http_failure_status_outside_2xx_witness :
  let rt := demo_rt [] in
  let env := demo_env None [WireResponse 404 [] (bytes_of "missing")] in
  let r := _request rt env "GET" "/meta" None None None None None start in
  exists f,
    r = (Raise (HTTPFailureExc f), snd r)
    /\ status f = 404%Z
    /\ (status f < 200 \/ 300 <= status f)%Z.
Proof.
  intros rt env r.
  exists (mkHTTPFailure 404 "GET" "/meta" [] (Some "missing") JNull JNull JNull None None).
  assert (H : r = (Raise (HTTPFailureExc
                           (mkHTTPFailure 404 "GET" "/meta" [] (Some "missing")
                              JNull JNull JNull None None)), snd r))
    by (vm_compute; reflexivity).
  split; [exact H|]. split; [reflexivity|].
  exact (http_failure_status_outside_2xx rt env "GET" "/meta" None None None None
           None start (snd r) _ (or_introl H)).
Defined.

(** ** Job poller *)

Section PollFacts.
Variable rt : PyRuntime.
Variable env : Env.
Variables job_id profile_id : string.
Variable deadline : Q.

Let job_get : string * string := ("GET", (BASE_URL env ++ job_path job_id)%string).
Let logs_get : string * string :=
  ("GET", (BASE_URL env ++ job_logs_path job_id)%string).
Let poll (n : nat) : outcome JSON :=
  json_answer rt env n "GET" (job_path job_id) (Some profile_id) None.

Lemma terminal_status_false (st : JSON) :
  terminal_status st = false ->
  py_eq_str st "succeeded" = false
  /\ (py_eq_str st "failed" || py_eq_str st "canceled") = false.
Proof.
  unfold terminal_status. intros H.
  apply orb_false_iff in H. destruct H as [H1 H2].
  apply orb_false_iff in H1. destruct H1 as [H0 H1].
  rewrite H0, H1, H2. auto.
Qed.

(** One turn of the loop over a job that is still on its way. *)
Lemma poll_loop_pending (fuel : nat) (w : World) :
  clock env (ticks w) < deadline ->
  pending_poll (poll (sent w)) ->
  exists w3,
    poll_loop rt env (S fuel) job_id profile_id deadline w
    = poll_loop rt env fuel job_id profile_id deadline w3
    /\ ticks w3 = S (ticks w) /\ sent w3 = S (sent w)
    /\ requests (trace w3) = requests (trace w) ++ [job_get]
    /\ sleeps (trace w3) = sleeps (trace w) ++ [1].
Proof.
  intros Hclock [job [Hjob Hst]].
  apply terminal_status_false in Hst. destruct Hst as [Hs Hf].
  cbn [poll_loop]. unfold time_time.
  destruct (Qlt_le_dec (clock env (ticks w)) deadline) as [_|Hle];
    [|exfalso; exact (Qlt_not_le _ _ Hclock Hle)].
  destruct (request_json_run rt env "GET" (job_path job_id) (Some profile_id) None
              (mkWorld (S (ticks w)) (sent w) (trace w))) as [w2 [Hrun Hw2]].
  rewrite Hrun. cbn [sent]. fold (poll (sent w)). rewrite Hjob, Hs, Hf.
  unfold sleep. rewrite time_sleep_accepted by (apply sleep_accepts; discriminate).
  eexists. split; [reflexivity|].
  destruct Hw2 as (T & S' & R & L). cbn in T, S', R, L |- *.
  rewrite requests_app, sleeps_app, R, L. cbn. rewrite app_nil_r.
  auto.
Qed.

(** [n] such turns in a row. *)
Lemma poll_loop_pending_n (n : nat) :
  forall (fuel : nat) (w : World),
    (forall i, (i < n)%nat -> clock env (ticks w + i) < deadline) ->
    (forall i, (i < n)%nat -> pending_poll (poll (sent w + i))) ->
    exists wn,
      poll_loop rt env (n + fuel) job_id profile_id deadline w
      = poll_loop rt env fuel job_id profile_id deadline wn
      /\ ticks wn = (ticks w + n)%nat /\ sent wn = (sent w + n)%nat
      /\ requests (trace wn) = requests (trace w) ++ repeat job_get n
      /\ sleeps (trace wn) = sleeps (trace w) ++ repeat 1 n.
Proof.
  induction n as [|n IH]; intros fuel w Hclock Hpend.
  - exists w. cbn. rewrite !Nat.add_0_r, !app_nil_r. auto.
  - destruct (poll_loop_pending (n + fuel) w) as [w3 (Hstep & T & S' & R & L)].
    + specialize (Hclock 0%nat ltac:(lia)). rewrite Nat.add_0_r in Hclock.
      exact Hclock.
    + specialize (Hpend 0%nat ltac:(lia)). rewrite Nat.add_0_r in Hpend.
      exact Hpend.
    + destruct (IH fuel w3) as [wn (Hrun & T' & S'' & R' & L')].
      * intros i Hi. rewrite T.
        replace (S (ticks w) + i)%nat with (ticks w + S i)%nat by lia.
        apply Hclock. lia.
      * intros i Hi. rewrite S'.
        replace (S (sent w) + i)%nat with (sent w + S i)%nat by lia.
        apply Hpend. lia.
      * exists wn. split; [|repeat split].
        -- cbn [Nat.add]. rewrite Hstep. exact Hrun.
        -- lia.
        -- lia.
        -- rewrite R', R, <- app_assoc. reflexivity.
        -- rewrite L', L, <- app_assoc. reflexivity.
Qed.

(** The poll that finds the job succeeded. *)
Lemma poll_loop_succeeded (fuel : nat) (w : World) (job : list (string * JSON)) :
  clock env (ticks w) < deadline ->
  poll (sent w) = Ret (JObj job) ->
  dict_get job "status" = JStr "succeeded" ->
  exists w2,
    poll_loop rt env (S fuel) job_id profile_id deadline w = Some (Ret tt, w2)
    /\ requests (trace w2) = requests (trace w) ++ [job_get]
    /\ sleeps (trace w2) = sleeps (trace w).
Proof.
  intros Hclock Hjob Hst.
  cbn [poll_loop]. unfold time_time.
  destruct (Qlt_le_dec (clock env (ticks w)) deadline) as [_|Hle];
    [|exfalso; exact (Qlt_not_le _ _ Hclock Hle)].
  destruct (request_json_run rt env "GET" (job_path job_id) (Some profile_id) None
              (mkWorld (S (ticks w)) (sent w) (trace w))) as [w2 [Hrun Hw2]].
  rewrite Hrun. cbn [sent]. fold (poll (sent w)). rewrite Hjob, Hst.
  cbn [py_eq_str String.eqb Ascii.eqb Bool.eqb andb].
  exists w2. split; [reflexivity|].
  destruct Hw2 as (T & S' & R & L). cbn in R, L. auto.
Qed.

(** The best-effort fetch of the job logs never raises, sends one request,
    and ends with the warning when the fetch failed. *)
Lemma fetch_job_logs_run (w : World) :
  exists w',
    fetch_job_logs rt env job_id profile_id w = (Ret tt, w')
    /\ after_request w w' logs_get
    /\ (forall e,
          text_answer rt env (sent w) "GET" (job_logs_path job_id) (Some profile_id)
          = Raise e ->
          exists pre,
            logs (trace w')
            = pre ++ [("(warn) failed to fetch job logs: " ++ exn_str e)%string]).
Proof.
  unfold fetch_job_logs, try_except, bind.
  destruct (request_text_run rt env "GET" (job_logs_path job_id) (Some profile_id) w)
    as [w1 [Hrun Hw1]].
  rewrite Hrun.
  destruct (text_answer rt env (sent w) "GET" (job_logs_path job_id) (Some profile_id))
    as [tail|e].
  - destruct (negb (str_strip rt tail =? "")%string).
    + cbn. eexists. split; [reflexivity|]. split; [|discriminate].
      eapply after_request_logged; [exact Hw1|].
      unfold logged_only. cbn. rewrite !requests_app, !sleeps_app. cbn.
      rewrite !app_nil_r. auto.
    + cbn. exists w1. split; [reflexivity|]. split; [exact Hw1|discriminate].
  - cbn. eexists. split; [reflexivity|]. split.
    + eapply after_request_logged; [exact Hw1|].
      unfold logged_only. cbn. rewrite !requests_app, !sleeps_app. cbn.
      rewrite !app_nil_r. auto.
    + intros e' He'. inversion He'; subst e'. cbn.
      exists (logs (trace w1)). rewrite logs_app. reflexivity.
Qed.

(** The poll that finds the job failed or canceled. *)
Lemma poll_loop_ended (fuel : nat) (w : World) (job : list (string * JSON))
    (st : string) :
  clock env (ticks w) < deadline ->
  poll (sent w) = Ret (JObj job) ->
  dict_get job "status" = JStr st ->
  st = "failed" \/ st = "canceled" ->
  exists w3,
    poll_loop rt env (S fuel) job_id profile_id deadline w
    = Some (Raise (RuntimeError
                     ("Job " ++ job_id ++ " ended with status=" ++ st ++ ": "
                      ++ py_str rt (dict_get job "error"))), w3)
    /\ requests (trace w3) = requests (trace w) ++ [job_get; logs_get]
    /\ (forall e,
          text_answer rt env (S (sent w)) "GET" (job_logs_path job_id)
                      (Some profile_id) = Raise e ->
          exists pre,
            logs (trace w3)
            = pre ++ [("(warn) failed to fetch job logs: " ++ exn_str e)%string]).
Proof.
  intros Hclock Hjob Hst Hend.
  cbn [poll_loop]. unfold time_time.
  destruct (Qlt_le_dec (clock env (ticks w)) deadline) as [_|Hle];
    [|exfalso; exact (Qlt_not_le _ _ Hclock Hle)].
  destruct (request_json_run rt env "GET" (job_path job_id) (Some profile_id) None
              (mkWorld (S (ticks w)) (sent w) (trace w))) as [w2 [Hrun Hw2]].
  rewrite Hrun. cbn [sent]. fold (poll (sent w)). rewrite Hjob, Hst.
  assert (Hne : py_eq_str (JStr st) "succeeded" = false)
    by (destruct Hend; subst st; reflexivity).
  assert (Hfc : (py_eq_str (JStr st) "failed" || py_eq_str (JStr st) "canceled") = true)
    by (destruct Hend; subst st; reflexivity).
  rewrite Hne, Hfc. unfold bind.
  destruct (fetch_job_logs_run w2) as [w3 (Hfetch & Hw3 & Hwarn)].
  rewrite Hfetch. unfold raise, job_failed_msg. cbn [py_str].
  exists w3. split; [reflexivity|].
  destruct Hw2 as (T & S' & R & L). destruct Hw3 as (T3 & S3 & R3 & L3).
  cbn in S', R. split.
  - rewrite R3, R, <- app_assoc. reflexivity.
  - intros e He. apply Hwarn. rewrite S'. exact He.
Qed.

(** The turn that finds the deadline passed. *)
Lemma poll_loop_deadline (fuel : nat) (w : World) :
  deadline <= clock env (ticks w) ->
  exists w1,
    poll_loop rt env (S fuel) job_id profile_id deadline w
    = Some (Raise (RuntimeError ("Job " ++ job_id ++ " did not finish within 180s")), w1)
    /\ requests (trace w1) = requests (trace w).
Proof.
  intros Hclock. cbn [poll_loop]. unfold time_time.
  destruct (Qlt_le_dec (clock env (ticks w)) deadline) as [Hlt|_];
    [exfalso; exact (Qlt_not_le _ _ Hlt Hclock)|].
  eexists. split; [reflexivity|]. reflexivity.
Qed.

End PollFacts.

Lemma append_cancel_l (a b c : string) : (a ++ b = a ++ c)%string -> b = c.
Proof.
  induction a as [|x a IH]; simpl; intros H; [exact H|].
  inversion H. auto.
Qed.

Lemma timeout_is_not_job_failure (rt : PyRuntime) (job_id : string) (st err : JSON) :
  RuntimeError (job_timeout_msg job_id) <> RuntimeError (job_failed_msg rt job_id st err).
Proof.
  unfold job_timeout_msg, job_failed_msg. intros H. inversion H as [H1].
  apply append_cancel_l in H1. discriminate H1.
Qed.

(** C3.  [poll_job] over any sequence of answers to its polls:
    - a first poll that reports [succeeded] makes it return at once: one
      request, the poll itself, no log fetch and no sleep;
    - a poll that reports [failed] or [canceled] (after any number of polls
      of a job still on its way) is followed by exactly one log-fetch
      request, whose own failure only leaves a warning in the log, and then by
      an error whose message holds the status and the job's error text;
    - the deadline of 180 s passing while the job is on its way raises the
      timeout error, with no log fetch;
    - the timeout error is never equal to a job-failure error. *)
Theorem poll_job_contract (rt : PyRuntime) (env : Env) (job_id profile_id : string)
    (w : World) :
  let poll := fun n : nat =>
    json_answer rt env (sent w + n) "GET" (job_path job_id) (Some profile_id) None in
  let in_time := fun n : nat =>
    clock env (ticks w + 1 + n) < clock env (ticks w) + 180 in
  let job_get := ("GET", (BASE_URL env ++ "/jobs/" ++ job_id)%string) in
  let logs_get :=
    ("GET", (BASE_URL env ++ "/jobs/" ++ job_id ++ "/logs?tailBytes=65536")%string) in
  (forall (job : list (string * JSON)) (fuel : nat),
      in_time 0%nat ->
      poll 0%nat = Ret (JObj job) ->
      dict_get job "status" = JStr "succeeded" ->
      exists w',
        poll_job rt env (S fuel) job_id profile_id w = Some (Ret tt, w')
        /\ requests (trace w') = requests (trace w) ++ [job_get]
        /\ sleeps (trace w') = sleeps (trace w))
  /\ (forall (n : nat) (job : list (string * JSON)) (st : string) (fuel : nat),
      (forall i, (i <= n)%nat -> in_time i) ->
      (forall i, (i < n)%nat -> pending_poll (poll i)) ->
      poll n = Ret (JObj job) ->
      dict_get job "status" = JStr st ->
      st = "failed" \/ st = "canceled" ->
      (n < fuel)%nat ->
      exists w',
        poll_job rt env fuel job_id profile_id w
        = Some (Raise (RuntimeError
                         ("Job " ++ job_id ++ " ended with status=" ++ st ++ ": "
                          ++ py_str rt (dict_get job "error"))), w')
        /\ requests (trace w')
           = requests (trace w) ++ repeat job_get (S n) ++ [logs_get]
        /\ (forall e,
              text_answer rt env (sent w + S n) "GET" (job_logs_path job_id)
                          (Some profile_id) = Raise e ->
              exists pre,
                logs (trace w')
                = pre ++ [("(warn) failed to fetch job logs: " ++ exn_str e)%string]))
  /\ (forall (n fuel : nat),
      (forall i, (i < n)%nat -> in_time i) ->
      clock env (ticks w) + 180 <= clock env (ticks w + 1 + n) ->
      (forall i, (i < n)%nat -> pending_poll (poll i)) ->
      (n < fuel)%nat ->
      exists w',
        poll_job rt env fuel job_id profile_id w
        = Some (Raise (RuntimeError
                         ("Job " ++ job_id ++ " did not finish within 180s")), w')
        /\ requests (trace w') = requests (trace w) ++ repeat job_get n)
  /\ (forall st err : JSON,
      RuntimeError (job_timeout_msg job_id)
      <> RuntimeError (job_failed_msg rt job_id st err)).
Proof.
  intros poll in_time job_get logs_get.
  set (w0 := mkWorld (S (ticks w)) (sent w) (trace w)).
  assert (Hjob0 : forall fuel,
             poll_job rt env fuel job_id profile_id w
             = poll_loop rt env fuel job_id profile_id (clock env (ticks w) + 180) w0)
    by reflexivity.
  assert (Hticks : forall i, (ticks w0 + i = ticks w + 1 + i)%nat)
    by (intros i; cbn; lia).
  split; [|split; [|split]].
  - intros job fuel Htime Hpoll Hst. rewrite Hjob0.
    apply (poll_loop_succeeded rt env job_id profile_id _ fuel w0 job).
    + unfold in_time in Htime. rewrite <- Hticks, Nat.add_0_r in Htime. exact Htime.
    + unfold poll in Hpoll. rewrite Nat.add_0_r in Hpoll. exact Hpoll.
    + exact Hst.
  - intros n job st fuel Htime Hpend Hpoll Hst Hend Hfuel. rewrite Hjob0.
    destruct (poll_loop_pending_n rt env job_id profile_id
                (clock env (ticks w) + 180) n (fuel - n) w0)
      as [wn (Hrun & T & S' & R & L)].
    { intros i Hi. rewrite Hticks. apply Htime. lia. }
    { intros i Hi. apply Hpend. exact Hi. }
    replace (n + (fuel - n))%nat with fuel in Hrun by lia.
    rewrite Hrun.
    destruct (fuel - n)%nat as [|fuel'] eqn:Hf; [lia|].
    destruct (poll_loop_ended rt env job_id profile_id (clock env (ticks w) + 180)
                fuel' wn job st) as [w3 (Hend3 & R3 & Hwarn)].
    { rewrite T, Hticks. apply Htime. lia. }
    { rewrite S'. exact Hpoll. }
    { exact Hst. }
    { exact Hend. }
    exists w3. split; [exact Hend3|]. split.
    + rewrite R3, R. cbn [trace w0].
      replace (S n) with (n + 1)%nat by lia.
      rewrite repeat_app, <- !app_assoc. reflexivity.
    + intros e He. apply Hwarn. rewrite S'. cbn [sent w0].
      replace (S (sent w + n)) with (sent w + S n)%nat by lia. exact He.
  - intros n fuel Htime Hlate Hpend Hfuel. rewrite Hjob0.
    destruct (poll_loop_pending_n rt env job_id profile_id
                (clock env (ticks w) + 180) n (fuel - n) w0)
      as [wn (Hrun & T & S' & R & L)].
    { intros i Hi. rewrite Hticks. apply Htime. exact Hi. }
    { intros i Hi. apply Hpend. exact Hi. }
    replace (n + (fuel - n))%nat with fuel in Hrun by lia.
    rewrite Hrun.
    destruct (fuel - n)%nat as [|fuel'] eqn:Hf; [lia|].
    destruct (poll_loop_deadline rt env job_id profile_id
                (clock env (ticks w) + 180) fuel' wn) as [w1 [Hdl R1]].
    { rewrite T, Hticks. exact Hlate. }
    exists w1. split; [exact Hdl|]. rewrite R1, R. reflexivity.
  - intros st err. apply timeout_is_not_job_failure.
Qed.

Lemma poll_job_contract_witness :
  let rt := demo_rt [("running", JObj [("id", JStr "j1"); ("status", JStr "running")]);
                     ("failed", JObj [("id", JStr "j1"); ("status", JStr "failed");
                                      ("error", JStr "disk full")])] in
  let env := demo_env None [ok_json "running"; ok_json "failed";
                            WireResponse 500 [] (bytes_of "no logs")] in
  exists w',
    poll_job rt env 5 "j1" "p1" start
    = Some (Raise (RuntimeError "Job j1 ended with status=failed: disk full"), w')
    /\ requests (trace w')
       = [("GET", "http://localhost:8080/jobs/j1");
          ("GET", "http://localhost:8080/jobs/j1");
          ("GET", "http://localhost:8080/jobs/j1/logs?tailBytes=65536")].
Proof.
  intros rt env.
  destruct (proj1 (proj2 (poll_job_contract rt env "j1" "p1" start))
              1%nat
              [("id", JStr "j1"); ("status", JStr "failed"); ("error", JStr "disk full")]
              "failed" 5%nat) as [w' (Hrun & Hreq & _)].
  - intros i Hi. destruct i as [|[|i]]; [reflexivity | reflexivity | lia].
  - intros i Hi. destruct i as [|i]; [|lia].
    eexists. split; reflexivity.
  - reflexivity.
  - reflexivity.
  - left. reflexivity.
  - lia.
  - exists w'. split; [exact Hrun | exact Hreq].
Defined.

(** ** Stepping through an adapter *)

Lemma run_log {B : Type} (msg : string) (k : unit -> M B) (w : World) :
  exists w1, logged_only w w1 /\ bind (log msg) k w = k tt w1.
Proof.
  destruct (quiet_log msg w) as [w1 [Hc Hl]].
  exists w1. split; [exact Hl|]. unfold bind. rewrite Hc. reflexivity.
Qed.

Lemma run_check_true {B : Type} (e : exn) (k : unit -> M B) (w : World) :
  bind (check true e) k w = (Raise e, w).
Proof. reflexivity. Qed.

Lemma run_check_false {B : Type} (e : exn) (k : unit -> M B) (w : World) :
  bind (check false e) k w = k tt w.
Proof. reflexivity. Qed.

Lemma run_request_json {B : Type} (rt : PyRuntime) (env : Env) (meth pth : string)
    (profile_id : option string) (json_body : option JSON) (k : JSON -> M B)
    (w : World) :
  exists w1,
    after_request w w1 (meth, (BASE_URL env ++ pth)%string)
    /\ bind (request_json rt env meth pth profile_id json_body) k w
       = match json_answer rt env (sent w) meth pth profile_id json_body with
         | Ret v => k v w1
         | Raise e => (Raise e, w1)
         end.
Proof.
  destruct (request_json_run rt env meth pth profile_id json_body w) as [w1 [Hr Ha]].
  exists w1. split; [exact Ha|]. unfold bind. rewrite Hr.
  destruct (json_answer rt env (sent w) meth pth profile_id json_body); reflexivity.
Qed.

Lemma run_attempt_request_json {B : Type} (rt : PyRuntime) (env : Env)
    (meth pth : string) (profile_id : option string) (json_body : option JSON)
    (k : outcome JSON -> M B) (w : World) :
  exists w1,
    after_request w w1 (meth, (BASE_URL env ++ pth)%string)
    /\ bind (attempt (request_json rt env meth pth profile_id json_body)) k w
       = k (json_answer rt env (sent w) meth pth profile_id json_body) w1.
Proof.
  destruct (request_json_run rt env meth pth profile_id json_body w) as [w1 [Hr Ha]].
  exists w1. split; [exact Ha|]. unfold bind, attempt. rewrite Hr. reflexivity.
Qed.

(** Run the statement at the head of the adapter in [H]. *)
Ltac run_head H :=
  lazymatch type of H with
  | bind (log ?m) ?k ?w0 = _ =>
      let w1 := fresh "w" in
      let Hl := fresh "Hl" in
      let He := fresh "He" in
      destruct (run_log m k w0) as (w1 & Hl & He);
      rewrite He in H; clear He; cbv beta in H
  | bind (check ?c ?e) ?k ?w0 = _ =>
      let Hc := fresh "Hc" in
      destruct c eqn:Hc;
      [ rewrite run_check_true in H | rewrite run_check_false in H; cbv beta in H ]
  | bind (request_json ?rt ?env ?m ?p ?pid ?jb) ?k ?w0 = _ =>
      let w1 := fresh "w" in
      let Hl := fresh "Hr" in
      let He := fresh "He" in
      let Ha := fresh "Ha" in
      destruct (run_request_json rt env m p pid jb k w0) as (w1 & Hl & He);
      rewrite He in H; clear He;
      destruct (json_answer rt env (sent w0) m p pid jb) eqn:Ha;
      cbv beta in H
  | bind (attempt (request_json ?rt ?env ?m ?p ?pid ?jb)) ?k ?w0 = _ =>
      let w1 := fresh "w" in
      let Hl := fresh "Hr" in
      let He := fresh "He" in
      let Ha := fresh "Ha" in
      destruct (run_attempt_request_json rt env m p pid jb k w0) as (w1 & Hl & He);
      rewrite He in H; clear He;
      destruct (json_answer rt env (sent w0) m p pid jb) eqn:Ha;
      cbv beta iota in H
  end.

(** Turn the bookkeeping of a run into equations on [sent]. *)
Ltac sent_facts :=
  repeat match goal with
  | H : logged_only _ _ |- _ => destruct H as (_ & H & _ & _)
  | H : after_request _ _ _ |- _ => destruct H as (_ & H & _ & _)
  end.

Lemma check_validation_run {B : Type} (rt : PyRuntime) (v : JSON)
    (k : unit -> M B) (w : World) :
  bind (check_validation rt v) k w
  = if isinstance_dict v && is_False (obj_get v "ok")
    then (Raise (RuntimeError ("Static validation failed: " ++ py_repr rt v)), w)
    else k tt w.
Proof.
  unfold check_validation.
  destruct (isinstance_dict v && is_False (obj_get v "ok")); reflexivity.
Qed.

Lemma is_dict_inv (v : JSON) : isinstance_dict v = true -> exists d, v = JObj d.
Proof. destruct v; try discriminate. eauto. Qed.

Lemma is_True_inv (v : JSON) : is_True v = true -> v = JBool true.
Proof. destruct v as [| [|] | | | |]; try discriminate. reflexivity. Qed.

Lemma is_False_inv (v : JSON) : is_False v = true -> v = JBool false.
Proof. destruct v as [| [|] | | | |]; try discriminate. reflexivity. Qed.

Lemma py_eq_str_inv (v : JSON) (s : string) : py_eq_str v s = true -> v = JStr s.
Proof.
  destruct v; try discriminate. simpl. intros H.
  apply String.eqb_eq in H. congruence.
Qed.

Lemma py_eq_str_refl (s : string) : py_eq_str (JStr s) s = true.
Proof. simpl. apply String.eqb_refl. Qed.

(** What a completed run of the S3 adapter tells about its six answers. *)
Lemma s3_adapter_completes (rt : PyRuntime) (env : Env) (profile_id bucket : string)
    (w w' : World) :
  exercise_bucket_policy rt env profile_id bucket w = (Ret tt, w') ->
  exists after_put after_del,
    json_answer rt env (sent w + 3) "GET" (policy_path bucket) (Some profile_id) None
    = Ret (JObj after_put)
    /\ dict_get after_put "exists" = JBool true
    /\ json_answer rt env (sent w + 5) "GET" (policy_path bucket) (Some profile_id) None
       = Ret (JObj after_del)
    /\ dict_get after_del "exists" = JBool false.
Proof.
  intros H. unfold exercise_bucket_policy in H. cbv zeta in H.
  run_head H. run_head H; [|discriminate H].
  run_head H; [discriminate H|]. run_head H; [discriminate H|].
  run_head H; [discriminate H|].
  run_head H. run_head H; [|discriminate H].
  rewrite check_validation_run in H.
  destruct (isinstance_dict a0 && is_False (obj_get a0 "ok")); [discriminate H|].
  run_head H. run_head H; [|discriminate H].
  run_head H. run_head H; [|discriminate H].
  run_head H; [discriminate H|].
  run_head H. run_head H; [|discriminate H].
  run_head H. run_head H; [|discriminate H].
  run_head H; [discriminate H|].
  apply orb_false_iff in Hc2. destruct Hc2 as [D1 E1].
  apply orb_false_iff in Hc3. destruct Hc3 as [D2 E2].
  apply negb_false_iff in D1, E1, D2, E2.
  apply is_dict_inv in D1, D2. destruct D1 as [d1 ->]. destruct D2 as [d2 ->].
  apply is_True_inv in E1. apply is_False_inv in E2. cbn in E1, E2.
  exists d1, d2.
  sent_facts.
  replace (sent w6) with (sent w + 3)%nat in Ha2 by lia.
  replace (sent w10) with (sent w + 5)%nat in Ha4 by lia.
  auto.
Qed.

(** C5.  The S3 adapter completes without error only if the GET after the PUT
    reports [exists] as [true] and the GET after the DELETE reports it as
    [false]; with any other value there (a missing field, a value that is not
    a boolean, the other boolean) the adapter raises. *)
Theorem s3_adapter_exists_checks (rt : PyRuntime) (env : Env)
    (profile_id bucket : string) (w : World) :
  let get := fun n : nat =>
    json_answer rt env (sent w + n) "GET" (policy_path bucket) (Some profile_id) None in
  let run := exercise_bucket_policy rt env profile_id bucket w in
  (fst run = Ret tt ->
     exists after_put after_del,
       get 3%nat = Ret (JObj after_put) /\ dict_get after_put "exists" = JBool true
       /\ get 5%nat = Ret (JObj after_del) /\ dict_get after_del "exists" = JBool false)
  /\ (forall v, get 3%nat = Ret v -> obj_get v "exists" <> JBool true ->
         exists e, fst run = Raise e)
  /\ (forall v, get 5%nat = Ret v -> obj_get v "exists" <> JBool false ->
         exists e, fst run = Raise e).
Proof.
  intros get run.
  assert (Hok : fst run = Ret tt ->
            exists after_put after_del,
              get 3%nat = Ret (JObj after_put) /\ dict_get after_put "exists" = JBool true
              /\ get 5%nat = Ret (JObj after_del)
              /\ dict_get after_del "exists" = JBool false).
  { intros H. apply (s3_adapter_completes rt env profile_id bucket w (snd run)).
    rewrite <- H. apply surjective_pairing. }
  split; [exact Hok|]. split.
  - intros v Hv Hne. destruct (fst run) as [[]|e] eqn:Hr; [|eauto].
    exfalso. destruct (Hok eq_refl) as (ap & ad & H3 & E3 & _).
    rewrite Hv in H3. inversion H3; subst v. apply Hne. exact E3.
  - intros v Hv Hne. destruct (fst run) as [[]|e] eqn:Hr; [|eauto].
    exfalso. destruct (Hok eq_refl) as (ap & ad & _ & _ & H5 & E5).
    rewrite Hv in H5. inversion H5; subst v. apply Hne. exact E5.
Qed.

Lemma s3_adapter_exists_checks_witness :
  let get := fun n : nat =>
    json_answer s3_rt s3_env n "GET" (policy_path "b") (Some "p1") None in
  fst (exercise_bucket_policy s3_rt s3_env "p1" "b" start) = Ret tt
  /\ exists after_put after_del,
       get 3%nat = Ret (JObj after_put) /\ dict_get after_put "exists" = JBool true
       /\ get 5%nat = Ret (JObj after_del) /\ dict_get after_del "exists" = JBool false.
Proof.
  intros get.
  assert (H : fst (exercise_bucket_policy s3_rt s3_env "p1" "b" start) = Ret tt)
    by (vm_compute; reflexivity).
  split; [exact H|].
  exact (proj1 (s3_adapter_exists_checks s3_rt s3_env "p1" "b" start) H).
Defined.

(** ** The Azure adapter *)

Lemma run_when_check {B : Type} (c d : bool) (e : exn) (k : unit -> M B) (w : World) :
  bind (when c (check d e)) k w = if c && d then (Raise e, w) else k tt w.
Proof. destruct c, d; reflexivity. Qed.

Lemma stored_check (v : JSON) :
  negb (in_empty_or_none v) && nonempty_list v = nonempty_list v.
Proof. destruct v as [| | | | [|x xs] |]; reflexivity. Qed.

Lemma nonempty_list_false (v : JSON) :
  nonempty_list v = false <-> (forall x xs, v <> JArr (x :: xs)).
Proof.
  split.
  - intros H x xs ->. discriminate H.
  - intros H. destruct v as [| | | | [|x xs] |]; try reflexivity.
    exfalso. exact (H x xs eq_refl).
Qed.

(** What a completed run of the Azure adapter tells about the GET after the
    reset. *)
Lemma azure_adapter_completes (rt : PyRuntime) (env : Env)
    (profile_id bucket : string) (w w' : World) :
  exercise_azure_container_policy rt env profile_id bucket w = (Ret tt, w') ->
  exists after_reset pol,
    json_answer rt env (sent w + 5) "GET" (policy_path bucket) (Some profile_id) None
    = Ret (JObj after_reset)
    /\ dict_get after_reset "policy" = JObj pol
    /\ dict_get pol "publicAccess" = JStr "private"
    /\ nonempty_list (dict_get pol "storedAccessPolicies") = false.
Proof.
  intros H. unfold exercise_azure_container_policy in H. cbv zeta in H.
  run_head H. run_head H; [|discriminate H].
  run_head H; [discriminate H|].
  run_head H. run_head H; [|discriminate H].
  rewrite check_validation_run in H.
  destruct (isinstance_dict a0 && is_False (obj_get a0 "ok")); [discriminate H|].
  run_head H. run_head H; [|discriminate H].
  run_head H. run_head H; [|discriminate H].
  run_head H; [discriminate H|]. run_head H; [discriminate H|].
  run_head H; [discriminate H|]. run_head H; [discriminate H|].
  run_head H. run_head H; [|discriminate H].
  run_head H. run_head H; [|discriminate H].
  run_head H; [discriminate H|]. run_head H; [discriminate H|].
  rewrite run_when_check, stored_check in H.
  match type of H with
  | (if ?c then _ else _) = _ => destruct c eqn:Hstored; [discriminate H|]
  end.
  match goal with
  | Hd : negb (isinstance_dict (if isinstance_dict ?v then _ else _)) = false |- _ =>
      destruct v as [| | | | |after_reset]; try discriminate Hd;
      cbn [isinstance_dict obj_get] in *
  end.
  match goal with
  | Hd : negb (isinstance_dict (dict_get after_reset "policy")) = false |- _ =>
      apply negb_false_iff, is_dict_inv in Hd; destruct Hd as [pol Hpol]
  end.
  rewrite Hpol in *. cbn [obj_get] in *.
  match goal with
  | Hp : negb (py_eq_str (dict_get pol "publicAccess") "private") = false |- _ =>
      apply negb_false_iff, py_eq_str_inv in Hp
  end.
  exists after_reset, pol. sent_facts.
  match goal with
  | Ha : json_answer rt env (sent ?wx) "GET" _ _ _ = Ret (JObj after_reset) |- _ =>
      replace (sent wx) with (sent w + 5)%nat in Ha by lia
  end.
  auto.
Qed.

(** C6, as the code has it.  The Azure adapter completes without error only
    if the GET after the reset carries a policy object whose [publicAccess]
    is "private" and whose [storedAccessPolicies] is not a non-empty list;
    when the policy is not an object, [publicAccess] is something else, or
    [storedAccessPolicies] is a non-empty list, the adapter raises. *)
Theorem azure_adapter_reset_checks (rt : PyRuntime) (env : Env)
    (profile_id bucket : string) (w : World) :
  let after_reset :=
    json_answer rt env (sent w + 5) "GET" (policy_path bucket) (Some profile_id) None in
  let run := exercise_azure_container_policy rt env profile_id bucket w in
  (fst run = Ret tt ->
     exists envelope pol,
       after_reset = Ret (JObj envelope)
       /\ dict_get envelope "policy" = JObj pol
       /\ dict_get pol "publicAccess" = JStr "private"
       /\ (forall x xs, dict_get pol "storedAccessPolicies" <> JArr (x :: xs)))
  /\ (forall v,
        after_reset = Ret v ->
        isinstance_dict (obj_get v "policy") = false
        \/ obj_get (obj_get v "policy") "publicAccess" <> JStr "private"
        \/ (exists x xs,
              obj_get (obj_get v "policy") "storedAccessPolicies" = JArr (x :: xs)) ->
        exists e, fst run = Raise e).
Proof.
  intros after_reset run.
  assert (Hok : fst run = Ret tt ->
            exists envelope pol,
              after_reset = Ret (JObj envelope)
              /\ dict_get envelope "policy" = JObj pol
              /\ dict_get pol "publicAccess" = JStr "private"
              /\ (forall x xs, dict_get pol "storedAccessPolicies" <> JArr (x :: xs))).
  { intros H.
    destruct (azure_adapter_completes rt env profile_id bucket w (snd run))
      as (envelope & pol & H5 & Hp & Ha & Hs).
    - rewrite <- H. apply surjective_pairing.
    - exists envelope, pol. repeat split; try assumption.
      apply nonempty_list_false. exact Hs. }
  split; [exact Hok|].
  intros v Hv Hbad. destruct (fst run) as [[]|e] eqn:Hr; [|eauto].
  exfalso. destruct (Hok eq_refl) as (envelope & pol & H5 & Hp & Ha & Hs).
  unfold after_reset in *. rewrite Hv in H5. inversion H5; subst v.
  cbn [obj_get] in Hbad. rewrite Hp in Hbad. cbn [obj_get isinstance_dict] in Hbad.
  destruct Hbad as [Hd|[Hd|(x & xs & Hd)]].
  - discriminate Hd.
  - exact (Hd Ha).
  - exact (Hs x xs Hd).
Qed.

Lemma azure_adapter_reset_checks_witness :
  let rt := azure_rt azure_private_empty in
  fst (exercise_azure_container_policy rt azure_env "p1" "b" start) = Ret tt
  /\ exists envelope pol,
       json_answer rt azure_env 5 "GET" (policy_path "b") (Some "p1") None
       = Ret (JObj envelope)
       /\ dict_get envelope "policy" = JObj pol
       /\ dict_get pol "publicAccess" = JStr "private"
       /\ (forall x xs, dict_get pol "storedAccessPolicies" <> JArr (x :: xs)).
Proof.
  intros rt.
  assert (H : fst (exercise_azure_container_policy rt azure_env "p1" "b" start) = Ret tt)
    by (vm_compute; reflexivity).
  split; [exact H|].
  exact (proj1 (azure_adapter_reset_checks rt azure_env "p1" "b" start) H).
Defined.

(** C6 as the specification words it fails: the adapter completes although
    the policy after the reset has no stored-access-policy list at all, and
    also when the field holds something that is not a list. *)
Lemma azure_reset_counterexample :
  (fst (exercise_azure_container_policy (azure_rt azure_private_only) azure_env
          "p1" "b" start) = Ret tt
   /\ json_answer (azure_rt azure_private_only) azure_env 5 "GET" (policy_path "b")
                  (Some "p1") None
      = Ret (JObj [("bucket", JStr "b"); ("exists", JBool false);
                   ("policy", azure_private_only)])
   /\ obj_get azure_private_only "storedAccessPolicies" <> JArr [])
  /\ (fst (exercise_azure_container_policy (azure_rt azure_private_odd) azure_env
             "p1" "b" start) = Ret tt
      /\ json_answer (azure_rt azure_private_odd) azure_env 5 "GET" (policy_path "b")
                     (Some "p1") None
         = Ret (JObj [("bucket", JStr "b"); ("exists", JBool false);
                      ("policy", azure_private_odd)])
      /\ obj_get azure_private_odd "storedAccessPolicies" <> JArr []).
Proof.
  split; (split; [vm_compute; reflexivity|]);
    (split; [vm_compute; reflexivity | discriminate]).
Qed.

(** ** The GCS adapter *)

Lemma gcs_skip_sent (rt : PyRuntime) (required : bool) (where_ : string) (e : exn)
    (w w' : World) (r : outcome unit) :
  gcs_skip rt required where_ e w = (r, w') -> sent w' = sent w.
Proof.
  unfold gcs_skip. destruct required.
  - intros H. inversion H. reflexivity.
  - destruct e; intros H; inversion H; reflexivity.
Qed.

Lemma run_restore {B : Type} (rt : PyRuntime) (env : Env) (meth pth : string)
    (profile_id : option string) (json_body : option JSON) (h : exn -> M unit)
    (k : unit -> M B) (w : World) :
  exists w1,
    after_request w w1 (meth, (BASE_URL env ++ pth)%string)
    /\ bind (try_except
               (bind (request_json rt env meth pth profile_id json_body)
                     (fun _ => ret tt)) h) k w
       = match json_answer rt env (sent w) meth pth profile_id json_body with
         | Ret _ => k tt w1
         | Raise e => bind (h e) k w1
         end.
Proof.
  destruct (request_json_run rt env meth pth profile_id json_body w) as [w1 [Hr Ha]].
  exists w1. split; [exact Ha|]. unfold bind, try_except. rewrite Hr.
  destruct (json_answer rt env (sent w) meth pth profile_id json_body); reflexivity.
Qed.

Lemma run_attempt_validate {B : Type} (rt : PyRuntime) (env : Env)
    (meth pth : string) (profile_id : option string) (json_body : option JSON)
    (k : outcome unit -> M B) (w : World) :
  exists w1,
    after_request w w1 (meth, (BASE_URL env ++ pth)%string)
    /\ bind (attempt (bind (request_json rt env meth pth profile_id json_body)
                           (fun v => check_validation rt v))) k w
       = match json_answer rt env (sent w) meth pth profile_id json_body with
         | Ret v =>
             if isinstance_dict v && is_False (obj_get v "ok")
             then k (Raise (RuntimeError
                              ("Static validation failed: " ++ py_repr rt v))) w1
             else k (Ret tt) w1
         | Raise e => k (Raise e) w1
         end.
Proof.
  destruct (request_json_run rt env meth pth profile_id json_body w) as [w1 [Hr Ha]].
  exists w1. split; [exact Ha|]. unfold bind, attempt. rewrite Hr.
  destruct (json_answer rt env (sent w) meth pth profile_id json_body) as [v|e];
    [|reflexivity].
  unfold check_validation, check.
  destruct (isinstance_dict v && is_False (obj_get v "ok")); reflexivity.
Qed.

Lemma gcs_expect_delete_rejected_run (rt : PyRuntime) (env : Env)
    (profile_id bucket : string) (w : World) :
  exists w1,
    after_request w w1 ("DELETE", (BASE_URL env ++ policy_path bucket)%string)
    /\ gcs_expect_delete_rejected rt env profile_id bucket w
       = (delete_verdict rt (json_answer rt env (sent w) "DELETE" (policy_path bucket)
                                         (Some profile_id) None), w1).
Proof.
  unfold gcs_expect_delete_rejected.
  destruct (run_attempt_request_json rt env "DELETE" (policy_path bucket)
              (Some profile_id) None
              (fun r : outcome JSON =>
                 match r with
                 | Ret _ => raise (RuntimeError "Expected GCS IAM delete to fail")
                 | Raise (HTTPFailureExc f) =>
                     check (negb (py_eq_str (error_code f) delete_unsupported))
                       (RuntimeError
                          ("Expected bucket_policy_delete_unsupported, got "
                           ++ py_str rt (error_code f)
                           ++ " (status=" ++ string_of_Z (status f) ++ ")"))
                 | Raise e => raise e
                 end) w) as (w1 & Ha & He).
  exists w1. split; [exact Ha|]. rewrite He.
  destruct (json_answer rt env (sent w) "DELETE" (policy_path bucket)
              (Some profile_id) None) as [v|[f|msg|cls msg]]; cbn; try reflexivity.
  destruct (py_eq_str (error_code f) delete_unsupported); reflexivity.
Qed.

(** A run of the GCS adapter that gets as far as its sixth request, the
    DELETE, ends as that request is judged. *)
Lemma gcs_adapter_reaches_delete (rt : PyRuntime) (env : Env)
    (profile_id bucket : string) (w w' : World) (r : outcome unit) :
  exercise_gcs_iam_policy rt env profile_id bucket w = (r, w') ->
  sent w' = (sent w + 6)%nat ->
  r = delete_verdict rt (json_answer rt env (sent w + 5) "DELETE" (policy_path bucket)
                                     (Some profile_id) None).
Proof.
  intros H Hs. unfold exercise_gcs_iam_policy in H. cbv zeta in H.
  run_head H. run_head H.
  2: { apply gcs_skip_sent in H. sent_facts. lia. }
  run_head H.
  { inversion H; subst. sent_facts. lia. }
  run_head H.
  match type of H with
  | bind (attempt (bind (request_json ?rt ?env ?m ?p ?pid ?jb) _)) ?k ?w0 = _ =>
      destruct (run_attempt_validate rt env m p pid jb k w0) as (w3 & Hr3 & He3);
      rewrite He3 in H; clear He3;
      destruct (json_answer rt env (sent w0) m p pid jb) as [v|e] eqn:Hv
  end.
  2: { apply gcs_skip_sent in H. sent_facts. lia. }
  destruct (isinstance_dict v && is_False (obj_get v "ok")).
  { apply gcs_skip_sent in H. sent_facts. lia. }
  run_head H. run_head H.
  2: { apply gcs_skip_sent in H. sent_facts. lia. }
  run_head H. run_head H.
  2: { apply gcs_skip_sent in H. sent_facts. lia. }
  run_head H.
  { inversion H; subst. sent_facts. lia. }
  run_head H.
  match type of H with
  | bind (try_except (bind (request_json ?rt ?env ?m ?p ?pid ?jb) _) ?h) ?k ?w0 = _ =>
      destruct (run_restore rt env m p pid jb h k w0) as (w9 & Hr9 & He9);
      rewrite He9 in H; clear He9;
      destruct (json_answer rt env (sent w0) m p pid jb) as [v9|e9] eqn:Hv9
  end.
  - run_head H.
    unfold bind in H.
    match type of H with
    | context [gcs_expect_delete_rejected rt env profile_id bucket ?w0] =>
        destruct (gcs_expect_delete_rejected_run rt env profile_id bucket w0)
          as (wd & Hd & Hrun);
        rewrite Hrun in H;
        replace (sent w0) with (sent w + 5)%nat in H by (sent_facts; lia)
    end.
    destruct (delete_verdict rt _) as [[]|e]; inversion H; reflexivity.
  - destruct (strict_toggle (E2E_GCS_IAM env)).
    + inversion H; subst. sent_facts. lia.
    + run_head H. run_head H.
      unfold bind in H.
      match type of H with
      | context [gcs_expect_delete_rejected rt env profile_id bucket ?w0] =>
          destruct (gcs_expect_delete_rejected_run rt env profile_id bucket w0)
            as (wd & Hd & Hrun);
          rewrite Hrun in H;
          replace (sent w0) with (sent w + 5)%nat in H by (sent_facts; lia)
      end.
      destruct (delete_verdict rt _) as [[]|e]; inversion H; reflexivity.
Qed.

(** C4.  Once the GCS adapter has got as far as the DELETE (its sixth
    request), it completes if and only if the DELETE raised an [HTTPFailure]
    whose provider error code is exactly [bucket_policy_delete_unsupported].
    Every other outcome of the DELETE is a hard failure, whatever the strict
    toggle [E2E_GCS_IAM] says: a response that succeeded, an [HTTPFailure]
    with another code, and any failure that is not an [HTTPFailure], which is
    raised as it is. *)
Theorem gcs_delete_must_be_rejected (rt : PyRuntime) (env : Env)
    (profile_id bucket : string) (w : World) :
  let run := exercise_gcs_iam_policy rt env profile_id bucket w in
  let del :=
    json_answer rt env (sent w + 5) "DELETE" (policy_path bucket) (Some profile_id) None in
  sent (snd run) = (sent w + 6)%nat ->
  (fst run = Ret tt <->
     exists f, del = Raise (HTTPFailureExc f)
               /\ error_code f = JStr "bucket_policy_delete_unsupported")
  /\ (forall v, del = Ret v ->
        fst run = Raise (RuntimeError "Expected GCS IAM delete to fail"))
  /\ (forall f, del = Raise (HTTPFailureExc f) ->
        error_code f <> JStr "bucket_policy_delete_unsupported" ->
        fst run
        = Raise (RuntimeError
                   ("Expected bucket_policy_delete_unsupported, got "
                    ++ py_str rt (error_code f)
                    ++ " (status=" ++ string_of_Z (status f) ++ ")")))
  /\ (forall e, del = Raise e -> (forall f, e <> HTTPFailureExc f) ->
        fst run = Raise e).
Proof.
  intros run del Hs.
  assert (Hr : fst run = delete_verdict rt del).
  { apply (gcs_adapter_reaches_delete rt env profile_id bucket w (snd run));
      [apply surjective_pairing | exact Hs]. }
  rewrite Hr. clear Hr Hs. unfold delete_verdict, delete_unsupported.
  split; [|split; [|split]].
  - split.
    + destruct del as [v|[f|msg|cls msg]]; try discriminate.
      destruct (py_eq_str (error_code f) "bucket_policy_delete_unsupported") eqn:Hc;
        [|discriminate].
      intros _. exists f. split; [reflexivity|]. apply py_eq_str_inv. exact Hc.
    + intros (f & -> & Hc). rewrite Hc, py_eq_str_refl. reflexivity.
  - intros v ->. reflexivity.
  - intros f -> Hne.
    destruct (py_eq_str (error_code f) "bucket_policy_delete_unsupported") eqn:Hc;
      [|reflexivity].
    exfalso. apply Hne. apply py_eq_str_inv. exact Hc.
  - intros e -> Hne. destruct e as [f|msg|cls msg]; try reflexivity.
    exfalso. exact (Hne f eq_refl).
Qed.

Lemma gcs_delete_must_be_rejected_witness :
  (fst (exercise_gcs_iam_policy gcs_rt (gcs_env None "unsupported") "p1" "b" start)
   = Ret tt)
  /\ (fst (exercise_gcs_iam_policy gcs_rt (gcs_env (Some "TRUE") "forbidden") "p1" "b"
             start)
      = Raise (RuntimeError
                 "Expected bucket_policy_delete_unsupported, got forbidden (status=400)")).
Proof.
  split.
  - apply (proj1 (gcs_delete_must_be_rejected gcs_rt (gcs_env None "unsupported")
                    "p1" "b" start ltac:(vm_compute; reflexivity))).
    eexists. split; vm_compute; reflexivity.
  - apply (proj1 (proj2 (proj2 (gcs_delete_must_be_rejected gcs_rt
                                  (gcs_env (Some "TRUE") "forbidden") "p1" "b" start
                                  ltac:(vm_compute; reflexivity))))
             (mkHTTPFailure 400 "DELETE" "/buckets/b/policy" [] (Some "forbidden")
                (JStr "forbidden") JNull JNull None None)).
    + vm_compute. reflexivity.
    + discriminate.
Defined.

(** ** Multipart *)

Lemma byte_eqb_refl (b : byte) : Byte.eqb b b = true.
Proof. apply Byte.byte_dec_lb. reflexivity. Qed.

Lemma prefixb_app (p s : list byte) : prefixb p (p ++ s) = true.
Proof.
  induction p as [|a p IH]; [reflexivity|].
  simpl. rewrite byte_eqb_refl. exact IH.
Qed.

Lemma skipn_length_app (p s : list byte) : skipn (List.length p) (p ++ s) = s.
Proof. induction p as [|a p IH]; [reflexivity | exact IH]. Qed.

Lemma find_here (pat s : list byte) :
  prefixb pat s = true -> find pat s = Some ([], skipn (List.length pat) s).
Proof. intros H. destruct s; simpl; rewrite H; reflexivity. Qed.

Lemma find_step (pat : list byte) (c : byte) (s : list byte) :
  prefixb pat (c :: s) = false -> find pat (c :: s) = shift [c] (find pat s).
Proof.
  intros H. cbn [find]. rewrite H. unfold shift.
  destruct (find pat s) as [[a b]|]; reflexivity.
Qed.

Lemma shift_shift (a b : list byte) (r : option (list byte * list byte)) :
  shift a (shift b r) = shift (a ++ b) r.
Proof. destruct r as [[x y]|]; simpl; [rewrite app_assoc|]; reflexivity. Qed.

(** A pattern that starts with CR is not found in a stretch without CR. *)
Lemma find_skip_nocr (p s1 s : list byte) :
  no_byte x0d s1 = true ->
  find (x0d :: p) (s1 ++ s) = shift s1 (find (x0d :: p) s).
Proof.
  induction s1 as [|c s1 IH]; intros H.
  - cbn [app]. destruct (find (x0d :: p) s) as [[a b]|]; reflexivity.
  - simpl in H. apply andb_true_iff in H. destruct H as [Hc Hs].
    rewrite <- app_comm_cons, find_step.
    + rewrite IH by exact Hs. rewrite shift_shift. reflexivity.
    + cbn [prefixb]. apply negb_true_iff in Hc.
      destruct (Byte.eqb x0d c) eqn:E; [|reflexivity].
      apply Byte.byte_dec_bl in E. subst c. discriminate Hc.
Qed.

(** A pattern without CR cannot reach across a CR. *)
Lemma prefixb_nocr_cut (p : list byte) :
  no_byte x0d p = true ->
  forall y t, prefixb p (y ++ x0d :: t) = true -> prefixb p y = true.
Proof.
  induction p as [|a p IH]; intros Hp y t H; [reflexivity|].
  simpl in Hp. apply andb_true_iff in Hp. destruct Hp as [Ha Hp].
  destruct y as [|b y].
  - simpl in H. apply andb_true_iff in H. destruct H as [E _].
    apply Byte.byte_dec_bl in E. subst a. discriminate Ha.
  - simpl in H |- *. apply andb_true_iff in H. destruct H as [E H].
    rewrite E. exact (IH Hp y t H).
Qed.

Lemma occurs_cons (pat : list byte) (c : byte) (s : list byte) :
  occurs pat (c :: s) = false ->
  prefixb pat (c :: s) = false /\ occurs pat s = false.
Proof.
  unfold occurs. cbn [find].
  destruct (prefixb pat (c :: s)); [discriminate|].
  destruct (find pat s) as [[a b]|]; [discriminate|]. auto.
Qed.

(** The first occurrence of a delimiter that starts with CR and has no other
    CR, after a stretch in which it does not occur. *)
Lemma find_clean (p s tail : list byte) :
  no_byte x0d p = true ->
  occurs (x0d :: p) s = false ->
  find (x0d :: p) (s ++ (x0d :: p) ++ tail) = Some (s, tail).
Proof.
  intros Hp. induction s as [|c s IH]; intros Hocc.
  - rewrite app_nil_l, find_here by apply prefixb_app.
    rewrite skipn_length_app. reflexivity.
  - apply occurs_cons in Hocc. destruct Hocc as [Hpre Hocc].
    rewrite <- app_comm_cons, find_step.
    + rewrite IH by exact Hocc. reflexivity.
    + destruct (prefixb (x0d :: p) (c :: s ++ (x0d :: p) ++ tail)) eqn:E;
        [|reflexivity].
      exfalso. cbn [prefixb] in E, Hpre.
      apply andb_true_iff in E. destruct E as [E1 E2].
      rewrite E1 in Hpre. cbn [andb] in Hpre.
      rewrite <- app_comm_cons in E2.
      rewrite (prefixb_nocr_cut p Hp s (p ++ tail) E2) in Hpre. discriminate Hpre.
Qed.

Lemma hex_digit_not_cr (c : byte) :
  is_hex_digit c = true -> negb (Byte.eqb c x0d) = true.
Proof. destruct c; vm_compute; intros H; congruence. Qed.

Lemma forallb_impl {T : Type} (f g : T -> bool) (l : list T) :
  (forall x, f x = true -> g x = true) -> forallb f l = true -> forallb g l = true.
Proof.
  intros Hfg. induction l as [|x l IH]; [reflexivity|].
  simpl. intros H. apply andb_true_iff in H. destruct H as [Hx Hl].
  rewrite (Hfg x Hx), (IH Hl). reflexivity.
Qed.

Lemma uuid4_hex_no_cr (b : list byte) : is_uuid4_hex b = true -> no_byte x0d b = true.
Proof.
  unfold is_uuid4_hex. intros H.
  apply andb_true_iff in H. destruct H as [H _].
  apply andb_true_iff in H. destruct H as [H _].
  apply andb_true_iff in H. destruct H as [_ H].
  exact (forallb_impl _ _ _ hex_digit_not_cr H).
Qed.

Lemma no_byte_app (x : byte) (a b : list byte) :
  no_byte x (a ++ b) = no_byte x a && no_byte x b.
Proof. unfold no_byte. apply forallb_app. Qed.

Lemma multipart_form_one (boundary filename content : list byte) :
  multipart_form boundary [(filename, content)]
  = ((bytes_of "--" ++ boundary) ++ CRLF ++ part_header filename ++ (CRLF ++ CRLF)
       ++ content ++ (CRLF ++ bytes_of "--" ++ boundary) ++ bytes_of "--" ++ CRLF,
     bytes_of "multipart/form-data; boundary=" ++ boundary).
Proof.
  unfold multipart_form, part_header, disposition_prefix, content_type_line.
  cbn [flat_map]. rewrite app_nil_r. f_equal.
  repeat rewrite <- app_assoc. reflexivity.
Qed.

Section MultipartFacts.
Variables boundary filename content : list byte.
Hypothesis boundary_no_cr : no_byte x0d boundary = true.
Hypothesis filename_no_cr : no_byte x0d filename = true.

Let dash_boundary : list byte := bytes_of "--" ++ boundary.

Lemma lead_no_cr : no_byte x0d (disposition_prefix ++ filename ++ [DQUOTE]) = true.
Proof.
  rewrite !no_byte_app, filename_no_cr. reflexivity.
Qed.

(** The header block ends at the first empty line. *)
Lemma find_empty_line (rest : list byte) :
  find (CRLF ++ CRLF) (part_header filename ++ (CRLF ++ CRLF) ++ rest)
  = Some (part_header filename, rest).
Proof.
  unfold part_header.
  replace ((disposition_prefix ++ filename ++ [DQUOTE] ++ CRLF ++ content_type_line)
           ++ (CRLF ++ CRLF) ++ rest)
    with ((disposition_prefix ++ filename ++ [DQUOTE])
          ++ x0d :: ((x0a :: content_type_line) ++ (CRLF ++ CRLF) ++ rest))
    by (cbn [CRLF app]; repeat rewrite <- app_assoc; reflexivity).
  change (CRLF ++ CRLF) with (x0d :: [x0a; x0d; x0a]) at 1.
  rewrite find_skip_nocr by exact lead_no_cr.
  rewrite find_step by reflexivity.
  rewrite find_skip_nocr by reflexivity.
  change (x0d :: [x0a; x0d; x0a]) with (CRLF ++ CRLF).
  rewrite find_here by apply prefixb_app.
  rewrite skipn_length_app. cbn [shift app].
  f_equal. f_equal. cbn [CRLF app]. repeat rewrite <- app_assoc. reflexivity.
Qed.

Lemma delimiter_no_cr : no_byte x0d (x0a :: x2d :: x2d :: boundary) = true.
Proof. cbn. exact boundary_no_cr. Qed.

(** The part ends at the delimiter that [multipart_form] wrote after it. *)
Lemma find_delimiter (tail : list byte) :
  occurs (CRLF ++ dash_boundary) (CRLF ++ content) = false ->
  find (CRLF ++ dash_boundary)
       (part_header filename ++ (CRLF ++ CRLF) ++ content
        ++ (CRLF ++ dash_boundary) ++ tail)
  = Some (part_header filename ++ (CRLF ++ CRLF) ++ content, tail).
Proof.
  intros Hocc. unfold part_header.
  replace ((disposition_prefix ++ filename ++ [DQUOTE] ++ CRLF ++ content_type_line)
           ++ (CRLF ++ CRLF) ++ content ++ (CRLF ++ dash_boundary) ++ tail)
    with ((disposition_prefix ++ filename ++ [DQUOTE])
          ++ x0d :: ((x0a :: content_type_line)
                     ++ x0d :: ([x0a] ++ ((CRLF ++ content)
                                          ++ (CRLF ++ dash_boundary) ++ tail))))
    by (cbn [CRLF app]; repeat rewrite <- app_assoc; reflexivity).
  change (CRLF ++ dash_boundary) with (x0d :: x0a :: x2d :: x2d :: boundary) in *.
  rewrite find_skip_nocr by exact lead_no_cr.
  rewrite find_step by reflexivity.
  rewrite find_skip_nocr by reflexivity.
  rewrite find_step by reflexivity.
  rewrite find_skip_nocr by reflexivity.
  rewrite find_clean by (exact delimiter_no_cr || exact Hocc).
  cbn [shift app].
  f_equal. f_equal. cbn [CRLF app]. repeat rewrite <- app_assoc. reflexivity.
Qed.

(** The part splits into the header block and the content. *)
Lemma split_part_one :
  split_part (part_header filename ++ (CRLF ++ CRLF) ++ content)
  = mkPart (part_header filename) content.
Proof.
  unfold split_part.
  replace (prefixb CRLF (part_header filename ++ (CRLF ++ CRLF) ++ content))
    with false by reflexivity.
  rewrite find_empty_line. reflexivity.
Qed.

(** The name of the form field. *)
Lemma part_name_one :
  part_name (mkPart (part_header filename) content) = Some (bytes_of "files").
Proof. reflexivity. Qed.

End MultipartFacts.

Lemma parse_parts_closed (fuel : nat) (dash_boundary tail : list byte) :
  parse_parts (S fuel) dash_boundary (bytes_of "--" ++ tail) = Some [].
Proof. reflexivity. Qed.

Lemma parse_parts_part (fuel : nat) (dash_boundary rest : list byte) :
  parse_parts (S fuel) dash_boundary (CRLF ++ rest)
  = match find (CRLF ++ dash_boundary) rest with
    | Some (text, rest') =>
        match parse_parts fuel dash_boundary rest' with
        | Some ps => Some (split_part text :: ps)
        | None => None
        end
    | None => None
    end.
Proof. reflexivity. Qed.

Lemma multipart_roundtrip_bytes (boundary filename content : list byte) :
  is_uuid4_hex boundary = true ->
  plain_filename filename = true ->
  occurs (CRLF ++ bytes_of "--" ++ boundary) (CRLF ++ content) = false ->
  multipart_decode (multipart_form boundary [(filename, content)])
  = Some [mkPart (part_header filename) content]
  /\ part_name (mkPart (part_header filename) content) = Some (bytes_of "files").
Proof.
  intros Hb Hf Hocc.
  apply uuid4_hex_no_cr in Hb.
  assert (Hf' : no_byte x0d filename = true).
  { unfold plain_filename in Hf.
    apply andb_true_iff in Hf. destruct Hf as [Hf _].
    apply andb_true_iff in Hf. destruct Hf as [_ Hf]. exact Hf. }
  split; [|apply part_name_one].
  rewrite multipart_form_one. unfold multipart_decode. cbn [fst snd].
  unfold boundary_of_content_type. rewrite prefixb_app, skipn_length_app.
  unfold multipart_parse. rewrite prefixb_app, skipn_length_app.
  rewrite length_app.
  change (List.length (bytes_of "--" ++ boundary)) with (S (S (List.length boundary))).
  cbn [Nat.add].
  rewrite parse_parts_part.
  rewrite (find_delimiter boundary filename content Hb Hf' _ Hocc).
  rewrite parse_parts_closed.
  rewrite (split_part_one filename content Hf'). reflexivity.
Qed.

(** ** Occurrences *)

Lemma prefixb_true (p s : list byte) :
  prefixb p s = true -> exists t, s = p ++ t.
Proof.
  revert s. induction p as [|a p IH]; intros s H.
  - exists s. reflexivity.
  - destruct s as [|b s]; [discriminate H|].
    cbn [prefixb] in H. apply andb_true_iff in H. destruct H as [E H].
    apply Byte.byte_dec_bl in E. subst b.
    destruct (IH s H) as [t ->]. exists t. reflexivity.
Qed.

Lemma occurs_here (pat s : list byte) : prefixb pat s = true -> occurs pat s = true.
Proof. intros H. unfold occurs. rewrite (find_here _ _ H). reflexivity. Qed.

Lemma occurs_later (pat : list byte) (c : byte) (s : list byte) :
  occurs pat s = true -> occurs pat (c :: s) = true.
Proof.
  intros H. destruct (prefixb pat (c :: s)) eqn:E; [apply occurs_here; exact E|].
  unfold occurs in *. rewrite (find_step _ _ _ E).
  destruct (find pat s) as [[a b]|]; [reflexivity | discriminate H].
Qed.

Lemma occurs_inside (pat pre post : list byte) : occurs pat (pre ++ pat ++ post) = true.
Proof.
  induction pre as [|c pre IH].
  - rewrite app_nil_l. apply occurs_here. apply prefixb_app.
  - rewrite <- app_comm_cons. apply occurs_later. exact IH.
Qed.

Lemma occurs_true (pat s : list byte) :
  occurs pat s = true -> exists pre post, s = pre ++ pat ++ post.
Proof.
  induction s as [|c s IH]; intros H.
  - destruct (prefixb pat []) eqn:E.
    + destruct (prefixb_true _ _ E) as [t Ht]. exists [], t. exact Ht.
    + unfold occurs in H. cbn [find] in H. rewrite E in H. discriminate H.
  - destruct (prefixb pat (c :: s)) eqn:E.
    + destruct (prefixb_true _ _ E) as [t Ht]. exists [], t. exact Ht.
    + unfold occurs in H. rewrite (find_step _ _ _ E) in H.
      destruct (find pat s) as [[a b]|] eqn:F; [|discriminate H].
      destruct IH as (pre & post & ->).
      { unfold occurs. rewrite F. reflexivity. }
      exists (c :: pre), post. reflexivity.
Qed.

(** A content that does not hold the boundary holds no delimiter either. *)
Lemma no_boundary_no_delimiter (boundary content : list byte) :
  occurs boundary content = false ->
  occurs (CRLF ++ bytes_of "--" ++ boundary) (CRLF ++ content) = false.
Proof.
  intros H.
  destruct (occurs (CRLF ++ bytes_of "--" ++ boundary) (CRLF ++ content)) eqn:E;
    [|reflexivity].
  exfalso. destruct (occurs_true _ _ E) as (pre & post & Heq).
  assert (Hc : content
               = skipn 2 (pre ++ CRLF ++ bytes_of "--") ++ boundary ++ post).
  { change content with (skipn 2 (CRLF ++ content)). rewrite Heq.
    replace (pre ++ (CRLF ++ bytes_of "--" ++ boundary) ++ post)
      with ((pre ++ CRLF ++ bytes_of "--") ++ boundary ++ post)
      by (repeat rewrite <- app_assoc; reflexivity).
    rewrite skipn_app.
    replace (2 - List.length (pre ++ CRLF ++ bytes_of "--"))%nat with 0%nat
      by (rewrite length_app;
          change (List.length (CRLF ++ bytes_of "--")) with 4%nat; lia).
    reflexivity. }
  rewrite Hc, occurs_inside in H. discriminate H.
Qed.

(** ** The encoding of file names *)

Lemma byte_of_N_small (n : N) : (n < 256)%N -> Byte.to_N (byte_of_N n) = n.
Proof.
  intros H. unfold byte_of_N. destruct (Byte.of_N n) as [b|] eqn:E.
  - apply Byte.to_of_N. exact E.
  - apply Byte.of_N_None_iff in E. lia.
Qed.

Lemma byte_of_N_large (n : N) : (256 <= n)%N -> byte_of_N n = x00.
Proof.
  intros H. unfold byte_of_N. destruct (Byte.of_N n) as [b|] eqn:E; [|reflexivity].
  exfalso. pose proof (Byte.to_N_bounded b) as Hb.
  apply Byte.to_of_N in E. rewrite E in Hb. lia.
Qed.

(** No byte of the encoding is [x] unless the code point is: the bytes of a
    longer encoding are all above 127. *)
Lemma byte_of_N_differs (x : byte) (n : N) :
  x <> x00 -> n <> Byte.to_N x -> negb (Byte.eqb (byte_of_N n) x) = true.
Proof.
  intros H0 Hn. apply negb_true_iff.
  destruct (Byte.eqb (byte_of_N n) x) eqn:E; [|reflexivity].
  exfalso. apply Byte.byte_dec_bl in E.
  destruct (N.lt_ge_cases n 256) as [Hlt|Hge].
  - apply Hn. rewrite <- E. symmetry. apply byte_of_N_small. exact Hlt.
  - apply H0. rewrite <- E. apply byte_of_N_large. exact Hge.
Qed.

Lemma utf8_char_no_byte (x : byte) (c : N) :
  x <> x00 -> (Byte.to_N x < 128)%N -> c <> Byte.to_N x ->
  no_byte x (utf8_char c) = true.
Proof.
  intros H0 Hx Hc. unfold utf8_char, no_byte.
  destruct (N.ltb_spec c 0x80); [|destruct (N.ltb_spec c 0x800);
                                  [|destruct (N.ltb_spec c 0x10000)]];
    cbn [forallb]; rewrite ?andb_true_r;
    repeat (apply andb_true_iff; split);
    apply byte_of_N_differs; try exact H0; try exact Hc;
    repeat match goal with
    | |- context [(?a mod ?b)%N] => generalize (a mod b)%N; intro
    | |- context [(?a / ?b)%N] => generalize (a / b)%N; intro
    end; lia.
Qed.

Lemma utf8_encode_ok (pos : nat) (s : pystr) :
  encodable s = true -> utf8_encode pos s = Ret (flat_map utf8_char s).
Proof.
  revert pos. induction s as [|c s IH]; intros pos H; [reflexivity|].
  cbn [encodable forallb] in H. apply andb_true_iff in H. destruct H as [Hc Hs].
  cbn [utf8_encode flat_map]. apply negb_true_iff in Hc. rewrite Hc.
  rewrite (IH (S pos) Hs). reflexivity.
Qed.

Lemma utf8_no_byte (x : byte) (s : pystr) :
  x <> x00 -> (Byte.to_N x < 128)%N ->
  forallb (fun c => negb (c =? Byte.to_N x)%N) s = true ->
  no_byte x (flat_map utf8_char s) = true.
Proof.
  intros H0 Hx. induction s as [|c s IH]; intros H; [reflexivity|].
  cbn [forallb] in H. apply andb_true_iff in H. destruct H as [Hc Hs].
  cbn [flat_map]. rewrite no_byte_app, (IH Hs), andb_true_r.
  apply utf8_char_no_byte; [exact H0 | exact Hx|].
  apply negb_true_iff in Hc. apply N.eqb_neq. exact Hc.
Qed.

(** A plain [str] is encoded to a plain file name. *)
Lemma plain_str_encoded (s : pystr) :
  plain_str s = true -> plain_filename (flat_map utf8_char s) = true.
Proof.
  intros H. unfold plain_filename.
  assert (Hq : forallb (fun c => negb (c =? Byte.to_N DQUOTE)%N) s = true).
  { apply (forallb_impl _ _ _ (fun c Hc => ltac:(
      apply negb_true_iff in Hc; apply orb_false_iff in Hc; destruct Hc as [Hc _];
      apply orb_false_iff in Hc; destruct Hc as [Hc _];
      apply negb_true_iff; exact Hc)) H). }
  assert (Hr : forallb (fun c => negb (c =? Byte.to_N x0d)%N) s = true).
  { apply (forallb_impl _ _ _ (fun c Hc => ltac:(
      apply negb_true_iff in Hc; apply orb_false_iff in Hc; destruct Hc as [Hc _];
      apply orb_false_iff in Hc; destruct Hc as [_ Hc];
      apply negb_true_iff; exact Hc)) H). }
  assert (Hn : forallb (fun c => negb (c =? Byte.to_N x0a)%N) s = true).
  { apply (forallb_impl _ _ _ (fun c Hc => ltac:(
      apply negb_true_iff in Hc; apply orb_false_iff in Hc; destruct Hc as [_ Hc];
      apply negb_true_iff; exact Hc)) H). }
  rewrite (utf8_no_byte DQUOTE s), (utf8_no_byte x0d s), (utf8_no_byte x0a s);
    try assumption; try discriminate; try reflexivity.
Qed.

(** C7, as the code has it.  For a file name that can be encoded in UTF-8
    (it holds no lone surrogate) and has no double quote, CR or LF, and a
    content in which the boundary that [uuid4] drew does not occur:
    [multipart_form] returns a body, and decoding that body after RFC 2046
    with the boundary of the returned content type yields exactly one part;
    its field name is [files] and its content is the input, byte for
    byte. *)
Theorem multipart_roundtrip (boundary : list byte) (filename : pystr)
    (content : list byte) :
  is_uuid4_hex boundary = true ->
  encodable filename = true ->
  plain_str filename = true ->
  occurs boundary content = false ->
  exists body ct p,
    multipart_form_str boundary [(filename, content)] = Ret (body, ct)
    /\ multipart_decode (body, ct) = Some [p]
    /\ part_name p = Some (bytes_of "files")
    /\ part_content p = content.
Proof.
  intros Hb He Hp Hocc.
  destruct (multipart_roundtrip_bytes boundary (flat_map utf8_char filename) content
              Hb (plain_str_encoded filename Hp)
              (no_boundary_no_delimiter boundary content Hocc)) as [Hdec Hname].
  exists (fst (multipart_form boundary [(flat_map utf8_char filename, content)])),
         (snd (multipart_form boundary [(flat_map utf8_char filename, content)])),
         (mkPart (part_header (flat_map utf8_char filename)) content).
  split; [|split; [|split; [exact Hname | reflexivity]]].
  - unfold multipart_form_str. cbn [encode_names].
    rewrite (utf8_encode_ok _ _ He). reflexivity.
  - rewrite <- Hdec. f_equal.
Qed.

Lemma multipart_roundtrip_witness :
  exists body ct p,
    multipart_form_str (bytes_of "0123456789ab4def8123456789abcdef")
                       [(str_of "hello.txt", bytes_of "hello from minio")]
    = Ret (body, ct)
    /\ multipart_decode (body, ct) = Some [p]
    /\ part_name p = Some (bytes_of "files")
    /\ part_content p = bytes_of "hello from minio".
Proof.
  apply (multipart_roundtrip (bytes_of "0123456789ab4def8123456789abcdef")
           (str_of "hello.txt") (bytes_of "hello from minio"));
    vm_compute; reflexivity.
Defined.

(** C7 as the specification words it fails in two ways.  A file name with a
    lone surrogate, such as ["\udc80.txt"], has no double quote, CR or LF,
    and [multipart_form] raises [UnicodeEncodeError] on it: there is no body
    to parse.  And [multipart_form] does not check the boundary it drew
    against the content: when the content holds a line that starts with
    ["--"] and the boundary, the decoder ends the part there. *)
Lemma multipart_form_counterexample :
  (let boundary := bytes_of "0123456789ab4def8123456789abcdef" in
   let filename := 0xDC80%N :: str_of ".txt" in
   plain_str filename = true
   /\ multipart_form_str boundary [(filename, bytes_of "hello")]
      = Raise (PyError "UnicodeEncodeError"
                 "'utf-8' codec can't encode character '\udc80' in position 56: surrogates not allowed"))
  /\ (let boundary := bytes_of "0123456789ab4def8123456789abcdef" in
      let filename := str_of "hello.txt" in
      let content := bytes_of "a" ++ CRLF ++ bytes_of "--" ++ boundary ++ bytes_of "--"
                     ++ CRLF ++ bytes_of "b" in
      is_uuid4_hex boundary = true
      /\ encodable filename = true
      /\ plain_str filename = true
      /\ ~ (exists body ct p,
              multipart_form_str boundary [(filename, content)] = Ret (body, ct)
              /\ multipart_decode (body, ct) = Some [p]
              /\ part_name p = Some (bytes_of "files")
              /\ part_content p = content)).
Proof.
  split.
  - cbv zeta. split; vm_compute; reflexivity.
  - intros boundary filename content.
    split; [vm_compute; reflexivity|]. split; [vm_compute; reflexivity|].
    split; [vm_compute; reflexivity|].
    intros (body & ct & p & Hrun & Hdec & _ & Hcontent).
    assert (H : multipart_form_str boundary [(filename, content)]
                = Ret (multipart_form boundary [(bytes_of "hello.txt", content)]))
      by (vm_compute; reflexivity).
    assert (Hpair : multipart_form boundary [(bytes_of "hello.txt", content)]
                    = (body, ct)) by congruence.
    clear Hrun H.
    assert (H : multipart_decode
                  (multipart_form boundary [(bytes_of "hello.txt", content)])
                = Some [mkPart (part_header (bytes_of "hello.txt")) (bytes_of "a")])
      by (vm_compute; reflexivity).
    rewrite Hpair, Hdec in H. inversion H; subst p.
    vm_compute in Hcontent. discriminate Hcontent.
Qed.

(** * Further properties *)

(** ** Backoff *)

(** X1.  With the defaults ([factor] 1.3, [max_s] 5.0), [sleep_backoff]
    never asks for more than 5 s up to attempt 2706, whatever the base delay;
    from attempt 2707 on it returns the base delay untouched. *)
Theorem sleep_backoff_cap {m : Machine} (base_s : Q) (attempt : Z) :
  ((attempt <= 2706)%Z ->
     sleep_backoff base_s attempt default_factor default_max_s <= 5 # 1)
  /\ ((2707 <= attempt)%Z ->
        sleep_backoff base_s attempt default_factor default_max_s = base_s).
Proof.
  split; intros H.
  - apply sleep_backoff_le_cap. exact H.
  - apply sleep_backoff_large. exact H.
Qed.

Lemma factor_gains : 1 + POW_TOLERANCE <= (1 - POW_TOLERANCE) * default_factor.
Proof. apply Qle_bool_iff. vm_compute. reflexivity. Qed.

(** [1.3 ** n] grows with [n] as long as it is a double: the tolerance of
    [pow] is far below the factor 1.3 between two powers. *)
Lemma fpow_default_grows {m : Machine} (n : Z) (p q : Q) :
  (0 <= n < 2705)%Z ->
  fpow default_factor n = Some p -> fpow default_factor (n + 1) = Some q -> p <= q.
Proof.
  intros Hn Hp Hq.
  destruct (fpow_default_small n ltac:(lia)) as (p' & Hp' & _ & Hup).
  destruct (fpow_default_small (n + 1) ltac:(lia)) as (q' & Hq' & Hlow & _).
  rewrite Hp in Hp'. inversion Hp'; subst p'.
  rewrite Hq in Hq'. inversion Hq'; subst q'.
  apply Qle_trans with ((1 + POW_TOLERANCE) * default_factor ^ n); [exact Hup|].
  apply Qle_trans with ((1 - POW_TOLERANCE) * default_factor ^ (n + 1)); [|exact Hlow].
  assert (Hne : ~ default_factor == 0) by (intros H; discriminate H).
  rewrite (Qpower_plus default_factor n 1 Hne).
  change (default_factor ^ 1) with default_factor.
  rewrite (Qmult_comm (default_factor ^ n) default_factor), Qmult_assoc.
  apply Qmult_le_compat_r; [exact factor_gains | apply factor_pow_nonneg].
Qed.

(** X2.  For a base delay that is not negative, the delay does not shrink
    from one attempt to the next as long as the attempt number stays below
    2706. *)
Theorem sleep_backoff_monotone {m : Machine} (base_s : Q) (attempt : Z) :
  0 <= base_s ->
  (attempt < 2706)%Z ->
  sleep_backoff base_s attempt default_factor default_max_s
  <= sleep_backoff base_s (attempt + 1) default_factor default_max_s.
Proof.
  intros Hb Ha. unfold sleep_backoff.
  destruct (Z_le_gt_dec attempt 0) as [H0|H0].
  - replace (Z.max 0 (attempt + 1 - 1)) with 0%Z by lia.
    replace (Z.max 0 (attempt - 1)) with 0%Z by lia.
    apply Qle_refl.
  - rewrite !Z.max_r by lia.
    replace (attempt + 1 - 1)%Z with (attempt - 1 + 1)%Z by lia.
    destruct (fpow_default_small (attempt - 1) ltac:(lia)) as (p & Hp & _).
    destruct (fpow_default_small (attempt - 1 + 1) ltac:(lia)) as (q & Hq & _).
    rewrite Hp, Hq. apply py_min_mono. apply fmul_mono; [exact Hb|].
    apply (fpow_default_grows (attempt - 1)); [lia | exact Hp | exact Hq].
Qed.

Lemma sleep_backoff_monotone_witness :
  sleep_backoff (m := exact_machine) (4 # 5) 3 default_factor default_max_s
  <= sleep_backoff (m := exact_machine) (4 # 5) (3 + 1) default_factor default_max_s.
Proof.
  apply (sleep_backoff_monotone (m := exact_machine) (4 # 5) 3); [discriminate | lia].
Defined.

Lemma sleep_backoff_cap_witness :
  sleep_backoff (m := exact_machine) 1 7 default_factor default_max_s <= 5 # 1
  /\ sleep_backoff (m := exact_machine) 1 3000 default_factor default_max_s = 1.
Proof.
  split.
  - apply (proj1 (sleep_backoff_cap (m := exact_machine) 1 7)). lia.
  - apply (proj2 (sleep_backoff_cap (m := exact_machine) 1 3000)). lia.
Defined.

(** ** Retry *)

Lemma sleep_backoff_shape {m : Machine} (base_s : Q) (attempt : Z) :
  sleep_backoff base_s attempt default_factor default_max_s <= 5 # 1
  \/ sleep_backoff base_s attempt default_factor default_max_s = base_s.
Proof.
  unfold sleep_backoff.
  destruct (fpow default_factor (Z.max 0 (attempt - 1))) as [p|];
    [left; apply py_min_le_l | right; reflexivity].
Qed.

Lemma time_sleep_cases {m : Machine} (d : Q) (tr : list Event) :
  (0 <= d /\ time_sleep d tr = (Ret tt, tr ++ [EvSleep d]))
  \/ (exists e, time_sleep d tr = (Raise e, tr)).
Proof.
  unfold time_sleep. destruct (sleep_refusal d) as [e|] eqn:H.
  - right. exists e. reflexivity.
  - left. split; [exact (sleep_accepted_nonneg d H) | reflexivity].
Qed.

(** What [retry] may do with [n] turns of the loop left: at most [n] calls,
    fewer sleeps than turns once the last turn is the last attempt, and only
    sleeps of an accepted, capped length. *)
Lemma retry_loop_budget {St A : Type} {m : Machine} (fn : St -> outcome A * St)
    (what : string) (attempts : Z) (base_delay_s : Q) (n : nat) :
  forall (i : Z) (last_err : option exn) (s : St) (tr : list Event),
    (n = 0%nat \/ Z.of_nat n = attempts - i + 1)%Z ->
    exists new,
      snd (snd (retry_loop fn what attempts base_delay_s n i last_err s tr)) = tr ++ new
      /\ (calls new <= n)%nat
      /\ (List.length (sleeps new) <= n - 1)%nat
      /\ Forall (fun d => 0 <= d /\ (d <= 5 # 1 \/ d = base_delay_s)) (sleeps new).
Proof.
  induction n as [|n IH]; intros i last_err s tr Hn.
  - exists []. cbn. rewrite app_nil_r. repeat split; auto.
  - destruct Hn as [Hn|Hn]; [discriminate Hn|].
    cbn [retry_loop]. destruct (fn s) as [[v|e] s'].
    + exists [EvCall]. cbn. repeat split; auto; lia.
    + destruct (Z.geb_spec i attempts) as [Hge|Hlt].
      * exists [EvCall]. cbn. repeat split; auto; lia.
      * destruct (time_sleep_cases
                    (sleep_backoff base_delay_s i default_factor default_max_s)
                    ((tr ++ [EvCall]) ++ [EvLog (retry_log what i attempts e)]))
          as [[Hd Hs]|[e' Hs]]; rewrite Hs.
        -- destruct (IH (i + 1)%Z (Some e) s'
                        (((tr ++ [EvCall]) ++ [EvLog (retry_log what i attempts e)])
                         ++ [EvSleep (sleep_backoff base_delay_s i default_factor
                                                    default_max_s)]))
             as (new & Htr & Hc & Hl & Hf); [right; lia|].
           exists ([EvCall; EvLog (retry_log what i attempts e);
                    EvSleep (sleep_backoff base_delay_s i default_factor default_max_s)]
                   ++ new).
           rewrite Htr. repeat split.
           ++ rewrite <- !app_assoc. reflexivity.
           ++ rewrite calls_app. unfold calls at 1. cbn. lia.
           ++ rewrite sleeps_app, length_app. cbn. lia.
           ++ rewrite sleeps_app. cbn. constructor; [|exact Hf].
              split; [exact Hd | apply sleep_backoff_shape].
        -- exists [EvCall; EvLog (retry_log what i attempts e)].
           cbn. rewrite <- !app_assoc. repeat split; auto; lia.
Qed.

(** X3.  The budget of [retry], for every operation, label, attempt count
    and base delay: it calls the operation at most [attempts] times, sleeps at
    most [attempts - 1] times, and every sleep is of a length that is not
    negative and is either at most 5 s or the base delay itself. *)
Theorem retry_budget {St A : Type} {m : Machine} (fn : St -> outcome A * St)
    (what : string) (attempts : Z) (base_delay_s : Q) (s : St) (tr : list Event) :
  exists new,
    snd (snd (retry fn what attempts base_delay_s s tr)) = tr ++ new
    /\ (calls new <= Z.to_nat attempts)%nat
    /\ (List.length (sleeps new) <= Z.to_nat attempts - 1)%nat
    /\ Forall (fun d => 0 <= d /\ (d <= 5 # 1 \/ d = base_delay_s)) (sleeps new).
Proof.
  unfold retry. apply retry_loop_budget. lia.
Qed.

Lemma retry_loop_sound {St A : Type} {m : Machine} (fn : St -> outcome A * St)
    (what : string) (attempts : Z) (base_delay_s : Q) (n : nat) :
  forall (i : Z) (last_err : option exn) (s : St) (tr : list Event) (v : A),
    fst (retry_loop fn what attempts base_delay_s n i last_err s tr) = Ret v ->
    exists k, (k < n)%nat /\ fails_then_succeeds fn s k v.
Proof.
  induction n as [|n IH]; intros i last_err s tr v H.
  - cbn in H. destruct last_err; discriminate H.
  - cbn [retry_loop] in H. destruct (fn s) as [[v0|e] s'] eqn:Hfn.
    + cbn in H. inversion H; subst v0. exists 0%nat. split; [lia|].
      split; [intros j Hj; lia|]. unfold nth_outcome. cbn. rewrite Hfn. reflexivity.
    + destruct (i >=? attempts)%Z; [discriminate H|].
      destruct (time_sleep _ _) as [[[]|e'] tr3]; [|discriminate H].
      destruct (IH _ _ _ _ _ H) as (k & Hk & Hfail & Hok).
      exists (S k). split; [lia|]. split.
      * intros j Hj. destruct j as [|j].
        -- exists e. unfold nth_outcome. cbn. rewrite Hfn. reflexivity.
        -- rewrite nth_outcome_S, Hfn. apply Hfail. lia.
      * rewrite nth_outcome_S, Hfn. exact Hok.
Qed.

(** X4.  [retry] returns no value of its own: when it returns [v], the
    operation failed on some [k < attempts] calls in a row and returned [v]
    on the next one. *)
Theorem retry_returns_only_what_fn_returned {St A : Type} {m : Machine}
    (fn : St -> outcome A * St) (what : string) (attempts : Z) (base_delay_s : Q)
    (s : St) (tr : list Event) (v : A) :
  fst (retry fn what attempts base_delay_s s tr) = Ret v ->
  exists k, (Z.of_nat k < attempts)%Z /\ fails_then_succeeds fn s k v.
Proof.
  intros H. destruct (retry_loop_sound _ _ _ _ _ _ _ _ _ _ H) as (k & Hk & Hop).
  exists k. split; [lia | exact Hop].
Qed.

Lemma retry_returns_only_what_fn_returned_witness :
  exists k, (Z.of_nat k < 5)%Z
            /\ fails_then_succeeds (scripted (RuntimeError "script over"))
                 [Raise (RuntimeError "a"); Ret 7%Z] k 7%Z.
Proof.
  apply (retry_returns_only_what_fn_returned (m := exact_machine)
           (scripted (RuntimeError "script over")) "op" 5 1
           [Raise (RuntimeError "a"); Ret 7%Z] [] 7%Z).
  vm_compute. reflexivity.
Defined.

(** The first delay is the base delay itself when that is negative:
    [1.3 ** 0] is 1.0, a product with 1.0 is exact, and a negative number is
    below the cap. *)
Lemma first_delay_negative {m : Machine} (base_s : Q) :
  base_s < 0 -> sleep_backoff base_s 1 default_factor default_max_s = base_s.
Proof.
  intros Hb. unfold sleep_backoff. cbn [Z.sub Z.max Z.compare Z.add Z.opp Z.pos_sub].
  rewrite fpow_zero, fmul_one. unfold py_min.
  destruct (Qlt_le_dec base_s default_max_s) as [_|H]; [reflexivity|].
  exfalso. apply (Qlt_not_le _ _ Hb).
  apply Qle_trans with default_max_s; [discriminate | exact H].
Qed.

(** What [time.sleep] says to a negative length. *)
Lemma sleep_refusal_negative {m : Machine} (secs : Q) :
  secs < 0 ->
  (inject_Z (- 9223372036) <= secs ->
   sleep_refusal secs = Some (PyError "ValueError" "sleep length must be non-negative"))
  /\ (secs <= inject_Z (- 9223372037) ->
      sleep_refusal secs
      = Some (PyError "OverflowError" "timestamp too large to convert to C _PyTime_t"))
  /\ exists refusal, sleep_refusal secs = Some refusal.
Proof.
  intros Hneg. unfold sleep_refusal. cbv zeta.
  assert (Hns : secs * inject_Z (10 ^ 9) <= 0).
  { rewrite <- (Qmult_0_l (inject_Z (10 ^ 9))).
    apply Qmult_le_compat_r; [apply Qlt_le_weak; exact Hneg | discriminate]. }
  split; [|split].
  - intros Hlow.
    destruct (Qlt_le_dec _ _) as [H|_].
    { exfalso. apply (Qlt_not_le _ _ H).
      apply Qle_trans with (inject_Z (- 9223372036) * inject_Z (10 ^ 9));
        [discriminate|].
      apply Qmult_le_compat_r; [exact Hlow | discriminate]. }
    destruct (Qlt_le_dec _ _) as [H|_].
    { exfalso. apply (Qlt_not_le _ _ H).
      apply Qle_trans with 0; [exact Hns | discriminate]. }
    destruct (Qlt_le_dec secs 0) as [_|H]; [reflexivity|].
    exfalso. exact (Qlt_not_le _ _ Hneg H).
  - intros Hhigh.
    destruct (Qlt_le_dec _ _) as [_|H]; [reflexivity|].
    exfalso. apply (Qle_not_lt _ _ H).
    apply Qle_lt_trans with (inject_Z (- 9223372037) * inject_Z (10 ^ 9));
      [|reflexivity].
    apply Qmult_le_compat_r; [exact Hhigh | discriminate].
  - destruct (Qlt_le_dec _ _) as [_|_]; [eexists; reflexivity|].
    destruct (Qlt_le_dec _ _) as [_|_]; [eexists; reflexivity|].
    destruct (Qlt_le_dec secs 0) as [_|H]; [eexists; reflexivity|].
    exfalso. exact (Qlt_not_le _ _ Hneg H).
Qed.

(** X5.  A negative base delay breaks the retry at the first failure: with
    at least two attempts allowed and a first call that raises, [retry]
    raises the exception of [time.sleep] after that single call, without
    sleeping and without calling the operation again.  The exception is the
    [ValueError] for a base delay down to -9223372036 s, and the
    [OverflowError] of the conversion to nanoseconds from -9223372037 s
    on. *)
Theorem retry_negative_delay {St A : Type} {m : Machine} (fn : St -> outcome A * St)
    (what : string) (attempts : Z) (base_delay_s : Q) (s : St) (tr : list Event)
    (e : exn) :
  base_delay_s < 0 ->
  (2 <= attempts)%Z ->
  fst (fn s) = Raise e ->
  exists refusal,
    sleep_refusal base_delay_s = Some refusal
    /\ retry fn what attempts base_delay_s s tr
       = (Raise refusal,
          (snd (fn s), tr ++ [EvCall; EvLog (retry_log what 1 attempts e)]))
    /\ (inject_Z (- 9223372036) <= base_delay_s ->
        refusal = PyError "ValueError" "sleep length must be non-negative")
    /\ (base_delay_s <= inject_Z (- 9223372037) ->
        refusal
        = PyError "OverflowError" "timestamp too large to convert to C _PyTime_t").
Proof.
  intros Hb Ha He.
  destruct (sleep_refusal_negative base_delay_s Hb) as (Hval & Hov & refusal & Href).
  exists refusal. split; [exact Href|]. split; [|split].
  - unfold retry.
    destruct (Z.to_nat attempts) as [|n] eqn:Hn; [lia|].
    cbn [retry_loop]. destruct (fn s) as [r s']. cbn in He. subst r.
    destruct (Z.geb_spec 1 attempts) as [Hge|_]; [lia|].
    rewrite (first_delay_negative base_delay_s Hb).
    rewrite (time_sleep_refused _ _ _ Href).
    cbn [snd]. rewrite <- app_assoc. reflexivity.
  - intros H. specialize (Hval H). rewrite Href in Hval. inversion Hval. reflexivity.
  - intros H. specialize (Hov H). rewrite Href in Hov. inversion Hov. reflexivity.
Qed.

Lemma retry_negative_delay_witness :
  exists refusal,
    sleep_refusal (m := exact_machine) (-1 # 1) = Some refusal
    /\ retry (m := exact_machine) (scripted (A := Z) (RuntimeError "script over"))
             "op" 3 (-1 # 1) [Raise (RuntimeError "a"); Ret 7%Z] []
       = (Raise refusal, ([Ret 7%Z], [EvCall; EvLog "op failed (attempt 1/3): a"]))
    /\ (inject_Z (- 9223372036) <= -1 # 1 ->
        refusal = PyError "ValueError" "sleep length must be non-negative")
    /\ (-1 # 1 <= inject_Z (- 9223372037) ->
        refusal
        = PyError "OverflowError" "timestamp too large to convert to C _PyTime_t").
Proof.
  apply (retry_negative_delay (m := exact_machine)
           (scripted (A := Z) (RuntimeError "script over"))
           "op" 3 (-1 # 1) [Raise (RuntimeError "a"); Ret 7%Z] [] (RuntimeError "a")).
  - reflexivity.
  - lia.
  - reflexivity.
Defined.

(** ** Transport *)

Lemma log_suffix_refl (w : World) : log_suffix w w.
Proof. exists []. rewrite app_nil_r. auto. Qed.

Lemma log_suffix_trans (w1 w2 w3 : World) :
  log_suffix w1 w2 -> log_suffix w2 w3 -> log_suffix w1 w3.
Proof.
  intros (r1 & H1 & R1) (r2 & H2 & R2). exists (r1 ++ r2).
  rewrite H2, H1, <- app_assoc, requests_app, R1, R2. auto.
Qed.

Lemma log_suffix_bind {B : Type} (c : bool) (msg : string) (k : M B) (w : World) :
  exists w1, log_suffix w w1 /\ bind (when c (log msg)) (fun _ => k) w = k w1.
Proof.
  destruct c.
  - eexists. split; [|reflexivity]. exists [EvLog msg]. cbn. auto.
  - exists w. split; [apply log_suffix_refl | reflexivity].
Qed.

(** X7.  Every call of [_request] sends exactly one request, to
    [BASE_URL + path], and that request carries the API token in
    [X-Api-Token]; it carries [X-Profile-Id] exactly when a non-empty profile
    id was given. *)
Theorem _request_sends_token (rt : PyRuntime) (env : Env) (meth pth : string)
    (profile_id : option string) (json_body : option JSON)
    (body : option (list byte)) (content_type accept : option string) (w : World) :
  exists hdrs data rest,
    trace (snd (_request rt env meth pth profile_id json_body body content_type
                         accept w))
    = trace w ++ EvRequest meth (BASE_URL env ++ pth) hdrs data :: rest
    /\ requests rest = []
    /\ lookup hdrs "X-Api-Token" = Some (API_TOKEN env)
    /\ lookup hdrs "X-Profile-Id"
       = (if str_truthy profile_id then profile_id else None).
Proof.
  exists (request_headers env profile_id json_body body content_type accept),
         (request_data json_body body).
  assert (Hh : lookup (request_headers env profile_id json_body body content_type
                                       accept) "X-Api-Token" = Some (API_TOKEN env)
               /\ lookup (request_headers env profile_id json_body body content_type
                                          accept) "X-Profile-Id"
                  = (if str_truthy profile_id then profile_id else None)).
  { unfold request_headers.
    destruct profile_id as [p|]; cbn [str_truthy opt_str];
      [destruct (negb (p =? "")%string)|];
      (destruct accept as [a|]; cbn [str_truthy opt_str];
       [destruct (negb (a =? "")%string)|]);
      (destruct json_body, body; cbn [str_truthy opt_str];
       try (destruct content_type as [c|]; cbn [str_truthy opt_str];
            [destruct (negb (c =? "")%string)|]));
      cbn; auto. }
  unfold _request.
  set (hdrs := request_headers env profile_id json_body body content_type accept) in *.
  clearbody hdrs.
  set (w1 := mkWorld (ticks w) (S (sent w)) _).
  assert (Hw1 : forall w2, log_suffix w1 w2 ->
              exists rest,
                trace w2
                = trace w ++ EvRequest meth (BASE_URL env ++ pth) hdrs
                                       (request_data json_body body) :: rest
                /\ requests rest = []).
  { intros w2 (rest & Ht & Hr). exists rest. split; [|exact Hr].
    rewrite Ht. unfold w1. cbn [trace]. rewrite <- app_assoc. reflexivity. }
  destruct (urlopen (server env (sent w))) as [code rh rb|code rh eb|reason|cls msg].
  - destruct (Hw1 w1 (log_suffix_refl w1)) as (rest & Ht & Hr).
    exists rest. cbn [snd]. tauto.
  - destruct (parse_error_envelope rt (utf8_replace rt eb)) as [[ec nc] nr].
    change (log ("HTTP " ++ string_of_Z code ++ " " ++ meth ++ " " ++ pth))
      with (when true (log ("HTTP " ++ string_of_Z code ++ " " ++ meth ++ " " ++ pth))).
    repeat match goal with
    | |- context [bind (when ?c (log ?m)) (fun _ => ?k) ?w0] =>
        let wn := fresh "w" in
        let Hl := fresh "Hl" in
        let He := fresh "He" in
        destruct (log_suffix_bind c m k w0) as [wn [Hl He]];
        rewrite He; clear He
    end.
    unfold raise. cbn [snd].
    repeat match goal with
    | H1 : log_suffix w1 ?a, H2 : log_suffix ?a ?b |- _ =>
        pose proof (log_suffix_trans _ _ _ H1 H2); clear H1 H2
    end.
    match goal with
    | H : log_suffix w1 ?a |- context [trace ?a] =>
        destruct (Hw1 a H) as (rest & Ht & Hr)
    end.
    exists rest. tauto.
  - destruct (Hw1 w1 (log_suffix_refl w1)) as (rest & Ht & Hr).
    exists rest. cbn [snd]. tauto.
  - destruct (Hw1 w1 (log_suffix_refl w1)) as (rest & Ht & Hr).
    exists rest. cbn [snd]. tauto.
Qed.

(** X8.  [request_json] answers a 2xx response with an empty body by the
    empty object, without decoding or parsing anything. *)
Theorem request_json_empty_body (rt : PyRuntime) (env : Env) (meth pth : string)
    (profile_id : option string) (json_body : option JSON) (w : World)
    (code : Z) (hs : list (string * string)) :
  server env (sent w) = WireResponse code hs [] ->
  (200 <= code < 300)%Z ->
  fst (request_json rt env meth pth profile_id json_body w) = Ret (JObj []).
Proof.
  intros Hs Hc. unfold request_json, bind, _request. rewrite Hs. cbn [urlopen].
  destruct (Z.leb_spec 200 code); [|lia].
  destruct (Z.ltb_spec code 300); [|lia].
  cbn [andb]. unfold outside_2xx.
  destruct (Z.ltb_spec code 200); [lia|].
  destruct (Z.geb_spec code 300); [lia|].
  reflexivity.
Qed.

Lemma request_json_empty_body_witness :
  fst (request_json (demo_rt []) (demo_env None [WireResponse 204 [] []])
                    "DELETE" "/buckets/b/policy" (Some "p1") None start)
  = Ret (JObj []).
Proof.
  apply (request_json_empty_body (demo_rt []) (demo_env None [WireResponse 204 [] []])
           "DELETE" "/buckets/b/policy" (Some "p1") None start 204 []).
  - reflexivity.
  - lia.
Defined.

Lemma _request_ret_2xx (rt : PyRuntime) (env : Env) (meth pth : string)
    (profile_id : option string) (json_body : option JSON)
    (body : option (list byte)) (content_type accept : option string)
    (w w' : World) (code : Z) (h : list (string * string)) (b : list byte) :
  _request rt env meth pth profile_id json_body body content_type accept w
  = (Ret (code, h, b), w') ->
  outside_2xx code = false.
Proof.
  unfold _request.
  destruct (server env (sent w)) as [c hs bd|reason|cls msg]; cbn [urlopen];
    [|discriminate ..].
  - destruct (Z.leb_spec 200 c) as [Hlo|Hlo], (Z.ltb_spec c 300) as [Hhi|Hhi];
      cbn [andb].
    + intros Heq. inversion Heq; subst. unfold outside_2xx.
      destruct (Z.ltb_spec code 200); [lia|].
      destruct (Z.geb_spec code 300); [lia|]. reflexivity.
    + destruct (parse_error_envelope rt (utf8_replace rt bd)) as [[ec nc] nr].
      repeat match goal with
      | |- context [bind ?c0 (fun _ => ?k) ?w0] =>
          let wn := fresh "w" in
          let Hl := fresh "Hl" in
          let He := fresh "He" in
          destruct (quiet_bind c0 k w0
                      ltac:(first [apply quiet_log | apply quiet_when_log]))
            as [wn [Hl He]];
          rewrite He; clear He
      end.
      discriminate.
    + destruct (parse_error_envelope rt (utf8_replace rt bd)) as [[ec nc] nr].
      repeat match goal with
      | |- context [bind ?c0 (fun _ => ?k) ?w0] =>
          let wn := fresh "w" in
          let Hl := fresh "Hl" in
          let He := fresh "He" in
          destruct (quiet_bind c0 k w0
                      ltac:(first [apply quiet_log | apply quiet_when_log]))
            as [wn [Hl He]];
          rewrite He; clear He
      end.
      discriminate.
    + destruct (parse_error_envelope rt (utf8_replace rt bd)) as [[ec nc] nr].
      repeat match goal with
      | |- context [bind ?c0 (fun _ => ?k) ?w0] =>
          let wn := fresh "w" in
          let Hl := fresh "Hl" in
          let He := fresh "He" in
          destruct (quiet_bind c0 k w0
                      ltac:(first [apply quiet_log | apply quiet_when_log]))
            as [wn [Hl He]];
          rewrite He; clear He
      end.
      discriminate.
Qed.

Lemma _request_raise_kind (rt : PyRuntime) (env : Env) (meth pth : string)
    (profile_id : option string) (json_body : option JSON)
    (body : option (list byte)) (content_type accept : option string)
    (w w' : World) (e : exn) :
  _request rt env meth pth profile_id json_body body content_type accept w
  = (Raise e, w') ->
  (exists f, e = HTTPFailureExc f)
  \/ (exists reason,
        e = RuntimeError ("Network error " ++ meth ++ " " ++ pth
                          ++ ": <urlopen error " ++ reason ++ ">"))
  \/ (exists cls msg, e = PyError cls msg).
Proof.
  unfold _request.
  destruct (urlopen (server env (sent w))) as [code rh rb|code rh eb|reason|cls msg].
  - discriminate.
  - destruct (parse_error_envelope rt (utf8_replace rt eb)) as [[ec nc] nr].
    repeat match goal with
    | |- context [bind ?c0 (fun _ => ?k) ?w0] =>
        let wn := fresh "w" in
        let Hl := fresh "Hl" in
        let He := fresh "He" in
        destruct (quiet_bind c0 k w0
                    ltac:(first [apply quiet_log | apply quiet_when_log]))
          as [wn [Hl He]];
        rewrite He; clear He
    end.
    unfold raise. intros H. inversion H. left. eauto.
  - intros H. inversion H. right. left. exists reason. reflexivity.
  - intros H. inversion H. right. right. eauto.
Qed.

(** X9.  The status test that follows [_request] in [request_json],
    [request_bytes] and [request_text] never fires: none of them ever raises
    its "Unexpected HTTP ..." error, because [_request] hands back 2xx
    responses only. *)
Theorem wrappers_never_raise_unexpected_http (rt : PyRuntime) (env : Env)
    (meth pth : string) (profile_id : option string) (json_body : option JSON)
    (w : World) (code : Z) :
  fst (request_json rt env meth pth profile_id json_body w)
    <> Raise (unexpected_http code meth pth)
  /\ fst (request_bytes rt env meth pth profile_id w)
     <> Raise (unexpected_http code meth pth)
  /\ fst (request_text rt env meth pth profile_id w)
     <> Raise (unexpected_http code meth pth).
Proof.
  assert (Hkind : forall jb bd ct acc w' e,
             _request rt env meth pth profile_id jb bd ct acc w = (Raise e, w') ->
             e <> unexpected_http code meth pth).
  { intros jb bd ct acc w' e H.
    destruct (_request_raise_kind _ _ _ _ _ _ _ _ _ _ _ _ H) as [[f ->]|[[reason ->]|[cls [msg ->]]]];
      unfold unexpected_http; intros Heq; inversion Heq. }
  split; [|split].
  - unfold request_json, bind.
    destruct (_request rt env meth pth profile_id json_body None None
                (Some "application/json") w) as [[[[c h] bd]|e] w1] eqn:Hr; cbn [fst].
    + rewrite (_request_ret_2xx _ _ _ _ _ _ _ _ _ _ _ _ _ _ Hr).
      destruct bd as [|b0 bd]; [discriminate|].
      unfold lift.
      destruct (utf8_strict rt (b0 :: bd)); cbn; [|discriminate].
      destruct (json_loads rt a); cbn; discriminate.
    + intros H. inversion H. exact (Hkind _ _ _ _ _ _ Hr H1).
  - unfold request_bytes, bind.
    destruct (_request rt env meth pth profile_id None None None None w)
      as [[[[c h] bd]|e] w1] eqn:Hr; cbn [fst].
    + rewrite (_request_ret_2xx _ _ _ _ _ _ _ _ _ _ _ _ _ _ Hr). discriminate.
    + intros H. inversion H. exact (Hkind _ _ _ _ _ _ Hr H1).
  - unfold request_text, bind.
    destruct (_request rt env meth pth profile_id None None None
                (Some "text/plain") w) as [[[[c h] bd]|e] w1] eqn:Hr; cbn [fst].
    + rewrite (_request_ret_2xx _ _ _ _ _ _ _ _ _ _ _ _ _ _ Hr). discriminate.
    + intros H. inversion H. exact (Hkind _ _ _ _ _ _ Hr H1).
Qed.

(** ** Readiness waiter *)

Section WaitFacts.
Variable rt : PyRuntime.
Variable env : Env.
Variable timeout_s : Z.
Variable deadline : Q.

Let meta_get : string * string := ("GET", (BASE_URL env ++ "/meta")%string).
Let probe (n : nat) : outcome unit := fst (probe_meta rt env (mkWorld 0 n [])).

(** One probe: its outcome depends on the number of the request only; it
    sends that one request; when the answer is an object, its last log line
    reports the version. *)
Lemma probe_meta_run (w : World) :
  exists w',
    probe_meta rt env w = (probe (sent w), w')
    /\ after_request w w' meta_get
    /\ (forall d,
          json_answer rt env (sent w) "GET" "/meta" None None = Ret (JObj d) ->
          probe (sent w) = Ret tt
          /\ exists pre,
               logs (trace w')
               = pre ++ [("Server ready: version="
                          ++ py_str rt (dict_get d "version"))%string]).
Proof.
  unfold probe, probe_meta.
  destruct (run_request_json rt env "GET" "/meta" None None
              (fun meta =>
                 match meta with
                 | JObj d =>
                     log ("Server ready: version=" ++ py_str rt (dict_get d "version"))
                 | _ => raise (no_get_attribute meta)
                 end) w) as (w1 & Ha & He).
  destruct (run_request_json rt env "GET" "/meta" None None
              (fun meta =>
                 match meta with
                 | JObj d =>
                     log ("Server ready: version=" ++ py_str rt (dict_get d "version"))
                 | _ => raise (no_get_attribute meta)
                 end) (mkWorld 0 (sent w) [])) as (wc & Hac & Hec).
  rewrite He, Hec. cbn [sent].
  destruct (json_answer rt env (sent w) "GET" "/meta" None None) as [v|e].
  - destruct v; cbn; try (exists w1; split; [reflexivity|]; split;
                          [exact Ha | intros d0 Hd; discriminate Hd]).
    eexists. split; [reflexivity|]. split.
    + eapply after_request_logged; [exact Ha|].
      unfold logged_only. cbn. rewrite requests_app, sleeps_app. cbn.
      rewrite !app_nil_r. auto.
    + intros d0 Hd. inversion Hd; subst d0. split; [reflexivity|].
      exists (logs (trace w1)). cbn. rewrite logs_app. reflexivity.
  - exists w1. split; [reflexivity|]. split; [exact Ha | intros d0 Hd; discriminate Hd].
Qed.

(** One turn of the loop with a probe that fails. *)
Lemma wait_loop_failing (fuel : nat) (last_err : option exn) (w : World) (e : exn) :
  clock env (ticks w) < deadline ->
  probe (sent w) = Raise e ->
  exists w3,
    wait_loop rt env (S fuel) timeout_s deadline last_err w
    = wait_loop rt env fuel timeout_s deadline (Some e) w3
    /\ ticks w3 = S (ticks w) /\ sent w3 = S (sent w)
    /\ requests (trace w3) = requests (trace w) ++ [meta_get]
    /\ sleeps (trace w3) = sleeps (trace w) ++ [1].
Proof.
  intros Hclock Hprobe.
  cbn [wait_loop]. unfold time_time.
  destruct (Qlt_le_dec (clock env (ticks w)) deadline) as [_|Hle];
    [|exfalso; exact (Qlt_not_le _ _ Hclock Hle)].
  destruct (probe_meta_run (mkWorld (S (ticks w)) (sent w) (trace w)))
    as (w2 & Hrun & Hw2 & _).
  rewrite Hrun. cbn [sent]. rewrite Hprobe.
  unfold sleep. rewrite time_sleep_accepted by (apply sleep_accepts; discriminate).
  eexists. split; [reflexivity|].
  destruct Hw2 as (T & S' & R & L). cbn in T, S', R, L |- *.
  rewrite requests_app, sleeps_app, R, L. cbn. rewrite app_nil_r. auto.
Qed.

(** [n] such turns in a row; [errs k] is the failure of request number [k]. *)
Lemma wait_loop_failing_n (errs : nat -> exn) (n : nat) :
  forall (fuel : nat) (last_err : option exn) (w : World),
    (forall i, (i < n)%nat -> clock env (ticks w + i) < deadline) ->
    (forall i, (i < n)%nat -> probe (sent w + i) = Raise (errs (sent w + i)%nat)) ->
    exists wn,
      wait_loop rt env (n + fuel) timeout_s deadline last_err w
      = wait_loop rt env fuel timeout_s deadline
                  (match n with
                   | O => last_err
                   | S m => Some (errs (sent w + m)%nat)
                   end) wn
      /\ ticks wn = (ticks w + n)%nat /\ sent wn = (sent w + n)%nat
      /\ requests (trace wn) = requests (trace w) ++ repeat meta_get n
      /\ sleeps (trace wn) = sleeps (trace w) ++ repeat 1 n.
Proof.
  induction n as [|n IH]; intros fuel last_err w Hclock Hfail.
  - exists w. cbn. rewrite !Nat.add_0_r, !app_nil_r. auto.
  - destruct (wait_loop_failing (n + fuel) last_err w (errs (sent w)))
      as [w3 (Hstep & T & S' & R & L)].
    + specialize (Hclock 0%nat ltac:(lia)). rewrite Nat.add_0_r in Hclock.
      exact Hclock.
    + specialize (Hfail 0%nat ltac:(lia)). rewrite Nat.add_0_r in Hfail.
      exact Hfail.
    + destruct (IH fuel (Some (errs (sent w))) w3) as [wn (Hrun & T' & S'' & R' & L')].
      * intros i Hi. rewrite T.
        replace (S (ticks w) + i)%nat with (ticks w + S i)%nat by lia.
        apply Hclock. lia.
      * intros i Hi. rewrite S'.
        replace (S (sent w) + i)%nat with (sent w + S i)%nat by lia.
        apply Hfail. lia.
      * exists wn. split; [|repeat split].
        -- cbn [Nat.add]. rewrite Hstep, Hrun. f_equal.
           destruct n as [|m]; [rewrite Nat.add_0_r; reflexivity|].
           rewrite S'. f_equal. f_equal. lia.
        -- lia.
        -- lia.
        -- rewrite R', R, <- app_assoc. reflexivity.
        -- rewrite L', L, <- app_assoc. reflexivity.
Qed.

(** The turn whose probe finds the server ready. *)
Lemma wait_loop_ready (fuel : nat) (last_err : option exn) (w : World)
    (d : list (string * JSON)) :
  clock env (ticks w) < deadline ->
  json_answer rt env (sent w) "GET" "/meta" None None = Ret (JObj d) ->
  exists w2,
    wait_loop rt env (S fuel) timeout_s deadline last_err w = Some (Ret tt, w2)
    /\ requests (trace w2) = requests (trace w) ++ [meta_get]
    /\ sleeps (trace w2) = sleeps (trace w)
    /\ exists pre,
         logs (trace w2)
         = pre ++ [("Server ready: version=" ++ py_str rt (dict_get d "version"))%string].
Proof.
  intros Hclock Hmeta.
  cbn [wait_loop]. unfold time_time.
  destruct (Qlt_le_dec (clock env (ticks w)) deadline) as [_|Hle];
    [|exfalso; exact (Qlt_not_le _ _ Hclock Hle)].
  destruct (probe_meta_run (mkWorld (S (ticks w)) (sent w) (trace w)))
    as (w2 & Hrun & Hw2 & Hready).
  cbn [sent] in Hrun, Hready.
  destruct (Hready d Hmeta) as [Hok Hlog].
  rewrite Hrun, Hok.
  exists w2. split; [reflexivity|].
  destruct Hw2 as (T & S' & R & L). cbn in R, L. auto.
Qed.

(** The turn that finds the deadline passed. *)
Lemma wait_loop_deadline (fuel : nat) (last_err : option exn) (w : World) :
  deadline <= clock env (ticks w) ->
  exists w1,
    wait_loop rt env (S fuel) timeout_s deadline last_err w
    = Some (Raise (RuntimeError (not_ready_msg timeout_s last_err)), w1)
    /\ requests (trace w1) = requests (trace w).
Proof.
  intros Hclock. cbn [wait_loop]. unfold time_time.
  destruct (Qlt_le_dec (clock env (ticks w)) deadline) as [Hlt|_];
    [exfalso; exact (Qlt_not_le _ _ Hlt Hclock)|].
  eexists. split; reflexivity.
Qed.

End WaitFacts.

Lemma probe_meta_outcome (rt : PyRuntime) (env : Env) (n : nat) :
  fst (probe_meta rt env (mkWorld 0 n []))
  = match probe_error (json_answer rt env n "GET" "/meta" None None) with
    | Some e => Raise e
    | None => Ret tt
    end.
Proof.
  unfold probe_meta.
  destruct (run_request_json rt env "GET" "/meta" None None
              (fun meta =>
                 match meta with
                 | JObj d =>
                     log ("Server ready: version=" ++ py_str rt (dict_get d "version"))
                 | _ => raise (no_get_attribute meta)
                 end) (mkWorld 0 n [])) as (wc & _ & He).
  rewrite He. cbn [sent].
  destruct (json_answer rt env n "GET" "/meta" None None) as [v|e]; [|reflexivity].
  destruct v; reflexivity.
Qed.

(** X10.  [wait_for_server] with a server that becomes ready: after [n]
    probes that fail in time (the request fails, or [/meta] answers something
    that is no object) and a probe that is answered by an object, it returns,
    having sent [n + 1] requests to [/meta] and slept one second after each
    failure; its last log line reports the version. *)
Theorem wait_for_server_ready (rt : PyRuntime) (env : Env) (timeout_s : Z)
    (w : World) (n fuel : nat) (d : list (string * JSON)) :
  let meta := fun i : nat =>
    json_answer rt env (sent w + i) "GET" "/meta" None None in
  let in_time := fun i : nat =>
    clock env (ticks w + 1 + i) < clock env (ticks w) + inject_Z timeout_s in
  (forall i, (i <= n)%nat -> in_time i) ->
  (forall i, (i < n)%nat -> probe_error (meta i) <> None) ->
  meta n = Ret (JObj d) ->
  (n < fuel)%nat ->
  exists w',
    wait_for_server rt env fuel timeout_s w = Some (Ret tt, w')
    /\ requests (trace w')
       = requests (trace w) ++ repeat ("GET", (BASE_URL env ++ "/meta")%string) (S n)
    /\ sleeps (trace w') = sleeps (trace w) ++ repeat 1 n
    /\ exists pre,
         logs (trace w')
         = pre ++ [("Server ready: version=" ++ py_str rt (dict_get d "version"))%string].
Proof.
  intros meta in_time Htime Hfail Hready Hfuel.
  set (w0 := mkWorld (S (ticks w)) (sent w) (trace w)).
  set (deadline := clock env (ticks w) + inject_Z timeout_s).
  change (wait_for_server rt env fuel timeout_s w)
    with (wait_loop rt env fuel timeout_s deadline None w0).
  set (errs := fun k : nat =>
         match probe_error (json_answer rt env k "GET" "/meta" None None) with
         | Some e => e
         | None => RuntimeError ""
         end).
  destruct (wait_loop_failing_n rt env timeout_s deadline errs n (fuel - n) None w0)
    as [wn (Hrun & T & S' & R & L)].
  { intros i Hi. replace (ticks w0 + i)%nat with (ticks w + 1 + i)%nat by (cbn; lia).
    apply Htime. lia. }
  { intros i Hi. rewrite probe_meta_outcome. unfold errs. cbn [sent w0].
    specialize (Hfail i Hi). unfold meta in Hfail.
    destruct (probe_error _); [reflexivity | contradiction]. }
  replace (n + (fuel - n))%nat with fuel in Hrun by lia.
  rewrite Hrun.
  destruct (fuel - n)%nat as [|fuel'] eqn:Hf; [lia|].
  destruct (wait_loop_ready rt env timeout_s deadline fuel'
              (match n with
               | O => None
               | S m => Some (errs (sent w0 + m)%nat)
               end) wn d) as [w2 (Hok & R2 & L2 & Hlog)].
  { rewrite T. replace (ticks w0 + n)%nat with (ticks w + 1 + n)%nat by (cbn; lia).
    apply Htime. lia. }
  { rewrite S'. exact Hready. }
  exists w2. split; [exact Hok|]. split; [|split].
  - rewrite R2, R. cbn [trace w0]. replace (S n) with (n + 1)%nat by lia.
    rewrite repeat_app, <- app_assoc. reflexivity.
  - rewrite L2, L. reflexivity.
  - exact Hlog.
Qed.

(** X11.  [wait_for_server] with a server that does not become ready: when
    the deadline is found passed after [n] probes that failed in time, it
    raises a [RuntimeError] that names the configured timeout and the last
    failure seen; when not even one probe was made, the message ends with
    [None] and no request was sent. *)
Theorem wait_for_server_timeout (rt : PyRuntime) (env : Env) (timeout_s : Z)
    (w : World) (n fuel : nat) :
  let meta := fun i : nat =>
    json_answer rt env (sent w + i) "GET" "/meta" None None in
  let in_time := fun i : nat =>
    clock env (ticks w + 1 + i) < clock env (ticks w) + inject_Z timeout_s in
  (forall i, (i < n)%nat -> in_time i) ->
  clock env (ticks w) + inject_Z timeout_s <= clock env (ticks w + 1 + n) ->
  (forall i, (i < n)%nat -> probe_error (meta i) <> None) ->
  (n < fuel)%nat ->
  exists w',
    wait_for_server rt env fuel timeout_s w
    = Some (Raise (RuntimeError
                     ("Server did not become ready within " ++ string_of_Z timeout_s
                      ++ "s: "
                      ++ match n with
                         | O => "None"
                         | S m => match probe_error (meta m) with
                                  | Some e => exn_str e
                                  | None => "None"
                                  end
                         end)), w')
    /\ requests (trace w')
       = requests (trace w) ++ repeat ("GET", (BASE_URL env ++ "/meta")%string) n.
Proof.
  intros meta in_time Htime Hlate Hfail Hfuel.
  set (w0 := mkWorld (S (ticks w)) (sent w) (trace w)).
  set (deadline := clock env (ticks w) + inject_Z timeout_s) in *.
  change (wait_for_server rt env fuel timeout_s w)
    with (wait_loop rt env fuel timeout_s deadline None w0).
  set (errs := fun k : nat =>
         match probe_error (json_answer rt env k "GET" "/meta" None None) with
         | Some e => e
         | None => RuntimeError ""
         end).
  destruct (wait_loop_failing_n rt env timeout_s deadline errs n (fuel - n) None w0)
    as [wn (Hrun & T & S' & R & L)].
  { intros i Hi. replace (ticks w0 + i)%nat with (ticks w + 1 + i)%nat by (cbn; lia).
    apply Htime. lia. }
  { intros i Hi. rewrite probe_meta_outcome. unfold errs. cbn [sent w0].
    specialize (Hfail i Hi). unfold meta in Hfail.
    destruct (probe_error _); [reflexivity | contradiction]. }
  replace (n + (fuel - n))%nat with fuel in Hrun by lia.
  rewrite Hrun.
  destruct (fuel - n)%nat as [|fuel'] eqn:Hf; [lia|].
  destruct (wait_loop_deadline rt env timeout_s deadline fuel'
              (match n with
               | O => None
               | S m => Some (errs (sent w0 + m)%nat)
               end) wn) as [w1 [Hdl R1]].
  { rewrite T. replace (ticks w0 + n)%nat with (ticks w + 1 + n)%nat by (cbn; lia).
    exact Hlate. }
  exists w1. split.
  - rewrite Hdl. unfold not_ready_msg. destruct n as [|m]; [reflexivity|].
    unfold errs. cbn [sent w0]. fold (meta m).
    specialize (Hfail m ltac:(lia)).
    destruct (probe_error (meta m)); [reflexivity | contradiction].
  - rewrite R1, R. reflexivity.
Qed.

Lemma wait_for_server_ready_witness :
  let rt := demo_rt [("meta", JObj [("version", JStr "1.2.3")])] in
  let env := demo_env None [WireNoResponse "Connection refused";
                            WireResponse 200 [] (bytes_of "[]");
                            ok_json "meta"] in
  exists w',
    wait_for_server rt env 5 120 start = Some (Ret tt, w')
    /\ requests (trace w') = repeat ("GET", "http://localhost:8080/meta") 3
    /\ sleeps (trace w') = [1; 1].
Proof.
  intros rt env.
  destruct (wait_for_server_ready rt env 120 start 2 5 [("version", JStr "1.2.3")])
    as [w' (Hrun & Hreq & Hsl & _)].
  - intros i Hi. destruct i as [|[|[|i]]]; [reflexivity ..|lia].
  - intros i Hi. destruct i as [|[|i]]; [vm_compute; discriminate ..|lia].
  - reflexivity.
  - lia.
  - exists w'. split; [exact Hrun|]. split; [exact Hreq | exact Hsl].
Defined.

Lemma wait_for_server_timeout_witness :
  let env := demo_env None [] in
  exists w',
    wait_for_server (demo_rt []) env 5 0 start
    = Some (Raise (RuntimeError "Server did not become ready within 0s: None"), w')
    /\ requests (trace w') = [].
Proof.
  intros env.
  destruct (wait_for_server_timeout (demo_rt []) env 0 start 0 5)
    as [w' (Hrun & Hreq)].
  - intros i Hi. lia.
  - vm_compute. discriminate.
  - intros i Hi. lia.
  - lia.
  - exists w'. split; [exact Hrun | exact Hreq].
Defined.

(** ** Job poller, when the poll itself goes wrong *)

Lemma poll_loop_broken (rt : PyRuntime) (env : Env) (job_id profile_id : string)
    (deadline : Q) (fuel : nat) (w : World) :
  clock env (ticks w) < deadline ->
  exists w2,
    requests (trace w2)
    = requests (trace w) ++ [("GET", (BASE_URL env ++ job_path job_id)%string)]
    /\ match json_answer rt env (sent w) "GET" (job_path job_id) (Some profile_id) None
       with
       | Raise e =>
           poll_loop rt env (S fuel) job_id profile_id deadline w = Some (Raise e, w2)
       | Ret (JObj _) => True
       | Ret v =>
           poll_loop rt env (S fuel) job_id profile_id deadline w
           = Some (Raise (no_get_attribute v), w2)
       end.
Proof.
  intros Hclock. cbn [poll_loop]. unfold time_time.
  destruct (Qlt_le_dec (clock env (ticks w)) deadline) as [_|Hle];
    [|exfalso; exact (Qlt_not_le _ _ Hclock Hle)].
  destruct (request_json_run rt env "GET" (job_path job_id) (Some profile_id) None
              (mkWorld (S (ticks w)) (sent w) (trace w))) as [w2 [Hrun Hw2]].
  rewrite Hrun. cbn [sent].
  exists w2. split; [destruct Hw2 as (_ & _ & R & _); exact R|].
  destruct (json_answer rt env (sent w) "GET" (job_path job_id) (Some profile_id) None)
    as [[| | | | |]|e]; auto.
Qed.

(** X12.  [poll_job] does not put up with a poll that goes wrong: when, after
    [n] polls of a job still on its way, the poll request fails, that failure
    is raised as it is; when the poll is answered by a value [v] that is no
    object, the [AttributeError] of [job.get] is raised, whose message names
    the type of [v]: ['list' object has no attribute 'get'] for an array.
    Either way no log fetch and no further poll is made. *)
Theorem poll_job_broken_poll (rt : PyRuntime) (env : Env) (job_id profile_id : string)
    (w : World) (n fuel : nat) :
  let poll := fun i : nat =>
    json_answer rt env (sent w + i) "GET" (job_path job_id) (Some profile_id) None in
  let in_time := fun i : nat =>
    clock env (ticks w + 1 + i) < clock env (ticks w) + 180 in
  let job_get := ("GET", (BASE_URL env ++ "/jobs/" ++ job_id)%string) in
  (forall i, (i <= n)%nat -> in_time i) ->
  (forall i, (i < n)%nat -> pending_poll (poll i)) ->
  (n < fuel)%nat ->
  (forall e,
      poll n = Raise e ->
      exists w',
        poll_job rt env fuel job_id profile_id w = Some (Raise e, w')
        /\ requests (trace w') = requests (trace w) ++ repeat job_get (S n))
  /\ (forall v,
        poll n = Ret v ->
        isinstance_dict v = false ->
        exists w',
          poll_job rt env fuel job_id profile_id w
          = Some (Raise (PyError "AttributeError"
                                 ("'" ++ py_type_name v
                                  ++ "' object has no attribute 'get'")), w')
          /\ requests (trace w') = requests (trace w) ++ repeat job_get (S n)).
Proof.
  intros poll in_time job_get Htime Hpend Hfuel.
  set (w0 := mkWorld (S (ticks w)) (sent w) (trace w)).
  assert (Hjob0 : poll_job rt env fuel job_id profile_id w
                  = poll_loop rt env fuel job_id profile_id
                              (clock env (ticks w) + 180) w0) by reflexivity.
  destruct (poll_loop_pending_n rt env job_id profile_id
              (clock env (ticks w) + 180) n (fuel - n) w0)
    as [wn (Hrun & T & S' & R & L)].
  { intros i Hi. replace (ticks w0 + i)%nat with (ticks w + 1 + i)%nat by (cbn; lia).
    apply Htime. lia. }
  { intros i Hi. apply Hpend. exact Hi. }
  replace (n + (fuel - n))%nat with fuel in Hrun by lia.
  rewrite Hjob0, Hrun.
  destruct (fuel - n)%nat as [|fuel'] eqn:Hf; [lia|].
  destruct (poll_loop_broken rt env job_id profile_id (clock env (ticks w) + 180)
              fuel' wn) as [w2 [R2 Hcase]].
  { rewrite T. replace (ticks w0 + n)%nat with (ticks w + 1 + n)%nat by (cbn; lia).
    apply Htime. lia. }
  rewrite S' in Hcase. cbn [sent w0] in Hcase. fold (poll n) in Hcase.
  assert (Hreq : requests (trace w2) = requests (trace w) ++ repeat job_get (S n)).
  { rewrite R2, R. cbn [trace w0]. replace (S n) with (n + 1)%nat by lia.
    rewrite repeat_app, <- app_assoc. reflexivity. }
  split.
  - intros e He. rewrite He in Hcase. exists w2. split; assumption.
  - intros v Hv Hnd. rewrite Hv in Hcase. exists w2.
    destruct v; try discriminate Hnd; split; assumption.
Qed.

Lemma poll_job_broken_poll_witness :
  (let rt := demo_rt [("running", JObj [("status", JStr "running")])] in
   let env := demo_env None [ok_json "running"; WireResponse 502 [] []] in
   exists f w',
     poll_job rt env 5 "j1" "p1" start = Some (Raise (HTTPFailureExc f), w')
     /\ status f = 502%Z
     /\ requests (trace w') = repeat ("GET", "http://localhost:8080/jobs/j1") 2)
  /\ (let rt := demo_rt [("running", JObj [("status", JStr "running")]);
                         ("list", JArr [])] in
      let env := demo_env None [ok_json "running"; ok_json "list"] in
      exists w',
        poll_job rt env 5 "j1" "p1" start
        = Some (Raise (PyError "AttributeError" "'list' object has no attribute 'get'"),
                w')
        /\ requests (trace w') = repeat ("GET", "http://localhost:8080/jobs/j1") 2).
Proof.
  split; intros rt env.
  - destruct (proj1 (poll_job_broken_poll rt env "j1" "p1" start 1 5
                       ltac:(intros i Hi; destruct i as [|[|i]];
                             [reflexivity | reflexivity | lia])
                       ltac:(intros i Hi; destruct i as [|i]; [|lia];
                             eexists; split; reflexivity)
                       ltac:(lia))
                (HTTPFailureExc (mkHTTPFailure 502 "GET" "/jobs/j1" [] (Some "")
                                   JNull JNull JNull None None)))
      as [w' [Hrun Hreq]].
    + vm_compute. reflexivity.
    + eexists. exists w'. split; [exact Hrun|]. split; [reflexivity | exact Hreq].
  - destruct (proj2 (poll_job_broken_poll rt env "j1" "p1" start 1 5
                       ltac:(intros i Hi; destruct i as [|[|i]];
                             [reflexivity | reflexivity | lia])
                       ltac:(intros i Hi; destruct i as [|i]; [|lia];
                             eexists; split; reflexivity)
                       ltac:(lia))
                (JArr []))
      as [w' [Hrun Hreq]].
    + vm_compute. reflexivity.
    + reflexivity.
    + exists w'. split; [exact Hrun | exact Hreq].
Defined.

(** ** The requests of the S3 adapter *)

(** Turn the bookkeeping of a run into equations on [requests]. *)
Ltac req_facts :=
  repeat match goal with
  | H : logged_only _ _ |- _ => destruct H as (_ & _ & H & _)
  | H : after_request _ _ _ |- _ => destruct H as (_ & _ & H & _)
  end.

(** Rewrite the requests of the last world down to those of the first. *)
Ltac req_chain :=
  repeat match goal with
  | H : requests (trace ?a) = _ |- context [requests (trace ?a)] => rewrite H
  end;
  cbn [firstn]; rewrite <- ?app_assoc; cbn [app]; rewrite ?app_nil_r; reflexivity.

(** Run the adapter in [H] as far as it goes, along every path. *)
Ltac run_all H :=
  repeat first
    [ run_head H
    | rewrite check_validation_run in H;
      match type of H with
      | (if ?c then _ else _) = _ => destruct c eqn:?
      end ].

(** The run in [H] ends with a last log line. *)
Ltac last_log H :=
  match type of H with
  | log ?m ?w0 = _ =>
      let wz := fresh "w" in
      let Hc := fresh "Hc" in
      let Hl := fresh "Hl" in
      destruct (quiet_log m w0) as (wz & Hc & Hl); rewrite Hc in H; clear Hc
  end.

(** X13.  The order of the S3 adapter's requests: whatever the backend
    answers, the adapter sends a prefix of GET, POST validate, PUT, GET,
    DELETE, GET on the bucket's policy, each at most once and in this order,
    and it completes only after all six. *)
Theorem s3_adapter_request_order (rt : PyRuntime) (env : Env)
    (profile_id bucket : string) (w : World) :
  let policy := (BASE_URL env ++ policy_path bucket)%string in
  let validate := (BASE_URL env ++ validate_path bucket)%string in
  let all_six := [("GET", policy); ("POST", validate); ("PUT", policy);
                  ("GET", policy); ("DELETE", policy); ("GET", policy)] in
  let run := exercise_bucket_policy rt env profile_id bucket w in
  exists k : nat,
    (1 <= k <= 6)%nat
    /\ requests (trace (snd run)) = requests (trace w) ++ firstn k all_six
    /\ (fst run = Ret tt -> k = 6%nat).
Proof.
  intros policy validate all_six run. subst run policy validate all_six.
  destruct (exercise_bucket_policy rt env profile_id bucket w) as [r w'] eqn:H.
  cbn [fst snd].
  unfold exercise_bucket_policy in H. cbv zeta in H.
  run_all H; try last_log H; inversion H; subst; clear H; req_facts;
    first [ exists 6%nat; split; [lia|]; split; [req_chain | reflexivity]
          | exists 1%nat; split; [lia|]; split; [req_chain | intros D; discriminate D]
          | exists 2%nat; split; [lia|]; split; [req_chain | intros D; discriminate D]
          | exists 3%nat; split; [lia|]; split; [req_chain | intros D; discriminate D]
          | exists 4%nat; split; [lia|]; split; [req_chain | intros D; discriminate D]
          | exists 5%nat; split; [lia|]; split; [req_chain | intros D; discriminate D]
          | exists 6%nat; split; [lia|]; split; [req_chain | intros D; discriminate D] ].
Qed.

(** X14.  The S3 adapter applies no policy that the static validation did not
    pass: unless the validation request is answered, and by something other
    than an object whose [ok] is [False], the run raises and has sent at most
    the initial GET and the validation request, so no PUT. *)
Theorem s3_adapter_put_needs_validation (rt : PyRuntime) (env : Env)
    (profile_id bucket : string) (w : World) :
  let policy := (BASE_URL env ++ policy_path bucket)%string in
  let validate := (BASE_URL env ++ validate_path bucket)%string in
  let run := exercise_bucket_policy rt env profile_id bucket w in
  (forall v,
      json_answer rt env (sent w + 1) "POST" (validate_path bucket) (Some profile_id)
                  (policy_body (s3_policy_doc bucket)) = Ret v ->
      isinstance_dict v && is_False (obj_get v "ok") = true) ->
  (exists e, fst run = Raise e)
  /\ (requests (trace (snd run)) = requests (trace w) ++ [("GET", policy)]
      \/ requests (trace (snd run))
         = requests (trace w) ++ [("GET", policy); ("POST", validate)]).
Proof.
  intros policy validate run Hrej. subst run policy validate.
  destruct (exercise_bucket_policy rt env profile_id bucket w) as [r w'] eqn:H.
  cbn [fst snd].
  unfold exercise_bucket_policy in H. cbv zeta in H.
  run_head H. run_head H.
  2:{ inversion H; subst; clear H; req_facts. split; [eauto|]. left. req_chain. }
  run_head H.
  { inversion H; subst; clear H; req_facts. split; [eauto|]. left. req_chain. }
  run_head H.
  { inversion H; subst; clear H; req_facts. split; [eauto|]. left. req_chain. }
  run_head H.
  { inversion H; subst; clear H; req_facts. split; [eauto|]. left. req_chain. }
  run_head H.
  match type of H with
  | bind (request_json ?rt ?env ?m ?p ?pid ?jb) ?k ?w0 = _ =>
      destruct (run_request_json rt env m p pid jb k w0) as (w3 & Hr3 & He);
      rewrite He in H; clear He;
      replace (sent w0) with (sent w + 1)%nat in H by (sent_facts; lia)
  end.
  destruct (json_answer rt env (sent w + 1) "POST" (validate_path bucket)
              (Some profile_id) (policy_body (s3_policy_doc bucket))) as [v|e] eqn:Hv.
  - rewrite check_validation_run, (Hrej v eq_refl) in H.
    inversion H; subst; clear H; req_facts. split; [eauto|]. right. req_chain.
  - inversion H; subst; clear H; req_facts. split; [eauto|]. right. req_chain.
Qed.

Lemma s3_adapter_put_needs_validation_witness :
  let rt := demo_rt [("absent", JObj [("bucket", JStr "b"); ("exists", JBool false)]);
                     ("bad", JObj [("ok", JBool false)])] in
  let env := demo_env None [ok_json "absent"; ok_json "bad"] in
  let run := exercise_bucket_policy rt env "p1" "b" start in
  (exists e, fst run = Raise e)
  /\ (requests (trace (snd run)) = [("GET", "http://localhost:8080/buckets/b/policy")]
      \/ requests (trace (snd run))
         = [("GET", "http://localhost:8080/buckets/b/policy");
            ("POST", "http://localhost:8080/buckets/b/policy/validate")]).
Proof.
  intros rt env run.
  apply (s3_adapter_put_needs_validation rt env "p1" "b" start).
  intros v Hv. vm_compute in Hv. inversion Hv. reflexivity.
Defined.

(** ** The Azure adapter after its PUT *)

Lemma has_e2e_read_inv (v : JSON) :
  has_e2e_read v = true ->
  exists stored entry,
    v = JArr stored /\ In (JObj entry) stored /\ dict_get entry "id" = JStr "e2e-read".
Proof.
  destruct v as [| | | | stored |]; try discriminate. cbn [has_e2e_read].
  intros H. apply existsb_exists in H. destruct H as (x & Hin & Hx).
  apply andb_true_iff in Hx. destruct Hx as [Hd Hid].
  apply is_dict_inv in Hd. destruct Hd as [entry ->].
  apply py_eq_str_inv in Hid. cbn [obj_get] in Hid.
  exists stored, entry. auto.
Qed.

(** X15.  The Azure adapter completes only if the GET after the PUT shows the
    policy it has just applied: an object whose [exists] is [True] and whose
    [policy] is an object with [publicAccess] equal to "container" and, among
    its [storedAccessPolicies], an object with the id "e2e-read". *)
Theorem azure_adapter_applied_checks (rt : PyRuntime) (env : Env)
    (profile_id bucket : string) (w : World) :
  let after_put :=
    json_answer rt env (sent w + 3) "GET" (policy_path bucket) (Some profile_id) None in
  let run := exercise_azure_container_policy rt env profile_id bucket w in
  fst run = Ret tt ->
  exists envelope pol stored entry,
    after_put = Ret (JObj envelope)
    /\ dict_get envelope "exists" = JBool true
    /\ dict_get envelope "policy" = JObj pol
    /\ dict_get pol "publicAccess" = JStr "container"
    /\ dict_get pol "storedAccessPolicies" = JArr stored
    /\ In (JObj entry) stored
    /\ dict_get entry "id" = JStr "e2e-read".
Proof.
  intros after_put run Hret. subst run after_put.
  destruct (exercise_azure_container_policy rt env profile_id bucket w)
    as [r w'] eqn:H.
  cbn [fst] in Hret. subst r.
  unfold exercise_azure_container_policy in H. cbv zeta in H.
  run_head H. run_head H; [|discriminate H].
  run_head H; [discriminate H|].
  run_head H. run_head H; [|discriminate H].
  rewrite check_validation_run in H.
  destruct (isinstance_dict a0 && is_False (obj_get a0 "ok")); [discriminate H|].
  run_head H. run_head H; [|discriminate H].
  run_head H.
  match type of H with
  | bind (request_json ?rt ?env ?m ?p ?pid ?jb) ?k ?w0 = _ =>
      destruct (run_request_json rt env m p pid jb k w0) as (w7 & Hr7 & He);
      rewrite He in H; clear He;
      replace (sent w0) with (sent w + 3)%nat in H by (sent_facts; lia)
  end.
  destruct (json_answer rt env (sent w + 3) "GET" (policy_path bucket)
              (Some profile_id) None) as [v|e]; [|discriminate H].
  run_head H; [discriminate H|]. run_head H; [discriminate H|].
  run_head H; [discriminate H|]. run_head H; [discriminate H|].
  clear H.
  match goal with
  | Hd : negb (isinstance_dict v) || _ = false |- _ =>
      apply orb_false_iff in Hd; destruct Hd as [Hd Hex];
      apply negb_false_iff in Hd, Hex;
      apply is_dict_inv in Hd; destruct Hd as [envelope ->];
      apply is_True_inv in Hex; cbn [obj_get] in *
  end.
  match goal with
  | Hd : negb (isinstance_dict (dict_get envelope "policy")) = false |- _ =>
      apply negb_false_iff, is_dict_inv in Hd; destruct Hd as [pol Hpol]
  end.
  rewrite Hpol in *. cbn [obj_get] in *.
  match goal with
  | Hp : negb (py_eq_str (dict_get pol "publicAccess") "container") = false |- _ =>
      apply negb_false_iff, py_eq_str_inv in Hp
  end.
  match goal with
  | Hs : negb (has_e2e_read _) = false |- _ =>
      apply negb_false_iff, has_e2e_read_inv in Hs;
      destruct Hs as (stored & entry & Hst & Hin & Hid)
  end.
  exists envelope, pol, stored, entry. auto 10.
Qed.

Lemma azure_adapter_applied_checks_witness :
  exists envelope pol stored entry,
    json_answer (azure_rt azure_private_empty) azure_env 3 "GET" (policy_path "b")
                (Some "p1") None = Ret (JObj envelope)
    /\ dict_get envelope "exists" = JBool true
    /\ dict_get envelope "policy" = JObj pol
    /\ dict_get pol "publicAccess" = JStr "container"
    /\ dict_get pol "storedAccessPolicies" = JArr stored
    /\ In (JObj entry) stored
    /\ dict_get entry "id" = JStr "e2e-read".
Proof.
  apply (azure_adapter_applied_checks (azure_rt azure_private_empty) azure_env
           "p1" "b" start).
  vm_compute. reflexivity.
Defined.

(** ** The GCS adapter and its strict toggle *)

Lemma gcs_skip_run (rt : PyRuntime) (required : bool) (where_ : string) (e : exn)
    (w : World) :
  exists w',
    gcs_skip rt required where_ e w = (if required then Raise e else Ret tt, w')
    /\ logged_only w w'.
Proof.
  unfold gcs_skip. destruct required.
  - exists w. split; [reflexivity | apply logged_only_refl].
  - destruct e as [f|msg|cls msg];
      match goal with
      | |- exists w', log ?m w = _ /\ _ =>
          destruct (quiet_log m w) as (w' & Hc & Hl); exists w'; split; assumption
      end.
Qed.

(** X16.  The strict toggle decides what a failing initial GET means to the
    GCS adapter: with [E2E_GCS_IAM] set to one of 1, true, yes, y (in any
    case) the failure is raised as it is; otherwise the adapter logs that it
    skips the scenario and returns.  Either way nothing more is requested. *)
Theorem gcs_adapter_initial_get_failure (rt : PyRuntime) (env : Env)
    (profile_id bucket : string) (w : World) (e : exn) :
  let run := exercise_gcs_iam_policy rt env profile_id bucket w in
  json_answer rt env (sent w) "GET" (policy_path bucket) (Some profile_id) None
  = Raise e ->
  fst run = (if strict_toggle (E2E_GCS_IAM env) then Raise e else Ret tt)
  /\ requests (trace (snd run))
     = requests (trace w) ++ [("GET", (BASE_URL env ++ policy_path bucket)%string)].
Proof.
  intros run Hget. subst run.
  destruct (exercise_gcs_iam_policy rt env profile_id bucket w) as [r w'] eqn:H.
  cbn [fst snd].
  unfold exercise_gcs_iam_policy in H. cbv zeta in H.
  run_head H.
  match type of H with
  | bind (attempt (request_json ?rt ?env ?m ?p ?pid ?jb)) ?k ?w0 = _ =>
      destruct (run_attempt_request_json rt env m p pid jb k w0) as (w1 & Hr1 & He);
      rewrite He in H; clear He;
      replace (sent w0) with (sent w) in H by (sent_facts; lia)
  end.
  rewrite Hget in H.
  destruct (gcs_skip_run rt (strict_toggle (E2E_GCS_IAM env)) "get" e w1)
    as (w2 & Hskip & Hl2).
  rewrite Hskip in H. inversion H; subst; clear H.
  split; [reflexivity|]. req_facts. req_chain.
Qed.

Lemma gcs_adapter_initial_get_failure_witness :
  let env := demo_env (Some "Yes") [WireResponse 501 [] []] in
  let run := exercise_gcs_iam_policy gcs_rt env "p1" "b" start in
  (exists f, fst run = Raise (HTTPFailureExc f) /\ status f = 501%Z)
  /\ requests (trace (snd run)) = [("GET", "http://localhost:8080/buckets/b/policy")].
Proof.
  intros env run.
  destruct (gcs_adapter_initial_get_failure gcs_rt env "p1" "b" start
              (HTTPFailureExc (mkHTTPFailure 501 "GET" "/buckets/b/policy" []
                                 (Some "") JNull JNull JNull None None)))
    as [Hr Hq].
  - vm_compute. reflexivity.
  - split; [|exact Hq]. eexists. split; [exact Hr | reflexivity].
Defined.

(** X17.  What can still fail a run of the GCS adapter when the strict toggle
    is off: only an initial answer that is no object, an answer after the PUT
    that carries no policy object, and the verdict on the closing DELETE.  A
    failing GET, validation, PUT or restore never fails the run. *)
Theorem gcs_adapter_tolerant_failures (rt : PyRuntime) (env : Env)
    (profile_id bucket : string) (w : World) (e : exn) :
  let run := exercise_gcs_iam_policy rt env profile_id bucket w in
  let get := fun n : nat =>
    json_answer rt env (sent w + n) "GET" (policy_path bucket) (Some profile_id) None in
  strict_toggle (E2E_GCS_IAM env) = false ->
  fst run = Raise e ->
  (exists v, get 0%nat = Ret v /\ isinstance_dict v = false
             /\ e = RuntimeError ("Unexpected bucket policy response: " ++ py_repr rt v))
  \/ (exists v, get 3%nat = Ret v /\ isinstance_dict (obj_get v "policy") = false
                /\ e = RuntimeError ("Expected policy object after PUT: "
                                     ++ py_repr rt v))
  \/ Raise e
     = delete_verdict rt (json_answer rt env (sent w + 5) "DELETE" (policy_path bucket)
                                      (Some profile_id) None).
Proof.
  intros run get Hstrict Hret. subst run get.
  destruct (exercise_gcs_iam_policy rt env profile_id bucket w) as [r w'] eqn:H.
  cbn [fst] in Hret. subst r.
  unfold exercise_gcs_iam_policy in H. cbv zeta in H. rewrite Hstrict in H.
  assert (Hskip : forall where_ e0 w0, gcs_skip rt false where_ e0 w0 <> (Raise e, w')).
  { intros where_ e0 w0 Hc.
    destruct (gcs_skip_run rt false where_ e0 w0) as (wz & Hz & _).
    rewrite Hz in Hc. discriminate Hc. }
  run_head H. run_head H; [|exfalso; exact (Hskip _ _ _ H)].
  run_head H.
  { inversion H; subst; clear H. left. exists a.
    replace (sent w + 0)%nat with (sent w0) by (sent_facts; lia).
    apply negb_true_iff in Hc. auto. }
  run_head H.
  match type of H with
  | bind (attempt (bind (request_json ?rt ?env ?m ?p ?pid ?jb) _)) ?k ?w0 = _ =>
      destruct (run_attempt_validate rt env m p pid jb k w0) as (w3 & Hr3 & He3);
      rewrite He3 in H; clear He3;
      destruct (json_answer rt env (sent w0) m p pid jb) as [v|e1]
  end.
  2: { exfalso; exact (Hskip _ _ _ H). }
  destruct (isinstance_dict v && is_False (obj_get v "ok")).
  { exfalso; exact (Hskip _ _ _ H). }
  run_head H. run_head H; [|exfalso; exact (Hskip _ _ _ H)].
  run_head H. run_head H; [|exfalso; exact (Hskip _ _ _ H)].
  run_head H.
  { inversion H; subst; clear H. right. left. exists a1.
    replace (sent w + 3)%nat with (sent w6) by (sent_facts; lia).
    apply negb_true_iff in Hc0.
    split; [assumption|]. split; [|reflexivity].
    destruct a1; try reflexivity. exact Hc0. }
  run_head H.
  match type of H with
  | bind (try_except (bind (request_json ?rt ?env ?m ?p ?pid ?jb) _) ?h) ?k ?w0 = _ =>
      destruct (run_restore rt env m p pid jb h k w0) as (w9 & Hr9 & He9);
      rewrite He9 in H; clear He9;
      destruct (json_answer rt env (sent w0) m p pid jb) as [v9|e9]
  end.
  - run_head H.
    unfold bind in H.
    match type of H with
    | context [gcs_expect_delete_rejected rt env profile_id bucket ?w0] =>
        destruct (gcs_expect_delete_rejected_run rt env profile_id bucket w0)
          as (wd & Hd & Hrun);
        rewrite Hrun in H;
        replace (sent w0) with (sent w + 5)%nat in H by (sent_facts; lia)
    end.
    right. right.
    destruct (delete_verdict rt _) as [[]|e2]; inversion H; reflexivity.
  - run_head H. run_head H.
    unfold bind in H.
    match type of H with
    | context [gcs_expect_delete_rejected rt env profile_id bucket ?w0] =>
        destruct (gcs_expect_delete_rejected_run rt env profile_id bucket w0)
          as (wd & Hd & Hrun);
        rewrite Hrun in H;
        replace (sent w0) with (sent w + 5)%nat in H by (sent_facts; lia)
    end.
    right. right.
    destruct (delete_verdict rt _) as [[]|e2]; inversion H; reflexivity.
Qed.

Lemma gcs_adapter_tolerant_failures_witness :
  let get := fun n : nat =>
    json_answer gcs_rt (gcs_env None "forbidden") n "GET" (policy_path "b")
                (Some "p1") None in
  let e := RuntimeError "Expected bucket_policy_delete_unsupported, got forbidden (status=400)" in
  (exists v, get 0%nat = Ret v /\ isinstance_dict v = false
             /\ e = RuntimeError ("Unexpected bucket policy response: "
                                  ++ py_repr gcs_rt v))
  \/ (exists v, get 3%nat = Ret v /\ isinstance_dict (obj_get v "policy") = false
                /\ e = RuntimeError ("Expected policy object after PUT: "
                                     ++ py_repr gcs_rt v))
  \/ Raise e
     = delete_verdict gcs_rt
         (json_answer gcs_rt (gcs_env None "forbidden") 5 "DELETE" (policy_path "b")
                      (Some "p1") None).
Proof.
  intros get e.
  apply (gcs_adapter_tolerant_failures gcs_rt (gcs_env None "forbidden") "p1" "b"
           start e).
  - reflexivity.
  - vm_compute. reflexivity.
Defined.

(** ** The policy the GCS adapter applies *)

Lemma dict_get_set_same (d : list (string * JSON)) (k : string) (v : JSON) :
  dict_get (dict_set d k v) k = v.
Proof.
  induction d as [|[k' v'] d IH]; cbn.
  - rewrite String.eqb_refl. reflexivity.
  - destruct (String.eqb k' k) eqn:E; cbn; rewrite E; [reflexivity | exact IH].
Qed.

Lemma dict_get_set_other (d : list (string * JSON)) (k k0 : string) (v : JSON) :
  k <> k0 -> dict_get (dict_set d k v) k0 = dict_get d k0.
Proof.
  intros Hne. induction d as [|[k' v'] d IH]; cbn.
  - destruct (String.eqb_spec k k0); [contradiction | reflexivity].
  - destruct (String.eqb_spec k' k) as [->|Hk]; cbn.
    + destruct (String.eqb_spec k k0); [contradiction | reflexivity].
    + rewrite IH. reflexivity.
Qed.

Lemma dict_has_set_same (d : list (string * JSON)) (k : string) (v : JSON) :
  dict_has (dict_set d k v) k = true.
Proof.
  induction d as [|[k' v'] d IH]; cbn.
  - rewrite String.eqb_refl. reflexivity.
  - destruct (String.eqb k' k) eqn:E; cbn; rewrite E; [reflexivity | exact IH].
Qed.

Lemma dict_has_set_other (d : list (string * JSON)) (k k0 : string) (v : JSON) :
  dict_has d k0 = true -> dict_has (dict_set d k v) k0 = true.
Proof.
  induction d as [|[k' v'] d IH]; cbn; [discriminate|].
  intros H. destruct (String.eqb k' k) eqn:E; cbn.
  - exact H.
  - apply orb_true_iff in H. apply orb_true_iff.
    destruct H as [H|H]; [left; exact H | right; exact (IH H)].
Qed.

Lemma dict_set_get_id (d : list (string * JSON)) (k : string) :
  dict_has d k = true -> dict_set d k (dict_get d k) = d.
Proof.
  induction d as [|[k' v'] d IH]; cbn; [discriminate|].
  destruct (String.eqb k' k) eqn:E; cbn; [reflexivity|].
  intros H. rewrite (IH H). reflexivity.
Qed.

Lemma dict_set_set (d : list (string * JSON)) (k : string) (v v' : JSON) :
  dict_set (dict_set d k v) k v' = dict_set d k v'.
Proof.
  induction d as [|[k0 v0] d IH]; cbn.
  - rewrite String.eqb_refl. reflexivity.
  - destruct (String.eqb k0 k) eqn:E; cbn; rewrite E; [reflexivity|].
    rewrite IH. reflexivity.
Qed.

Lemma all_users_added (members : list JSON) :
  In (JStr "allUsers")
     (if existsb (fun x => py_eq_str x "allUsers") members
      then members else members ++ [JStr "allUsers"]).
Proof.
  destruct (existsb _ members) eqn:E.
  - apply existsb_exists in E. destruct E as (x & Hin & Hx).
    apply py_eq_str_inv in Hx. subst x. exact Hin.
  - apply in_or_app. right. left. reflexivity.
Qed.

(** One turn of the loop over the bindings: a binding for the viewer role
    comes out with [allUsers] among its members and sets [found]; anything
    else comes out as it went in. *)
Lemma add_all_users_viewer (b : JSON) (bd : list (string * JSON)) :
  fst (add_all_users b) = JObj bd -> viewer_binding bd ->
  has_all_users bd /\ snd (add_all_users b) = true.
Proof.
  unfold viewer_binding, has_all_users.
  destruct b as [| | | | |bd0]; cbn [add_all_users fst]; try discriminate.
  destruct (py_eq_str (dict_get bd0 "role") gcs_role) eqn:Hrole; cbn [fst snd].
  - intros Hb _. inversion Hb; subst bd; clear Hb. split; [|reflexivity].
    eexists. split; [apply dict_get_set_same | apply all_users_added].
  - intros Hb Hr. inversion Hb; subst bd. rewrite Hr, py_eq_str_refl in Hrole.
    discriminate Hrole.
Qed.

Lemma add_all_users_found (b : JSON) :
  snd (add_all_users b) = true ->
  exists bd, fst (add_all_users b) = JObj bd /\ viewer_binding bd.
Proof.
  unfold viewer_binding.
  destruct b as [| | | | |bd0]; cbn [add_all_users snd]; try discriminate.
  destruct (py_eq_str (dict_get bd0 "role") gcs_role) eqn:Hrole; cbn [fst snd];
    [|discriminate].
  intros _. eexists. split; [reflexivity|].
  rewrite dict_get_set_other by discriminate.
  apply py_eq_str_inv. exact Hrole.
Qed.

Lemma add_all_users_again (b : JSON) :
  add_all_users (fst (add_all_users b)) = add_all_users b.
Proof.
  destruct b as [| | | | |bd0]; cbn [add_all_users fst]; try reflexivity.
  destruct (py_eq_str (dict_get bd0 "role") gcs_role) eqn:Hrole; cbn [fst].
  - cbn [add_all_users].
    rewrite dict_get_set_other by discriminate. rewrite Hrole.
    rewrite dict_get_set_same, dict_set_set.
    set (ms := match dict_get bd0 "members" with JArr m => m | _ => [] end).
    destruct (existsb (fun x => py_eq_str x "allUsers") ms) eqn:E.
    + rewrite E. reflexivity.
    + rewrite existsb_app. cbn [existsb py_eq_str].
      rewrite String.eqb_refl, orb_true_r. reflexivity.
  - cbn [add_all_users]. rewrite Hrole. reflexivity.
Qed.

Lemma gcs_modified_policy_shape (original : JSON) :
  exists d,
    gcs_modified_policy original = JObj d
    /\ dict_has d "version" = true
    /\ dict_has d "bindings" = true
    /\ exists bindings, dict_get d "bindings" = JArr (viewer_bindings bindings).
Proof.
  unfold gcs_modified_policy.
  set (modified := match original with
                   | JObj d => d
                   | _ => [("version", JNum 1); ("bindings", JArr [])]
                   end).
  set (bindings := match dict_get modified "bindings" with JArr l => l | _ => [] end).
  fold (viewer_bindings bindings).
  set (modified' := dict_set modified "bindings" (JArr (viewer_bindings bindings))).
  assert (Hb : dict_get modified' "bindings" = JArr (viewer_bindings bindings))
    by apply dict_get_set_same.
  assert (Hh : dict_has modified' "bindings" = true) by apply dict_has_set_same.
  destruct (dict_has modified' "version") eqn:Hv.
  - exists modified'. split; [reflexivity|]. split; [exact Hv|]. split; [exact Hh|].
    exists bindings. exact Hb.
  - exists (dict_set modified' "version" (JNum 1)). split; [reflexivity|].
    split; [apply dict_has_set_same|].
    split; [apply dict_has_set_other; exact Hh|].
    exists bindings. rewrite dict_get_set_other by discriminate. exact Hb.
Qed.

Lemma viewer_bindings_all (bindings : list JSON) (bd : list (string * JSON)) :
  In (JObj bd) (viewer_bindings bindings) -> viewer_binding bd -> has_all_users bd.
Proof.
  unfold viewer_bindings. cbv zeta.
  assert (Hmap : In (JObj bd) (map fst (map add_all_users bindings)) ->
                 viewer_binding bd -> has_all_users bd).
  { intros Hin Hv. rewrite map_map in Hin. apply in_map_iff in Hin.
    destruct Hin as (b & Hb & _).
    exact (proj1 (add_all_users_viewer b bd Hb Hv)). }
  destruct (existsb snd (map add_all_users bindings)); [exact Hmap|].
  intros Hin Hv. apply in_app_or in Hin. destruct Hin as [Hin|[Hnew|[]]].
  - exact (Hmap Hin Hv).
  - inversion Hnew; subst bd. exists [JStr "allUsers"].
    split; [reflexivity | left; reflexivity].
Qed.

Lemma viewer_bindings_some (bindings : list JSON) :
  exists bd, In (JObj bd) (viewer_bindings bindings) /\ viewer_binding bd.
Proof.
  unfold viewer_bindings. cbv zeta.
  destruct (existsb snd (map add_all_users bindings)) eqn:E.
  - apply existsb_exists in E. destruct E as (x & Hin & Hx).
    apply in_map_iff in Hin. destruct Hin as (b & <- & Hb).
    destruct (add_all_users_found b Hx) as (bd & Hbd & Hv).
    exists bd. split; [|exact Hv].
    rewrite map_map, <- Hbd. apply in_map_iff. exists b. split; [reflexivity | exact Hb].
  - eexists. split; [apply in_or_app; right; left; reflexivity | reflexivity].
Qed.

Lemma viewer_bindings_again (bindings : list JSON) :
  viewer_bindings (viewer_bindings bindings) = viewer_bindings bindings.
Proof.
  assert (Hfix : forall l,
             map add_all_users (map fst (map add_all_users l)) = map add_all_users l).
  { intros l. rewrite !map_map. apply map_ext. intros b. apply add_all_users_again. }
  unfold viewer_bindings at 2. cbv zeta.
  destruct (existsb snd (map add_all_users bindings)) eqn:E.
  - unfold viewer_bindings. cbv zeta. rewrite Hfix, E. reflexivity.
  - unfold viewer_bindings. cbv zeta. rewrite E, !map_app, Hfix.
    change (map add_all_users
              [JObj [("role", JStr gcs_role); ("members", JArr [JStr "allUsers"])]])
      with [(JObj [("role", JStr gcs_role); ("members", JArr [JStr "allUsers"])], true)].
    rewrite existsb_app. cbn [existsb snd map fst].
    rewrite orb_true_r. reflexivity.
Qed.

(** X18.  Whatever policy the backend reported, the policy the GCS adapter
    validates and applies is an object with a [version] and a list of
    [bindings] in which some binding has the role
    [roles/storage.objectViewer], and every binding with that role has
    [allUsers] among its members. *)
Theorem gcs_modified_policy_grants_all_users (original : JSON) :
  exists d bindings,
    gcs_modified_policy original = JObj d
    /\ dict_has d "version" = true
    /\ dict_get d "bindings" = JArr bindings
    /\ (exists bd, In (JObj bd) bindings /\ viewer_binding bd)
    /\ (forall bd, In (JObj bd) bindings -> viewer_binding bd -> has_all_users bd).
Proof.
  destruct (gcs_modified_policy_shape original) as (d & Hd & Hv & _ & bs & Hb).
  exists d, (viewer_bindings bs).
  split; [exact Hd|]. split; [exact Hv|]. split; [exact Hb|]. split.
  - apply viewer_bindings_some.
  - apply viewer_bindings_all.
Qed.

(** X19.  Modifying a policy that the adapter has already modified changes
    nothing: [allUsers] is not added twice, and no second binding is
    appended. *)
Theorem gcs_modified_policy_idempotent (original : JSON) :
  gcs_modified_policy (gcs_modified_policy original) = gcs_modified_policy original.
Proof.
  destruct (gcs_modified_policy_shape original) as (d & Hd & Hv & Hh & bs & Hb).
  rewrite Hd. unfold gcs_modified_policy. rewrite Hb.
  fold (viewer_bindings (viewer_bindings bs)).
  rewrite viewer_bindings_again, <- Hb, (dict_set_get_id d "bindings" Hh), Hv.
  reflexivity.
Qed.

(** X20.  The modification touches nothing but the bindings: every other
    field the original policy has, its [etag] and its [version] among them,
    is in the modified policy with the same value. *)
Theorem gcs_modified_policy_keeps_fields (original : list (string * JSON))
    (k : string) :
  k <> "bindings" ->
  dict_has original k = true ->
  obj_get (gcs_modified_policy (JObj original)) k = dict_get original k.
Proof.
  intros Hk Hhas. unfold gcs_modified_policy.
  match goal with
  | |- context [dict_set original "bindings" ?v] =>
      set (modified' := dict_set original "bindings" v)
  end.
  assert (Hg : dict_get modified' k = dict_get original k)
    by (apply dict_get_set_other; congruence).
  destruct (dict_has modified' "version") eqn:Hv; cbn [obj_get]; [exact Hg|].
  destruct (String.eqb_spec "version" k) as [<-|Hne].
  - assert (Hc : dict_has modified' "version" = true)
      by (apply dict_has_set_other; exact Hhas).
    rewrite Hc in Hv. discriminate Hv.
  - rewrite dict_get_set_other by exact Hne. exact Hg.
Qed.

Lemma gcs_modified_policy_keeps_fields_witness :
  obj_get (gcs_modified_policy
             (JObj [("etag", JStr "CAE="); ("bindings", JArr [])])) "etag"
  = JStr "CAE=".
Proof.
  apply (gcs_modified_policy_keeps_fields
           [("etag", JStr "CAE="); ("bindings", JArr [])] "etag").
  - discriminate.
  - reflexivity.
Defined.

(** ** Bucket creation *)

Lemma existsb_names (bucket : string) (l : list JSON) :
  existsb (fun v => py_eq_str v bucket)
          (map (fun b => obj_get b "name") (filter isinstance_dict l)) = true
  <-> exists d, In (JObj d) l /\ dict_get d "name" = JStr bucket.
Proof.
  rewrite existsb_exists. split.
  - intros (v & Hin & Hv). apply in_map_iff in Hin. destruct Hin as (b & <- & Hb).
    apply filter_In in Hb. destruct Hb as [Hb Hd].
    apply is_dict_inv in Hd. destruct Hd as [d ->].
    exists d. split; [exact Hb|]. apply py_eq_str_inv in Hv. exact Hv.
  - intros (d & Hin & Hn). exists (JStr bucket). split; [|apply py_eq_str_refl].
    apply in_map_iff. exists (JObj d). split; [exact Hn|].
    apply filter_In. split; [exact Hin | reflexivity].
Qed.

(** X21.  [ensure_bucket] returns exactly when the create request did not
    fail and the listing that follows is a list holding an object whose
    [name] is the bucket; what the create request answered is not looked
    at.  In every other case it raises. *)
Theorem ensure_bucket_outcome (rt : PyRuntime) (env : Env)
    (profile_id bucket : string) (w : World) :
  let created :=
    json_answer rt env (sent w) "POST" "/buckets" (Some profile_id)
                (Some (JObj [("name", JStr bucket)])) in
  let listed :=
    json_answer rt env (sent w + 1) "GET" "/buckets" (Some profile_id) None in
  fst (ensure_bucket rt env profile_id bucket w) = Ret tt
  <-> (exists v, created = Ret v)
      /\ (exists l d, listed = Ret (JArr l)
                      /\ In (JObj d) l /\ dict_get d "name" = JStr bucket).
Proof.
  intros created listed. subst created listed.
  destruct (ensure_bucket rt env profile_id bucket w) as [r w'] eqn:H.
  cbn [fst]. unfold ensure_bucket in H.
  match type of H with
  | bind (request_json ?rt ?env ?m ?p ?pid ?jb) ?k ?w0 = _ =>
      destruct (run_request_json rt env m p pid jb k w0) as (w1 & Hr1 & He1)
  end.
  rewrite He1 in H. clear He1.
  destruct (json_answer rt env (sent w) "POST" "/buckets" (Some profile_id)
              (Some (JObj [("name", JStr bucket)]))) as [v|e].
  2:{ inversion H; subst. split; [discriminate|]. intros [[v Hv] _]. discriminate Hv. }
  match type of H with
  | bind (request_json ?rt ?env ?m ?p ?pid ?jb) ?k ?w0 = _ =>
      destruct (run_request_json rt env m p pid jb k w0) as (w2 & Hr2 & He2);
      rewrite He2 in H; clear He2;
      replace (sent w0) with (sent w + 1)%nat in H by (sent_facts; lia)
  end.
  destruct (json_answer rt env (sent w + 1) "GET" "/buckets" (Some profile_id) None)
    as [buckets|e].
  2:{ inversion H; subst. split; [discriminate|].
      intros [_ (l & d & Hl & _)]. discriminate Hl. }
  destruct buckets as [| | | | l |];
    try (inversion H; subst; split; [discriminate|];
         intros [_ (l & d & Hl & _)]; discriminate Hl).
  cbv zeta in H. unfold check in H.
  destruct (existsb (fun v0 => py_eq_str v0 bucket)
              (map (fun b => obj_get b "name") (filter isinstance_dict l))) eqn:E;
    cbn [negb] in H; inversion H; subst; clear H.
  - split; [|reflexivity]. intros _. split; [eauto|].
    apply existsb_names in E. destruct E as (d & Hin & Hn). eauto.
  - split; [discriminate|]. intros [_ (l0 & d & Hl & Hin & Hn)].
    inversion Hl; subst l0.
    assert (Ht : existsb (fun v0 => py_eq_str v0 bucket)
                   (map (fun b => obj_get b "name") (filter isinstance_dict l)) = true)
      by (apply existsb_names; eauto).
    rewrite Ht in E. discriminate E.
Qed.

(** ** Multipart bodies of any number of files *)

Lemma multipart_form_body (boundary : list byte)
    (files : list (list byte * list byte)) :
  fst (multipart_form boundary files)
  = (bytes_of "--" ++ boundary) ++ after_dash_boundary boundary files.
Proof.
  unfold multipart_form. cbn [fst].
  induction files as [|[filename content] files IH].
  - cbn [flat_map after_dash_boundary app]. rewrite <- app_assoc. reflexivity.
  - cbn [flat_map after_dash_boundary]. rewrite <- app_assoc, IH.
    unfold part_header, disposition_prefix, content_type_line.
    repeat rewrite <- app_assoc. reflexivity.
Qed.

Lemma after_dash_boundary_length (boundary : list byte)
    (files : list (list byte * list byte)) :
  (List.length files < List.length (after_dash_boundary boundary files))%nat.
Proof.
  induction files as [|[filename content] files IH].
  - cbn. lia.
  - cbn [after_dash_boundary]. rewrite !length_app. cbn [List.length CRLF]. lia.
Qed.

Lemma parse_files (boundary : list byte) (files : list (list byte * list byte)) :
  no_byte x0d boundary = true ->
  Forall (sendable boundary) files ->
  forall fuel,
    (List.length files < fuel)%nat ->
    parse_parts fuel (bytes_of "--" ++ boundary) (after_dash_boundary boundary files)
    = Some (map file_part files).
Proof.
  intros Hb Hall. induction Hall as [|[filename content] files [Hf Hocc] _ IH];
    intros [|fuel] Hfuel; try (cbn in Hfuel; lia).
  - reflexivity.
  - cbn [fst snd] in Hf, Hocc.
    assert (Hf' : no_byte x0d filename = true).
    { unfold plain_filename in Hf.
      apply andb_true_iff in Hf. destruct Hf as [Hf _].
      apply andb_true_iff in Hf. destruct Hf as [_ Hf]. exact Hf. }
    cbn [after_dash_boundary].
    rewrite parse_parts_part.
    rewrite (find_delimiter boundary filename content Hb Hf' _ Hocc).
    rewrite IH by (cbn [List.length] in Hfuel; lia).
    rewrite (split_part_one filename content Hf'). reflexivity.
Qed.

(** X22.  [multipart_form] with any number of files, none included: when
    every file name is plain (no double quote, CR or LF) and no content has a
    line that starts with the dash-boundary, a decoder finds one part per
    file, in the order of the files, each under the field name [files] and
    with the content of its file, byte for byte. *)
Theorem multipart_roundtrip_files (boundary : list byte)
    (files : list (list byte * list byte)) :
  is_uuid4_hex boundary = true ->
  Forall (sendable boundary) files ->
  exists parts,
    multipart_decode (multipart_form boundary files) = Some parts
    /\ map part_content parts = map snd files
    /\ Forall (fun p => part_name p = Some (bytes_of "files")) parts.
Proof.
  intros Hb Hall. apply uuid4_hex_no_cr in Hb.
  exists (map file_part files). split; [|split].
  - unfold multipart_decode.
    replace (snd (multipart_form boundary files))
      with (bytes_of "multipart/form-data; boundary=" ++ boundary) by reflexivity.
    unfold boundary_of_content_type. rewrite prefixb_app, skipn_length_app.
    rewrite multipart_form_body.
    unfold multipart_parse. rewrite prefixb_app, skipn_length_app.
    apply parse_files; [exact Hb | exact Hall |].
    rewrite length_app.
    pose proof (after_dash_boundary_length boundary files). lia.
  - rewrite map_map. reflexivity.
  - apply Forall_forall. intros p Hp. apply in_map_iff in Hp.
    destruct Hp as ([filename content] & <- & _). apply part_name_one.
Qed.

Lemma multipart_roundtrip_files_witness :
  exists parts,
    multipart_decode
      (multipart_form (bytes_of "0123456789ab4def8123456789abcdef")
                      [(bytes_of "a.txt", bytes_of "first");
                       (bytes_of "b.bin", bytes_of "--second")])
    = Some parts
    /\ map part_content parts = [bytes_of "first"; bytes_of "--second"]
    /\ Forall (fun p => part_name p = Some (bytes_of "files")) parts.
Proof.
  apply (multipart_roundtrip_files (bytes_of "0123456789ab4def8123456789abcdef")
           [(bytes_of "a.txt", bytes_of "first");
            (bytes_of "b.bin", bytes_of "--second")]).
  - vm_compute. reflexivity.
  - repeat constructor; vm_compute; reflexivity.
Defined.

(** ** Where the fields of an [HTTPFailure] come from *)

Lemma parse_error_envelope_origin (rt : PyRuntime) (decoded : string)
    (ec nc nr : JSON) :
  parse_error_envelope rt decoded = (ec, nc, nr) ->
  (ec <> JNull \/ nc <> JNull ->
     exists parsed er,
       json_loads rt decoded = Value (JObj parsed)
       /\ dict_get parsed "error" = JObj er
       /\ dict_get er "code" = ec
       /\ (nc <> JNull ->
             exists norm,
               dict_get er "normalizedError" = JObj norm
               /\ dict_get norm "code" = nc
               /\ dict_get norm "retryable" = nr)).
Proof.
  unfold parse_error_envelope.
  destruct (json_loads rt decoded) as [[| | | | |parsed]|cls msg];
    try (intros H; inversion H; subst; intros [C|C]; exfalso; apply C; reflexivity).
  destruct (dict_get parsed "error") as [| | | | |er] eqn:Her;
    try (intros H; inversion H; subst; intros [C|C]; exfalso; apply C; reflexivity).
  destruct (dict_get er "normalizedError") as [| | | | |norm] eqn:Hnorm;
    intros H; inversion H; subst; intros _; exists parsed, er;
    (split; [reflexivity|]); (split; [exact Her|]); (split; [reflexivity|]);
    try (intros C; exfalso; apply C; reflexivity).
  intros _. exists norm. auto.
Qed.

(** X23.  The provider codes of an [HTTPFailure] are read from the body of
    the response and from nowhere else: [_request] raises an [HTTPFailure]
    with an [error_code] (or a [normalized_code]) other than [None] only for
    a response whose body, decoded, parses to an object with an object under
    [error]; the code is that object's [code], and the normalized code and
    its [retryable] flag are those of the object under [normalizedError].
    Its [retry_after] is the [Retry-After] header of the response. *)
Theorem http_failure_codes_origin (rt : PyRuntime) (env : Env) (meth pth : string)
    (profile_id : option string) (json_body : option JSON)
    (body : option (list byte)) (content_type accept : option string) (w : World)
    (f : HTTPFailure) :
  fst (_request rt env meth pth profile_id json_body body content_type accept w)
  = Raise (HTTPFailureExc f) ->
  exists code hs b,
    server env (sent w) = WireResponse code hs b
    /\ retry_after f = lookup (dict_of_items hs) "Retry-After"
    /\ (error_code f <> JNull \/ normalized_code f <> JNull ->
          exists parsed er,
            json_loads rt (utf8_replace rt b) = Value (JObj parsed)
            /\ dict_get parsed "error" = JObj er
            /\ dict_get er "code" = error_code f
            /\ (normalized_code f <> JNull ->
                  exists norm,
                    dict_get er "normalizedError" = JObj norm
                    /\ dict_get norm "code" = normalized_code f
                    /\ dict_get norm "retryable" = normalized_retryable f)).
Proof.
  unfold _request, urlopen.
  destruct (server env (sent w)) as [code hs b|reason|cls msg]; [|discriminate ..].
  destruct ((200 <=? code) && (code <? 300))%Z; [discriminate|].
  destruct (parse_error_envelope rt (utf8_replace rt b)) as [[ec nc] nr] eqn:Hp.
  repeat match goal with
  | |- context [bind ?c (fun _ => ?k) ?w0] =>
      let wn := fresh "w" in
      let Hl := fresh "Hl" in
      let He := fresh "He" in
      destruct (quiet_bind c k w0 ltac:(first [apply quiet_log | apply quiet_when_log]))
        as [wn [Hl He]];
      rewrite He; clear He
  end.
  unfold raise. cbn [fst]. intros H. inversion H; subst f; clear H.
  cbn [retry_after error_code normalized_code normalized_retryable].
  exists code, hs, b. split; [reflexivity|]. split; [reflexivity|].
  exact (parse_error_envelope_origin rt _ ec nc nr Hp).
Qed.

Lemma http_failure_codes_origin_witness :
  let env := demo_env None [WireResponse 400 [("Retry-After", "3")]
                                         (bytes_of "unsupported")] in
  exists code hs b,
    server env 0 = WireResponse code hs b
    /\ Some "3" = lookup (dict_of_items hs) "Retry-After"
    /\ (JStr "bucket_policy_delete_unsupported" <> JNull \/ JNull <> JNull ->
          exists parsed er,
            json_loads gcs_rt (utf8_replace gcs_rt b) = Value (JObj parsed)
            /\ dict_get parsed "error" = JObj er
            /\ dict_get er "code" = JStr "bucket_policy_delete_unsupported"
            /\ (JNull <> JNull ->
                  exists norm,
                    dict_get er "normalizedError" = JObj norm
                    /\ dict_get norm "code" = JNull
                    /\ dict_get norm "retryable" = JNull)).
Proof.
  intros env.
  apply (http_failure_codes_origin gcs_rt env "DELETE" "/buckets/b/policy"
           (Some "p1") None None None (Some "application/json") start
           (mkHTTPFailure 400 "DELETE" "/buckets/b/policy" [("Retry-After", "3")]
              (Some "unsupported") (JStr "bucket_policy_delete_unsupported")
              JNull JNull (Some "3") None)).
  vm_compute. reflexivity.
Defined.
